(** * go-utils: token verification and policy authorization middleware

    A shallow embedding of the request pipeline of [authn/jwt] (the parser
    middleware built by [Authenticator.NewMiddleware]), of [authz/opa] (the
    in-process and the sidecar authorization middleware) and of the [opa]
    client ([opaClient.Query]), together with the properties of these
    stages.

    Go values of type [interface{}] are a tagged union, a [context.Context]
    is the chain of its parents, and the effects of a call (diagnostic
    records, spans, outbound HTTP requests, runtime panics) are threaded
    through a small state monad over a [World]. *)

From stdpp Require Import base option strings list gmap.
From Stdlib Require Import ZArith Ascii.

Set Default Proof Using "Type".
#[local] Set Warnings "-register-all".
Local Open Scope string_scope.

(** ** Go values *)

(** A JSON document, as [encoding/json] decodes one into [interface{}].
    A number is a [float64]; [JNum n] is the [float64] whose value is the
    integer [n]. Numbers with a fractional part are not represented: the
    time claims below are whole seconds. *)
Inductive JSON : Type :=
| JNull
| JBool (b : bool)
| JNum (n : Z)
| JStr (s : string)
| JArr (items : list JSON)
| JObj (fields : list (string * JSON)).

(** The signing methods the JWT package registers. A method is an
    interface value holding a singleton, so comparing two methods with
    [!=] compares which singleton they are. *)
Inductive SigningMethod : Type :=
| SigningMethodHS256 | SigningMethodHS384 | SigningMethodHS512
| SigningMethodRS256 | SigningMethodRS384 | SigningMethodRS512
| SigningMethodES256 | SigningMethodES384 | SigningMethodES512
| SigningMethodPS256 | SigningMethodPS384 | SigningMethodPS512
| SigningMethodEdDSA | SigningMethodNone.

#[global] Instance SigningMethod_eq_dec : EqDecision SigningMethod.
Proof. solve_decision. Defined.

(** [error] values. The package-level variables that authn/jwt creates
    once with [errors.New] are one constructor each; [package_error] is
    such a variable of another package, known by its package and name;
    [errors_New] is a value built at the point of failure, known by its
    message; [ValidationError] is [*jwt.ValidationError] with its bit field
    [Errors]. *)
Inductive error : Type :=
| ErrTokenContextMissing
| ErrTokenInvalid
| ErrTokenExpired
| ErrTokenMalformed
| ErrTokenNotActive
| ErrUnexpectedSigningMethod
| package_error (pkg name : string)
| errors_New (msg : string)
| ValidationError (Inner : option error) (Errors : Z) (text : string).

(** Modelled from the spec: [authzerrors.ErrDeniedByPolicy], a variable of
    the package [authzerrors] of this repository, whose file is not among
    the sources. The spec has it as the "distinguished authorization-denial
    kind, distinct from internal evaluation errors". *)
Definition ErrDeniedByPolicy : error := package_error "authzerrors" "ErrDeniedByPolicy".

(** [jwt.MapClaims] and the token header are [map[string]interface{}]. *)
Abbreviation MapClaims := (gmap string JSON).

(** [jwt.Token]. [Method] is [None] for the nil interface. *)
Record Token : Type := mkToken {
  Raw : string;
  Method : option SigningMethod;
  Header : gmap string JSON;
  Claims : MapClaims;
  Signature : string;
  Valid : bool
}.

Record RSAPublicKey : Type := mkRSAPublicKey { rsa_N : Z; rsa_E : Z }.

(** [rego.ResultSet]: one [Result] per solution of the query, with the
    values of its expressions and the number of variable bindings. *)
Record rego_Result : Type := mkResult {
  Expressions : list JSON;
  Bindings : nat
}.
Abbreviation ResultSet := (list rego_Result).

(** [AuthorizationResponse] of authz/opa. *)
Record AuthorizationResponse : Type := mkAuthorizationResponse { Result : bool }.

(** A span of the tracer: its identifier, operation name and parent. *)
Record Span : Type := mkSpan {
  span_id : nat;
  operation : string;
  parent_span : option nat
}.

(** The dynamic types that the pipeline stores in an [interface{}]:
    [VData j] is any value [encoding/json] encodes as [j], [VOpaque] one it
    cannot encode (a channel, a function), [VQueryInput] the struct
    [queryInput] of authz/opa. [VRSAPublicKey None] is the
    nil pointer of type [*rsa.PublicKey]. *)
Inductive Value : Type :=
| VNil
| VString (s : string)
| VData (j : JSON)
| VOpaque (what : string)
| VQueryInput (request claims : Value)
| VToken (t : Token)
| VClaims (c : MapClaims)
| VRSAPublicKey (k : option RSAPublicKey)
| VResultSet (rs : ResultSet)
| VAuthorizationResponse (r : AuthorizationResponse)
| VSpan (s : Span)
| VClientTrace.

(** ** context.Context *)

(** Both middleware packages declare [type contextKey string]; keys of the
    two packages are of different types and never equal. The tracing and
    the HTTP tracing packages use private keys of their own. *)
Inductive contextKey : Type :=
| jwt_contextKey (name : string)
| opa_contextKey (name : string)
| opentracing_activeSpanKey
| httptrace_clientEventContextKey.

#[global] Instance contextKey_eq_dec : EqDecision contextKey.
Proof. solve_decision. Defined.

Definition JWTContextKey : contextKey := jwt_contextKey "JWTToken".
Definition JWTTokenContextKey : contextKey := JWTContextKey.
Definition JWTClaimsContextKey : contextKey := jwt_contextKey "JWTClaims".
Definition JWTDecodedTokenContextKey : contextKey := jwt_contextKey "JWTDecodedToken".
Definition AuthorizationResultsContextKey : contextKey := opa_contextKey "AuthZResults".

(** [context.Context] (the type is named [Ctx] here): a context is
    [context.Background()] or is derived from a parent by attaching a
    value, a deadline or a cancel function. *)
Inductive Ctx : Type :=
| Background
| WithValue (parent : Ctx) (key : contextKey) (val : Value)
| WithDeadline (parent : Ctx) (deadline : Z)
| WithCancel (parent : Ctx) (cancel_id : nat).

(** [ctx.Value(key)]: the value attached nearest to [ctx], nil if none. *)
Fixpoint ctx_Value (ctx : Ctx) (key : contextKey) : Value :=
  match ctx with
  | Background => VNil
  | WithValue parent k v => if decide (k = key) then v else ctx_Value parent key
  | WithDeadline parent _ => ctx_Value parent key
  | WithCancel parent _ => ctx_Value parent key
  end.

(** [ctx.Deadline()]: the earliest deadline on the chain. *)
Fixpoint ctx_Deadline (ctx : Ctx) : option Z :=
  match ctx with
  | Background => None
  | WithValue parent _ _ => ctx_Deadline parent
  | WithDeadline parent d =>
      match ctx_Deadline parent with
      | Some d' => Some (Z.min d d')
      | None => Some d
      end
  | WithCancel parent _ => ctx_Deadline parent
  end.

(** The cancel functions whose call cancels [ctx]. *)
Fixpoint ctx_cancellers (ctx : Ctx) : list nat :=
  match ctx with
  | Background => []
  | WithValue parent _ _ => ctx_cancellers parent
  | WithDeadline parent _ => ctx_cancellers parent
  | WithCancel parent id => id :: ctx_cancellers parent
  end.

(** [derived_from ctx anc]: [anc] is [ctx] or one of its ancestors, which
    is when cancelling [anc] cancels [ctx]. *)
Fixpoint derived_from (ctx anc : Ctx) : Prop :=
  ctx = anc ∨
  match ctx with
  | Background => False
  | WithValue parent _ _ => derived_from parent anc
  | WithDeadline parent _ => derived_from parent anc
  | WithCancel parent _ => derived_from parent anc
  end.

(** ** Effects *)

Inductive Level : Type := InfoLevel | ErrorLevel | FatalLevel.

(** [http.Request] as the client receives it. The body is the JSON
    document whose encoding [bytes.NewBuffer] holds. *)
Record http_Request : Type := mkRequest {
  req_ctx : Ctx;
  req_Method : string;
  req_URL : string;
  req_Header : list (string * string);
  req_Body : JSON
}.

(** What a call leaves behind: diagnostic records of the logging sink,
    spans started and finished on the tracer, requests handed to the HTTP
    client, and invocations of the instrumented handler. *)
Inductive Event : Type :=
| EvLog (lvl : Level) (msg : string)
| EvSpanStart (s : Span)
| EvSpanFinish (s : Span)
| EvHTTP (req : http_Request)
| EvHandler.

(** [clock] is the reading of [jwt.TimeFunc().Unix()]. *)
Record World : Type := mkWorld {
  clock : Z;
  next_span : nat;
  trace : list Event
}.

(** A Go call returns or panics. *)
Inductive Res (A : Type) : Type :=
| Done (a : A)
| Panicked (msg : string).
Arguments Done {A} a.
Arguments Panicked {A} msg.

Definition M (A : Type) : Type := World → Res A * World.

#[global] Instance M_ret : MRet M := λ A a w, (Done a, w).
#[global] Instance M_bind : MBind M := λ A B f m w,
  match m w with
  | (Done a, w') => f a w'
  | (Panicked msg, w') => (Panicked msg, w')
  end.

Definition panic {A} (msg : string) : M A := λ w, (Panicked msg, w).
Definition emit (e : Event) : M unit :=
  λ w, (Done (), mkWorld (clock w) (next_span w) (trace w ++ [e])).
Definition now : M Z := λ w, (Done (clock w), w).
Definition lift {A} (r : Res A) : M A := λ w, (r, w).

(** Modelled from the spec: [Logger.Info] of the package [log], whose
    interface [Logger] and whose logger over zap are not among the sources.
    The spec has the logging sink "accepting leveled messages with
    structured fields": the call hands one record to the sink, its fields
    left out. What the sink does with a record is its own matter (the mock
    logger of the repository drops it). *)
Definition log_Info (msg : string) : M unit := emit (EvLog InfoLevel msg).

(** Modelled from the spec: [Logger.Error] of the package [log], as
    [log_Info]; "one diagnostic record per failure". *)
Definition log_Error (msg : string) : M unit := emit (EvLog ErrorLevel msg).

(** Dereferencing a pointer that may be nil. *)
Definition deref {A} (p : option A) : M A :=
  match p with
  | Some a => mret a
  | None => panic "invalid memory address or nil pointer dereference"
  end.

(** ** Imported packages

    What the pipeline calls in the packages it imports. Decoding,
    cryptography, policy evaluation and the network are left open: every
    property below holds for each way of filling them in. *)

(** What splitting a token string and decoding its first two segments
    gives: a failure, with the token built so far (none when the string has
    not three segments), the error of the decoder if there is one and the
    text of the failure; or the header, the claims, the signing string
    [parts[0] + "." + parts[1]] and the signature segment [parts[2]]. *)
Inductive DecodeOutcome : Type :=
| Undecodable (token : option Token) (inner : option error) (text : string)
| Decoded (header : gmap string JSON) (claims : MapClaims)
    (signingString signature : string).

(** What [Parser.ParseUnverified] makes of a token string: an error with
    the token built so far, or the decoded token, the signing string and
    the signature segment. *)
Inductive ParseOutcome : Type :=
| Unparsed (token : option Token) (err : error)
| Parsed (token : Token) (signingString signature : string).

(** [rego.PreparedEvalQuery]: the query and the module it was prepared
    from. *)
Record PreparedEvalQuery : Type := mkPrepared {
  prepared_query : string;
  prepared_module : string
}.

(** [http.Response]: the status and what [ioutil.ReadAll] gets from the
    body. *)
Record http_Response : Type := mkResponse {
  StatusCode : Z;
  Body : string;
  BodyErr : option error
}.

(** One round trip of the HTTP client: whether a connection was obtained
    (and if so whether it was reused), then the response or the error. *)
Record RoundTrip : Type := mkRoundTrip {
  GotConn : option bool;
  outcome : http_Response + error
}.

Class Extern : Type := {
  (* the Logger behind the log.Factory: whether its Fatal ends the process *)
  logger_Fatal_exits : bool;
  (* github.com/golang-jwt/jwt/v4 *)
  jwt_DecodeSegments : string → MapClaims → DecodeOutcome;
  jwt_Verify : SigningMethod → string → string → Value → Res (option error);
  jwt_ParseRSAPublicKeyFromPEM : string → option RSAPublicKey * option error;
  jwt_signature_first : bool;
  (* github.com/open-policy-agent/opa/rego *)
  rego_PrepareForEval : string → string → option error;
  rego_Eval : PreparedEvalQuery → Ctx → Value → ResultSet * option error;
  (* encoding/json, net/url, net/http *)
  json_Marshal_value : Value → JSON + error;
  json_Unmarshal : string → AuthorizationResponse → AuthorizationResponse * option error;
  url_Parse : string → option error;
  http_RoundTrip : http_Request → RoundTrip
}.

Section packages.
Context `{Extern}.

(** *** log *)

(** Modelled from the spec: [Logger.Fatal] of the package [log], as
    [log_Info]. Construction-time failures "are fatal to the process": the
    logger over zap hands the record to the sink and ends the process, and
    the call does not return. The mock logger of the repository returns
    from [Fatal]; [logger_Fatal_exits] says which logger is behind the
    factory. *)
Definition log_Fatal (msg : string) : M unit :=
  emit (EvLog FatalLevel msg);;
  if logger_Fatal_exits then panic "os.Exit(1)" else mret ().

(** *** strings *)

Fixpoint replace_from (old new s : string) (skip : nat) : string :=
  match s with
  | EmptyString => EmptyString
  | String c rest =>
      match skip with
      | S k => replace_from old new rest k
      | O =>
          if String.prefix old s
          then new +:+ replace_from old new rest (String.length old - 1)
          else String c (replace_from old new rest 0)
      end
  end.

Fixpoint intersperse_after (new s : string) : string :=
  match s with
  | EmptyString => EmptyString
  | String c rest => String c (new +:+ intersperse_after new rest)
  end.

(** [strings.ReplaceAll(s, old, new)] on byte strings: every
    non-overlapping instance of [old], from the left; an empty [old]
    matches before every byte and at the end. *)
Definition strings_ReplaceAll (s old new : string) : string :=
  match old with
  | EmptyString => new +:+ intersperse_after new s
  | _ => replace_from old new s 0
  end.

(** *** opentracing and tracing.NewChildSpanAndContext *)

Definition opentracing_SpanFromContext (ctx : Ctx) : option Span :=
  match ctx_Value ctx opentracing_activeSpanKey with
  | VSpan s => Some s
  | _ => None
  end.

Definition tracer_StartSpan (name : string) (parent : option Span) : M Span :=
  λ w, let s := mkSpan (next_span w) name (span_id <$> parent) in
       (Done s, mkWorld (clock w) (S (next_span w)) (trace w ++ [EvSpanStart s])).

Definition opentracing_ContextWithSpan (ctx : Ctx) (span : Span) : Ctx :=
  WithValue ctx opentracing_activeSpanKey (VSpan span).

Definition span_Finish (span : Span) : M unit := emit (EvSpanFinish span).

Definition NewChildSpanAndContext (ctx : Ctx) (name : string) : M (Ctx * Span) :=
  span ← match opentracing_SpanFromContext ctx with
         | Some parentSpan => tracer_StartSpan name (Some parentSpan)
         | None => tracer_StartSpan name None
         end;
  let ctx := opentracing_ContextWithSpan ctx span in
  mret (ctx, span).

(** *** github.com/golang-jwt/jwt/v4 *)

(** The bits of [ValidationError.Errors] ([1 << iota]). *)
Definition ValidationErrorMalformed : Z := Z.shiftl 1 0.
Definition ValidationErrorUnverifiable : Z := Z.shiftl 1 1.
Definition ValidationErrorSignatureInvalid : Z := Z.shiftl 1 2.
Definition ValidationErrorAudience : Z := Z.shiftl 1 3.
Definition ValidationErrorExpired : Z := Z.shiftl 1 4.
Definition ValidationErrorIssuedAt : Z := Z.shiftl 1 5.
Definition ValidationErrorIssuer : Z := Z.shiftl 1 6.
Definition ValidationErrorNotValidYet : Z := Z.shiftl 1 7.
Definition ValidationErrorId : Z := Z.shiftl 1 8.
Definition ValidationErrorClaimsInvalid : Z := Z.shiftl 1 9.

(** [jwt.Keyfunc]. *)
Definition Keyfunc : Type := Token → M (Value * option error).

(** [jwt.GetSigningMethod]: the method registered under [alg], nil if
    none is. *)
Definition jwt_GetSigningMethod (alg : string) : option SigningMethod :=
  if String.eqb alg "HS256" then Some SigningMethodHS256
  else if String.eqb alg "HS384" then Some SigningMethodHS384
  else if String.eqb alg "HS512" then Some SigningMethodHS512
  else if String.eqb alg "RS256" then Some SigningMethodRS256
  else if String.eqb alg "RS384" then Some SigningMethodRS384
  else if String.eqb alg "RS512" then Some SigningMethodRS512
  else if String.eqb alg "ES256" then Some SigningMethodES256
  else if String.eqb alg "ES384" then Some SigningMethodES384
  else if String.eqb alg "ES512" then Some SigningMethodES512
  else if String.eqb alg "PS256" then Some SigningMethodPS256
  else if String.eqb alg "PS384" then Some SigningMethodPS384
  else if String.eqb alg "PS512" then Some SigningMethodPS512
  else if String.eqb alg "EdDSA" then Some SigningMethodEdDSA
  else if String.eqb alg "none" then Some SigningMethodNone
  else None.

(** [Parser.ParseUnverified]: every failure of the decoding is reported
    as malformed; then the signing method is looked up under the header's
    [alg], which has to be a string and to name a registered method. *)
Definition jwt_ParseUnverified (tokenString : string) (claims : MapClaims)
    : ParseOutcome :=
  match jwt_DecodeSegments tokenString claims with
  | Undecodable token inner text =>
      Unparsed token (ValidationError inner ValidationErrorMalformed text)
  | Decoded header claims signingString signature =>
      let token := mkToken tokenString None header claims "" false in
      match header !! "alg" with
      | Some (JStr method) =>
          match jwt_GetSigningMethod method with
          | Some m =>
              Parsed (mkToken tokenString (Some m) header claims "" false)
                signingString signature
          | None =>
              Unparsed (Some token)
                (ValidationError None ValidationErrorUnverifiable
                   "signing method (alg) is unavailable.")
          end
      | _ =>
          Unparsed (Some token)
            (ValidationError None ValidationErrorUnverifiable
               "signing method (alg) is unspecified.")
      end
  end.

(** The range of [int64]. *)
Definition int64_min : Z := -9223372036854775808.
Definition int64_max : Z := 9223372036854775807.

(** Arithmetic on [int64] wraps around. *)
Definition wrap_int64 (z : Z) : Z :=
  ((z - int64_min) mod 18446744073709551616 + int64_min)%Z.

(** [int64(f)] for a [float64] with the integral value [f]: [f] when it
    fits. For a value that does not fit Go leaves the result to the
    implementation; this is what amd64 gives. *)
Definition int64_of_float64 (f : Z) : Z :=
  if decide (int64_min ≤ f ≤ int64_max)%Z then f else int64_min.

(** [time.Unix(sec, 0)], as the seconds since the year 1 that a [Time]
    holds and that [Before], [After] and [Equal] compare. *)
Definition unixToInternal : Z := 62135596800.
Definition time_Unix (sec : Z) : Z := wrap_int64 (sec + unixToInternal).

(** [MapClaims.VerifyExpiresAt], [VerifyIssuedAt], [VerifyNotBefore], as
    from v4.2: a missing or zero claim passes unless required, a claim that
    is not a number fails, and any other number is converted to [int64]
    seconds and compared as a [Time] with [time.Unix(cmp, 0)]. *)
Definition VerifyExpiresAt (m : MapClaims) (cmp : Z) (req : bool) : bool :=
  match m !! "exp" with
  | None => negb req
  | Some (JNum exp) =>
      if (exp =? 0)%Z then negb req
      else (time_Unix cmp <? time_Unix (int64_of_float64 exp))%Z
  | Some _ => false
  end.

Definition VerifyIssuedAt (m : MapClaims) (cmp : Z) (req : bool) : bool :=
  match m !! "iat" with
  | None => negb req
  | Some (JNum iat) =>
      if (iat =? 0)%Z then negb req
      else (time_Unix (int64_of_float64 iat) <=? time_Unix cmp)%Z
  | Some _ => false
  end.

Definition VerifyNotBefore (m : MapClaims) (cmp : Z) (req : bool) : bool :=
  match m !! "nbf" with
  | None => negb req
  | Some (JNum nbf) =>
      if (nbf =? 0)%Z then negb req
      else (time_Unix (int64_of_float64 nbf) <=? time_Unix cmp)%Z
  | Some _ => false
  end.

(** [MapClaims.Valid]: the three time checks, each adding its bit. *)
Definition MapClaims_Valid (m : MapClaims) (now : Z) : option error :=
  let vErr : option error * Z := (None, 0%Z) in
  let vErr := if negb (VerifyExpiresAt m now false)
              then (Some (errors_New "Token is expired"),
                    Z.lor vErr.2 ValidationErrorExpired)
              else vErr in
  let vErr := if negb (VerifyIssuedAt m now false)
              then (Some (errors_New "Token used before issued"),
                    Z.lor vErr.2 ValidationErrorIssuedAt)
              else vErr in
  let vErr := if negb (VerifyNotBefore m now false)
              then (Some (errors_New "Token is not valid yet"),
                    Z.lor vErr.2 ValidationErrorNotValidYet)
              else vErr in
  if (vErr.2 =? 0)%Z then None else Some (ValidationError vErr.1 vErr.2 "").

(** [Parser.ParseWithClaims] of the default parser: decode, ask [keyFunc]
    for the key (its error is wrapped as [Inner] of an unverifiable
    [ValidationError] unless it is one already), then validate the claims
    and verify the signature, and mark the token valid when nothing
    failed. The import path fixes the major version only, and the
    releases of v4 order the last two steps in two ways: up to v4.4 the
    claims are validated first and a failing signature adds its bit and
    its error to theirs; from v4.5 ([jwt_signature_first]) the signature is
    verified first and its failure returned at once. *)
Definition jwt_ParseWithClaims (tokenString : string) (claims : MapClaims)
    (keyFunc : Keyfunc) : M (option Token * option error) :=
  match jwt_ParseUnverified tokenString claims with
  | Unparsed token err => mret (token, Some err)
  | Parsed token signingString signature =>
      '(key, err) ← keyFunc token;
      match err with
      | Some (ValidationError _ _ _ as ve) => mret (Some token, Some ve)
      | Some err =>
          mret (Some token,
                Some (ValidationError (Some err) ValidationErrorUnverifiable ""))
      | None =>
          let signed := mkToken (Raw token) (Method token) (Header token)
                          (Claims token) signature (Valid token) in
          let valid := mkToken (Raw token) (Method token) (Header token)
                         (Claims token) signature true in
          if jwt_signature_first then
            method ← deref (Method token);
            verr ← lift (jwt_Verify method signingString signature key);
            match verr with
            | Some err =>
                mret (Some signed,
                      Some (ValidationError (Some err)
                              ValidationErrorSignatureInvalid ""))
            | None =>
                t ← now;
                match MapClaims_Valid (Claims token) t with
                | Some (ValidationError _ _ _ as e) => mret (Some signed, Some e)
                | Some err =>
                    mret (Some signed,
                          Some (ValidationError (Some err)
                                  ValidationErrorClaimsInvalid ""))
                | None => mret (Some valid, None)
                end
            end
          else
            t ← now;
            let vErr : option error * Z * string :=
              match MapClaims_Valid (Claims token) t with
              | None => (None, 0%Z, "")
              | Some (ValidationError inner errs text) => (inner, errs, text)
              | Some err => (Some err, ValidationErrorClaimsInvalid, "")
              end in
            method ← deref (Method token);
            verr ← lift (jwt_Verify method signingString signature key);
            let vErr := match verr with
                        | Some err =>
                            (Some err,
                             Z.lor vErr.1.2 ValidationErrorSignatureInvalid,
                             vErr.2)
                        | None => vErr
                        end in
            if (vErr.1.2 =? 0)%Z
            then mret (Some valid, None)
            else mret (Some signed,
                       Some (ValidationError vErr.1.1 vErr.1.2 vErr.2))
      end
  end.

(** *** rego *)

(** [ResultSet.Allowed]: exactly one result, without bindings, whose only
    expression is the boolean [true]. *)
Definition Allowed (rs : ResultSet) : bool :=
  match rs with
  | [r] =>
      if decide (Bindings r = 0) then
        match Expressions r with
        | [JBool b] => b
        | _ => false
        end
      else false
  | _ => false
  end.

(** *** encoding/json, net/http *)

(** [json.Marshal] of the values the client sends. The struct
    [queryInput] has both its fields tagged [omitempty]: a nil interface
    is left out. *)
Definition json_Marshal (v : Value) : JSON + error :=
  match v with
  | VQueryInput request claims =>
      match (match request with
             | VNil => inl []
             | _ => match json_Marshal_value request with
                    | inl j => inl [("request", j)]
                    | inr e => inr e
                    end
             end) with
      | inr e => inr e
      | inl fr =>
          match (match claims with
                 | VNil => inl []
                 | _ => match json_Marshal_value claims with
                        | inl j => inl [("claims", j)]
                        | inr e => inr e
                        end
                 end) with
          | inr e => inr e
          | inl fc => inl (JObj (fr ++ fc))
          end
      end
  | VNil => inl JNull
  | _ => json_Marshal_value v
  end.

Definition httptrace_WithClientTrace (ctx : Ctx) (tr : Value) : Ctx :=
  WithValue ctx httptrace_clientEventContextKey tr.

(** [http.NewRequestWithContext]: fails when the URL does not parse. *)
Definition http_NewRequestWithContext (ctx : Ctx) (method url : string)
    (body : JSON) : http_Request + error :=
  match url_Parse url with
  | Some err => inr err
  | None => inl (mkRequest ctx method url [] body)
  end.

Definition Header_Set (req : http_Request) (key value : string) : http_Request :=
  mkRequest (req_ctx req) (req_Method req) (req_URL req)
    ((key, value) :: filter (λ kv, kv.1 ≠ key) (req_Header req))
    (req_Body req).

(** [http.DefaultClient.Do]: the request goes out; the [GotConn] hook of
    the client trace carried by the request's context runs when a
    connection is obtained. *)
Definition http_DefaultClient_Do (gotConn : bool → M unit) (req : http_Request)
    : M (http_Response + error) :=
  emit (EvHTTP req);;
  let rt := http_RoundTrip req in
  match GotConn rt, ctx_Value (req_ctx req) httptrace_clientEventContextKey with
  | Some reused, VClientTrace => gotConn reused
  | _, _ => mret ()
  end;;
  mret (outcome rt).

End packages.

(** ** opa/opa.go: the client of the remote decision service *)

Section opa_client.
Context `{Extern}.

Record opaClient : Type := mkOpaClient { baseURL : string }.

Definition NewOPAClient (baseURL : string) : opaClient := mkOpaClient baseURL.

(** [QueryRequest{Input: &data}] under [json.Marshal]: the one field
    [input], never left out. *)
Definition marshal_QueryRequest (data : Value) : JSON + error :=
  match json_Marshal data with
  | inl j => inl (JObj [("input", j)])
  | inr e => inr e
  end.

(** [opaClient.Query]. [response] is what the caller's pointer refers to;
    the second component of the result is what it refers to afterwards. *)
Definition Query (c : opaClient) (ctx : Ctx) (query : string) (data : Value)
    (response : AuthorizationResponse)
    : M (option error * AuthorizationResponse) :=
  let clientTrace := VClientTrace in
  let gotConn := λ _ : bool, log_Info "connection re-use" in
  let traceCtx := httptrace_WithClientTrace Background clientTrace in
  match marshal_QueryRequest data with
  | inr err =>
      log_Error "Failed to marshall request body";;
      mret (Some err, response)
  | inl jsonStr =>
      let queryPath := strings_ReplaceAll query "." "/" in
      match http_NewRequestWithContext traceCtx "POST"
              (baseURL c +:+ "/v1/" +:+ queryPath) jsonStr with
      | inr err =>
          log_Error "Failed to create request";;
          mret (Some err, response)
      | inl req =>
          let req := Header_Set req "Content-Type" "application/json" in
          r ← http_DefaultClient_Do gotConn req;
          match r with
          | inr err =>
              log_Error "Failed to perform request";;
              mret (Some err, response)
          | inl r =>
              match BodyErr r with
              | Some err =>
                  log_Error "Failed to read response body";;
                  mret (Some err, response)
              | None =>
                  let responseData := Body r in
                  match json_Unmarshal responseData response with
                  | (response, Some err) =>
                      log_Error "Failed to unmarshal response object";;
                      mret (Some err, response)
                  | (response, None) => mret (None, response)
                  end
              end
          end
      end
  end.

End opa_client.

(** ** go-kit endpoints *)

(** [endpoint.Endpoint] and [endpoint.Middleware]. *)
Definition Endpoint : Type := Ctx → Value → M (Value * option error).
Definition Middleware : Type := Endpoint → Endpoint.

(** ** authn/jwt: the parser middleware *)

Section authn_jwt.
Context `{Extern}.

(** [JSONWebKeys]; the fields [N] and [E] are [N_] and [E_] here. *)
Record JSONWebKeys : Type := mkJSONWebKeys {
  Kty : string;
  Kid : string;
  Use : string;
  N_ : string;
  E_ : string;
  X5c : list string
}.

Record Jwks : Type := mkJwks { Keys : list JSONWebKeys }.

Definition ClaimsFactory : Type := unit → MapClaims.

Definition MapClaimsFactory : ClaimsFactory := λ _, ∅.

Record Authenticator : Type := mkAuthenticator {
  jwks : Jwks;
  jwksURL : string
}.

Definition LF : string := String "010"%char EmptyString.

(** The loop of the key function of [NewMiddleware]: [cert] is overwritten
    at every key whose [Kid] equals the header's [kid] (a string equal to
    it). Indexing [X5c[0]] panics on an empty slice. *)
Fixpoint kf_loop (kid : option JSON) (keys : list JSONWebKeys) (cert : string)
    : Res string :=
  match keys with
  | [] => Done cert
  | key :: rest =>
      if match kid with
         | Some (JStr s) => String.eqb s (Kid key)
         | _ => false
         end
      then
        match X5c key !! 0%nat with
        | Some x5c0 =>
            kf_loop kid rest
              ("-----BEGIN CERTIFICATE-----" +:+ LF +:+ x5c0 +:+ LF +:+
               "-----END CERTIFICATE-----")
        | None => Panicked "index out of range [0] with length 0"
        end
      else kf_loop kid rest cert
  end.

(** The key function [kf] of [NewMiddleware]. *)
Definition kf (a : Authenticator) : Keyfunc := λ token,
  cert ← lift (kf_loop (Header token !! "kid") (Keys (jwks a)) "");
  if decide (String.length cert = 0%nat) then
    let err := errors_New "invalid key id" in
    mret (VToken token, Some err)
  else
    let '(result, _) := jwt_ParseRSAPublicKeyFromPEM cert in
    mret (VRSAPublicKey result, None).

Definition extractTokenFromContext (ctx : Ctx) : option string * option error :=
  match ctx_Value ctx JWTContextKey with
  | VString tokenString => (Some tokenString, None)
  | _ => (None, Some ErrTokenContextMissing)
  end.

Definition parseTokenString (ctx : Ctx) (tokenString : string)
    (expectedSigningMethod : SigningMethod) (newClaims : ClaimsFactory)
    (keyFunc : Keyfunc) : M (option Token * option error) :=
  jwt_ParseWithClaims tokenString (newClaims ()) (λ token,
    if decide (Method token ≠ Some expectedSigningMethod)
    then mret (VNil, Some ErrUnexpectedSigningMethod)
    else keyFunc token).

Definition newParser (keyFunc : Keyfunc) (method : SigningMethod)
    (newClaims : ClaimsFactory) (authn : Authenticator) : Middleware :=
  λ next ctx request,
    '(ctx, span) ← NewChildSpanAndContext ctx "ParseJWT";
    match extractTokenFromContext ctx with
    | (_, Some err) =>
        log_Error "Failed to extract JWT token from context";;
        span_Finish span;;
        mret (VNil, Some err)
    | (tokenString, None) =>
        tokenString ← deref tokenString;
        '(token, err) ← parseTokenString ctx tokenString method newClaims keyFunc;
        match err with
        | Some (ValidationError e_Inner e_Errors _ as err) =>
            if decide (Z.land e_Errors ValidationErrorMalformed ≠ 0%Z) then
              log_Error "Malformed JWT";;
              span_Finish span;;
              mret (VNil, Some ErrTokenMalformed)
            else if decide (Z.land e_Errors ValidationErrorExpired ≠ 0%Z) then
              log_Error "Expired JWT";;
              span_Finish span;;
              mret (VNil, Some ErrTokenExpired)
            else if decide (Z.land e_Errors ValidationErrorNotValidYet ≠ 0%Z) then
              log_Error "JWT Not Yet Valid";;
              span_Finish span;;
              mret (VNil, Some ErrTokenNotActive)
            else
              match e_Inner with
              | Some inner =>
                  log_Error "JWT Inner Error";;
                  span_Finish span;;
                  mret (VNil, Some inner)
              | None =>
                  log_Error "Other JWT Validation Error";;
                  span_Finish span;;
                  mret (VNil, Some err)
              end
        | Some err =>
            log_Error "Unknown JWT Error";;
            span_Finish span;;
            mret (VNil, Some err)
        | None =>
            token ← deref token;
            if negb (Valid token) then
              log_Error "Invalid JWT";;
              span_Finish span;;
              mret (VNil, Some ErrTokenInvalid)
            else
              let ctx := WithValue ctx JWTDecodedTokenContextKey (VToken token) in
              let ctx := WithValue ctx JWTClaimsContextKey (VClaims (Claims token)) in
              span_Finish span;;
              next ctx request
        end
    end.

(** [Authenticator.NewMiddleware]. *)
Definition NewMiddleware (a : Authenticator) : Middleware :=
  let method := SigningMethodRS256 in
  newParser (kf a) method MapClaimsFactory a.

End authn_jwt.

(** ** authz/opa: the two authorization middlewares *)

Section authz_opa.
Context `{Extern}.

(** [queryInput]; its field [Claims] is [Claims_] here. *)
Record queryInput : Type := mkQueryInput {
  Request : Value;
  Claims_ : Value
}.

Definition inputForRequest (ctx : Ctx) (request : Value) : queryInput :=
  {| Request := request;
     Claims_ := ctx_Value ctx JWTClaimsContextKey |}.

(** A [queryInput] passed as [interface{}]. *)
Definition queryInput_Value (i : queryInput) : Value :=
  VQueryInput (Request i) (Claims_ i).

(** The middleware that [NewInProcessMiddleware] returns, closed over the
    prepared [query]. *)
Definition inProcessMiddleware (query : PreparedEvalQuery) (queryString : string)
    : Middleware :=
  λ next ctx request,
    '(ctx, span) ← NewChildSpanAndContext ctx "AuthZPolicyInternal";
    match rego_Eval query ctx (queryInput_Value (inputForRequest ctx request)) with
    | (_, Some err) => mret (VNil, Some err)
    | (results, None) =>
        if negb (Allowed results) then
          log_Info "Denied by policy";;
          mret (VNil, Some ErrDeniedByPolicy)
        else
          let ctx := WithValue ctx AuthorizationResultsContextKey (VResultSet results) in
          span_Finish span;;
          next ctx request
    end.

(** [Authorizor.NewInProcessMiddleware]: the policy is prepared once. When
    it cannot be prepared, [query] is the zero [PreparedEvalQuery] and the
    failure goes to [Fatal]; if that returns, the middleware is built over
    the zero query. *)
Definition NewInProcessMiddleware (policy queryString : string) : M Middleware :=
  let '(query, err) :=
    match rego_PrepareForEval queryString policy with
    | Some err => (mkPrepared "" "", Some err)
    | None => (mkPrepared queryString policy, None)
    end in
  match err with
  | Some err => log_Fatal "Failed to prepare endpoint authorization policy"
  | None => mret ()
  end;;
  mret (inProcessMiddleware query queryString).

(** [os.Getenv] on the environment of the process. *)
Definition os_Getenv (env : gmap string string) (key : string) : string :=
  default "" (env !! key).

(** The middleware that [NewSidecarMiddleware] returns, closed over the
    client [c]. *)
Definition sidecarMiddleware (c : opaClient) (queryString : string) : Middleware :=
  λ next ctx request,
    '(ctx, span) ← NewChildSpanAndContext ctx "AuthZPolicyExternal";
    let resp := mkAuthorizationResponse false in
    '(err, resp) ← Query c ctx queryString
                     (queryInput_Value (inputForRequest ctx request)) resp;
    match err with
    | Some err => mret (VNil, Some err)
    | None =>
        if negb (Result resp) then
          log_Info "Denied by policy";;
          mret (VNil, Some ErrDeniedByPolicy)
        else
          let ctx := WithValue ctx AuthorizationResultsContextKey
                       (VAuthorizationResponse resp) in
          span_Finish span;;
          next ctx request
    end.

(** [Authorizor.NewSidecarMiddleware]: the client is built once, from the
    environment of the process. *)
Definition NewSidecarMiddleware (env : gmap string string) (queryString : string)
    : Middleware :=
  let h := os_Getenv env "OPA_HOST" in
  let h := if decide (String.length h = 0%nat) then "localhost" else h in
  let p := os_Getenv env "OPA_PORT" in
  let p := if decide (String.length p = 0%nat) then "8181" else p in
  let c := NewOPAClient ("http://" +:+ h +:+ ":" +:+ p) in
  sidecarMiddleware c queryString.

End authz_opa.

(** ** Observing the pipeline *)

(** A handler that records that it ran and answers. *)
Definition countingHandler : Endpoint :=
  λ _ _, emit EvHandler;; mret (VString "ok", None).

(** The number of times the instrumented handler ran. *)
Definition is_handler_event (e : Event) : bool :=
  match e with
  | EvHandler => true
  | _ => false
  end.

Definition handler_calls (w : World) : nat :=
  length (List.filter is_handler_event (trace w)).

(** The requests handed to the HTTP client so far. *)
Fixpoint requests_of (tr : list Event) : list http_Request :=
  match tr with
  | [] => []
  | EvHTTP req :: rest => req :: requests_of rest
  | _ :: rest => requests_of rest
  end.

Definition sent (w : World) : list http_Request := requests_of (trace w).

(** The three pipeline stages. *)
Inductive Stage : Type :=
| Verification (a : Authenticator)
| AuthorizationInProcess (query : PreparedEvalQuery) (queryString : string)
| AuthorizationSidecar (c : opaClient) (queryString : string).

Definition stage_middleware `{Extern} (s : Stage) : Middleware :=
  match s with
  | Verification a => NewMiddleware a
  | AuthorizationInProcess query queryString => inProcessMiddleware query queryString
  | AuthorizationSidecar c queryString => sidecarMiddleware c queryString
  end.

(** ** How a stage ends

    A stage, run on a context, a request and a world, ends in one of three
    ways that do not depend on the endpoint it wraps: it returns an error
    of its own, it panics, or it hands a context to the wrapped endpoint
    and returns what that endpoint returns. *)

Inductive Ending : Type :=
| Rejects (e : error) (w' : World)
| Panics (msg : string) (w' : World)
| CallsThrough (ctx' : Ctx) (w' : World).

Definition ending_world (o : Ending) : World :=
  match o with
  | Rejects _ w' | Panics _ w' | CallsThrough _ w' => w'
  end.

Definition ends_with (c : Endpoint → M (Value * option error)) (request : Value)
    (w : World) (o : Ending) : Prop :=
  match o with
  | Rejects e w' => ∀ next, c next w = (Done (VNil, Some e), w')
  | Panics msg w' => ∀ next, c next w = (Panicked msg, w')
  | CallsThrough ctx' w' => ∀ next, c next w = next ctx' request w'
  end.

(** [quiet m]: [m] does not run the instrumented handler. *)
Definition quiet {A} (m : M A) : Prop :=
  ∀ w r w', m w = (r, w') → handler_calls w' = handler_calls w.

(** [staged P c request]: [c] ends in one of the three ways, without
    running the handler itself, and hands over only contexts in [P]. *)
Definition staged (P : Ctx → Prop) (c : Endpoint → M (Value * option error))
    (request : Value) : Prop :=
  ∀ w, ∃ o, ends_with c request w o
            ∧ handler_calls (ending_world o) = handler_calls w
            ∧ match o with CallsThrough ctx' _ => P ctx' | _ => True end.

(** ** The claims' vocabulary *)

(** The path of the query with every ['.'] replaced by ['/'], byte by
    byte. *)
Fixpoint dots_to_slashes (q : string) : string :=
  match q with
  | EmptyString => EmptyString
  | String c rest =>
      String (if Ascii.eqb c "."%char then "/"%char else c) (dots_to_slashes rest)
  end.

(** The two policy decision points behind the one middleware interface. *)
Inductive DecisionPoint : Type :=
| Embedded (query : PreparedEvalQuery)
| Remote (c : opaClient).

Definition authorize `{Extern} (d : DecisionPoint) (queryString : string) : Middleware :=
  match d with
  | Embedded query => inProcessMiddleware query queryString
  | Remote c => sidecarMiddleware c queryString
  end.

(** The policy evaluates to a denial: the embedded evaluation returns
    results that are not allowed; the remote query returns a response
    with [result = false]. *)
Definition denies `{Extern} (d : DecisionPoint) (queryString : string)
    (ctx : Ctx) (request : Value) (w : World) : Prop :=
  match d with
  | Embedded query =>
      ∃ ctx1 span w1 results,
        NewChildSpanAndContext ctx "AuthZPolicyInternal" w = (Done (ctx1, span), w1)
        ∧ rego_Eval query ctx1 (queryInput_Value (inputForRequest ctx1 request))
          = (results, None)
        ∧ Allowed results = false
  | Remote c =>
      ∃ ctx1 span w1 resp w2,
        NewChildSpanAndContext ctx "AuthZPolicyExternal" w = (Done (ctx1, span), w1)
        ∧ Query c ctx1 queryString (queryInput_Value (inputForRequest ctx1 request))
            (mkAuthorizationResponse false) w1
          = (Done (None, resp), w2)
        ∧ Result resp = false
  end.

(** A token that passes the algorithm check, the key lookup and the
    signature check of the authenticator: [cert] is the certificate that
    the key function wraps. *)
Definition reaches_validation `{Extern} (a : Authenticator) (token : Token)
    (signingString signature : string) : Prop :=
  Method token = Some SigningMethodRS256
  ∧ ∃ cert,
      kf_loop (Header token !! "kid") (Keys (jwks a)) "" = Done cert
      ∧ String.length cert ≠ 0%nat
      ∧ jwt_Verify SigningMethodRS256 signingString signature
          (VRSAPublicKey (jwt_ParseRSAPublicKeyFromPEM cert).1) = Done None.

(** The failures of the token itself that the parser names. *)
Inductive TokenFailure : Type :=
| Malformed
| Expired
| NotActive.

Definition failure_kind (f : TokenFailure) : error :=
  match f with
  | Malformed => ErrTokenMalformed
  | Expired => ErrTokenExpired
  | NotActive => ErrTokenNotActive
  end.

(** The seconds that [time.Unix] turns into a [Time] without overflow:
    from [-2^63] to [2^63 - 1 - 62135596800]. *)
Definition unix_time (sec : Z) : Prop :=
  (int64_min ≤ sec ∧ sec + unixToInternal ≤ int64_max)%Z.

(** [exhibits f a tokenString t]: at evaluation time [t], the token
    string does not decode; or the token reaches the validation of its
    claims with a non-zero [exp] before [t]; or reaches it with a non-zero
    [nbf] after [t] while [exp] has not passed. The times are whole seconds
    that [time.Unix] represents. *)
Definition exhibits `{Extern} (f : TokenFailure) (a : Authenticator)
    (tokenString : string) (t : Z) : Prop :=
  match f with
  | Malformed =>
      ∃ token inner text,
        jwt_DecodeSegments tokenString (MapClaimsFactory ())
          = Undecodable token inner text
  | Expired =>
      ∃ token signingString signature exp,
        jwt_ParseUnverified tokenString (MapClaimsFactory ())
          = Parsed token signingString signature
        ∧ reaches_validation a token signingString signature
        ∧ Claims token !! "exp" = Some (JNum exp)
        ∧ exp ≠ 0%Z ∧ unix_time exp ∧ unix_time t ∧ (exp < t)%Z
  | NotActive =>
      ∃ token signingString signature nbf,
        jwt_ParseUnverified tokenString (MapClaimsFactory ())
          = Parsed token signingString signature
        ∧ reaches_validation a token signingString signature
        ∧ Claims token !! "nbf" = Some (JNum nbf)
        ∧ nbf ≠ 0%Z ∧ unix_time nbf ∧ unix_time t ∧ (t < nbf)%Z
        ∧ VerifyExpiresAt (Claims token) t false = true
  end.

(** Verification of the call on [ctx] in the world [w] fully succeeds
    with [token]: the context holds a token string, parsing that string in
    [w] -- at the clock of [w] -- returns [token] and no error, and [token]
    is valid. *)
Definition verified `{Extern} (keyFunc : Keyfunc) (method : SigningMethod)
    (newClaims : ClaimsFactory) (ctx : Ctx) (w : World) (token : Token) : Prop :=
  ∃ tokenString,
    extractTokenFromContext ctx = (Some tokenString, None)
    ∧ (parseTokenString ctx tokenString method newClaims keyFunc w).1
      = Done (Some token, None)
    ∧ Valid token = true.

(** The error kinds that the two packages declare as variables. *)
Definition declared_kinds : list error :=
  [ErrTokenContextMissing; ErrTokenInvalid; ErrTokenExpired; ErrTokenMalformed;
   ErrTokenNotActive; ErrUnexpectedSigningMethod; ErrDeniedByPolicy].

(** [posts mw ctx request w url body]: run on [ctx], [request] and [w],
    the middleware [mw] itself -- before it returns or calls the wrapped
    endpoint -- hands exactly one request to the HTTP client, a POST to
    [url] with the JSON document [body]. *)
Definition posts (mw : Middleware) (ctx : Ctx) (request : Value) (w : World)
    (url : string) (body : JSON) : Prop :=
  ∃ o req,
    ends_with (λ next, mw next ctx request) request w o
    ∧ sent (ending_world o) = (sent w ++ [req])%list
    ∧ req_Method req = "POST"
    ∧ req_URL req = url
    ∧ req_Body req = body.

(** What the parser returns for an error of [jwt.ParseWithClaims]: the
    cases of its [switch], in order. *)
Inductive reports : error → error → Prop :=
| reports_malformed inner errs text :
    Z.land errs ValidationErrorMalformed ≠ 0%Z →
    reports (ValidationError inner errs text) ErrTokenMalformed
| reports_expired inner errs text :
    Z.land errs ValidationErrorMalformed = 0%Z →
    Z.land errs ValidationErrorExpired ≠ 0%Z →
    reports (ValidationError inner errs text) ErrTokenExpired
| reports_not_active inner errs text :
    Z.land errs ValidationErrorMalformed = 0%Z →
    Z.land errs ValidationErrorExpired = 0%Z →
    Z.land errs ValidationErrorNotValidYet ≠ 0%Z →
    reports (ValidationError inner errs text) ErrTokenNotActive
| reports_inner inner errs text :
    Z.land errs ValidationErrorMalformed = 0%Z →
    Z.land errs ValidationErrorExpired = 0%Z →
    Z.land errs ValidationErrorNotValidYet = 0%Z →
    reports (ValidationError (Some inner) errs text) inner.

(** The header's key identifier names no entry of the key set. *)
Definition kid_absent (token : Token) (keys : Jwks) : Prop :=
  ∀ key, key ∈ Keys keys → Header token !! "kid" ≠ Some (JStr (Kid key)).

(** The error of the key function for a key identifier it does not find;
    the source builds it in place with [errors.New]. *)
Definition ErrInvalidKeyID : error := errors_New "invalid key id".

(** ** Concrete runs *)

(** A world at a given time in which nothing has happened yet. *)
Definition world_at (t : Z) : World := mkWorld t 0 [].

(** The tokens of the runs below, by their token string. The decoder of
    the runs knows the header and the claims of these strings and reports
    any other as malformed. *)
Definition header_of (alg kid : string) : gmap string JSON :=
  {[ "alg" := JStr alg; "kid" := JStr kid; "typ" := JStr "JWT" ]}.

Definition token_of (raw : string) (m : SigningMethod) (alg kid : string)
    (claims : MapClaims) : Token :=
  mkToken raw (Some m) (header_of alg kid) claims "" false.

Definition known_tokens : list (string * Token) :=
  [ ("rs256.k1.plain", token_of "rs256.k1.plain" SigningMethodRS256 "RS256" "k1" ∅);
    ("rs256.k1.forged", token_of "rs256.k1.forged" SigningMethodRS256 "RS256" "k1" ∅);
    ("rs256.k9.plain", token_of "rs256.k9.plain" SigningMethodRS256 "RS256" "k9" ∅);
    ("hs256.k9.plain", token_of "hs256.k9.plain" SigningMethodHS256 "HS256" "k9" ∅);
    ("hs256.k1.exp100", token_of "hs256.k1.exp100" SigningMethodHS256 "HS256" "k1"
                          {[ "exp" := JNum 100 ]});
    ("rs256.k1.exp100", token_of "rs256.k1.exp100" SigningMethodRS256 "RS256" "k1"
                          {[ "exp" := JNum 100 ]});
    ("rs256.k9.exp100", token_of "rs256.k9.exp100" SigningMethodRS256 "RS256" "k9"
                          {[ "exp" := JNum 100 ]});
    ("rs256.k1.nbf300", token_of "rs256.k1.nbf300" SigningMethodRS256 "RS256" "k1"
                          {[ "nbf" := JNum 300 ]});
    ("rs256.k1.exp100nbf300", token_of "rs256.k1.exp100nbf300" SigningMethodRS256
                                "RS256" "k1"
                                {[ "exp" := JNum 100; "nbf" := JNum 300 ]});
    ("rs256.k1.exp0", token_of "rs256.k1.exp0" SigningMethodRS256 "RS256" "k1"
                        {[ "exp" := JNum 0 ]});
    ("xx999.k1.plain", mkToken "xx999.k1.plain" None (header_of "XX999" "k1") ∅
                         "" false);
    ("rs256.k1.nbf1e30", token_of "rs256.k1.nbf1e30" SigningMethodRS256 "RS256" "k1"
                           {[ "nbf" := JNum (10 ^ 30) ]}) ].

Fixpoint find_token (raw : string) (l : list (string * Token)) : option Token :=
  match l with
  | [] => None
  | (s, t) :: rest => if String.eqb raw s then Some t else find_token raw rest
  end.

(** The packages of the runs: a logger whose [Fatal] ends the process;
    the decoder above; a signature check that
    accepts every signature but ["forged"] and otherwise fails as
    [crypto/rsa] does; a policy that allows exactly the inputs that carry
    claims; a decision service that answers ["deny"]. *)
Definition rsa_ErrVerification : error := errors_New "crypto/rsa: verification error".

#[local] Instance run_packages : Extern := {|
  logger_Fatal_exits := true;
  jwt_DecodeSegments := λ raw _,
    match find_token raw known_tokens with
    | Some t =>
        Decoded (Header t) (Claims t) raw
          (if String.eqb raw "rs256.k1.forged" then "forged" else "signed")
    | None => Undecodable None None "token contains an invalid number of segments"
    end;
  jwt_Verify := λ _ _ signature _,
    Done (if String.eqb signature "forged" then Some rsa_ErrVerification else None);
  jwt_ParseRSAPublicKeyFromPEM := λ _, (Some (mkRSAPublicKey 3233 17), None);
  jwt_signature_first := false;
  rego_PrepareForEval := λ _ _, None;
  rego_Eval := λ _ _ input,
    ([mkResult [JBool match input with
                      | VQueryInput _ VNil => false
                      | _ => true
                      end] 0], None);
  json_Marshal_value := λ v,
    match v with
    | VData j => inl j
    | VString s => inl (JStr s)
    | _ => inr (errors_New "json: unsupported type")
    end;
  json_Unmarshal := λ body r,
    if String.eqb body "allow" then (mkAuthorizationResponse true, None)
    else if String.eqb body "deny" then (mkAuthorizationResponse false, None)
    else (r, Some (errors_New "invalid character"));
  url_Parse := λ _, None;
  http_RoundTrip := λ _, mkRoundTrip (Some false) (inl (mkResponse 200 "deny" None))
|}.

(** A key set with one certificate-bearing key, and one whose only key
    has no [x5c] member. *)
Definition jwks_k1 : Jwks :=
  mkJwks [mkJSONWebKeys "RSA" "k1" "sig" "n" "AQAB" ["MIIC"]].
Definition jwks_no_x5c : Jwks :=
  mkJwks [mkJSONWebKeys "RSA" "k1" "sig" "n" "AQAB" []].

Definition authn_k1 : Authenticator := mkAuthenticator jwks_k1 "https://issuer/jwks.json".
Definition authn_no_x5c : Authenticator :=
  mkAuthenticator jwks_no_x5c "https://issuer/jwks.json".

Definition ctx_with_token (raw : string) : Ctx :=
  WithValue Background JWTContextKey (VString raw).

(** ** The rest of the pipeline *)

(** *** What a call leaves in the world *)

(** [add_events w n evs]: the world [w] after [n] spans were started and
    the events [evs] recorded. *)
Definition add_events (w : World) (n : nat) (evs : list Event) : World :=
  mkWorld (clock w) (n + next_span w) (trace w ++ evs)%list.

(** The span that a stage starts under [name] on [ctx] in [w]. *)
Definition stage_span (name : string) (ctx : Ctx) (w : World) : Span :=
  mkSpan (next_span w) name (span_id <$> opentracing_SpanFromContext ctx).

Definition is_finish_event (e : Event) : bool :=
  match e with
  | EvSpanFinish _ => true
  | _ => false
  end.

Definition is_start_event (e : Event) : bool :=
  match e with
  | EvSpanStart _ => true
  | _ => false
  end.

(** The number of spans finished so far. *)
Definition spans_finished (w : World) : nat :=
  length (List.filter is_finish_event (trace w)).

(** [still m]: [m] leaves the world as it is. *)
Definition still {A} (m : M A) : Prop :=
  ∀ w r w', m w = (r, w') → w' = w.

(** [clocked m]: what [m] returns depends on the world through its clock
    only. *)
Definition clocked {A} (m : M A) : Prop :=
  ∀ w w', clock w = clock w' → (m w).1 = (m w').1.

(** An event that is neither the start nor the end of a span nor a run
    of the handler: a diagnostic record or an outbound request. *)
Definition plain_event (e : Event) : bool :=
  negb (is_finish_event e) && negb (is_start_event e) && negb (is_handler_event e).

(** [records_only m]: [m] returns, starts no span and only adds plain
    events. *)
Definition records_only {A} (m : M A) : Prop :=
  ∀ w, ∃ a evs,
    m w = (Done a, add_events w 0 evs) ∧ forallb plain_event evs = true.

(** *** authn/jwt: NewSigner *)

(** [SigningMethod.Alg]. *)
Definition Alg (m : SigningMethod) : string :=
  match m with
  | SigningMethodHS256 => "HS256" | SigningMethodHS384 => "HS384"
  | SigningMethodHS512 => "HS512"
  | SigningMethodRS256 => "RS256" | SigningMethodRS384 => "RS384"
  | SigningMethodRS512 => "RS512"
  | SigningMethodES256 => "ES256" | SigningMethodES384 => "ES384"
  | SigningMethodES512 => "ES512"
  | SigningMethodPS256 => "PS256" | SigningMethodPS384 => "PS384"
  | SigningMethodPS512 => "PS512"
  | SigningMethodEdDSA => "EdDSA" | SigningMethodNone => "none"
  end.

(** [jwt.NewWithClaims]: a token with the header members [typ] and
    [alg], not yet signed. *)
Definition jwt_NewWithClaims (method : SigningMethod) (claims : MapClaims) : Token :=
  mkToken "" (Some method) {[ "typ" := JStr "JWT"; "alg" := JStr (Alg method) ]}
    claims "" false.

Section signer.

(** [Token.SignedString(key)] of the JWT package: the encoded token or
    the error of the signing method. *)
Variable jwt_SignedString : Token → string → string * option error.

(** The token that [NewSigner] signs: [token.Header["kid"] = kid]. *)
Definition signer_token (kid : string) (method : SigningMethod) (claims : MapClaims)
    : Token :=
  let token := jwt_NewWithClaims method claims in
  mkToken (Raw token) (Method token) (<["kid" := JStr kid]> (Header token))
    (Claims token) (Signature token) (Valid token).

Definition NewSigner (kid : string) (key : string) (method : SigningMethod)
    (claims : MapClaims) : Middleware :=
  λ next ctx request,
    let token := signer_token kid method claims in
    match jwt_SignedString token key with
    | (_, Some err) => mret (VNil, Some err)
    | (tokenString, None) =>
        let ctx := WithValue ctx JWTContextKey (VString tokenString) in
        next ctx request
    end.

End signer.

(** *** transport: the response and error encoders *)

(** Modelled from the spec: [recorderrors.ErrNotFound], a variable of the
    package [recorderrors] of this repository, whose file is not among the
    sources. The spec has it as [NotFound], "surfaced by unrelated
    response-encoding collaborator". *)
Definition ErrNotFound : error := package_error "recorderrors" "ErrNotFound".

(** [err == v] for a package-level variable [v] of another package. *)
Definition is_package_error (err : error) (pkg name : string) : bool :=
  match err with
  | package_error p n => String.eqb p pkg && String.eqb n name
  | _ => false
  end.

(** An [http.ResponseWriter]: the header map, the status once it has
    been written, and the documents written to the body. *)
Record ResponseWriter : Type := mkResponseWriter {
  rw_Header : list (string * list string);
  rw_Status : option Z;
  rw_Body : list JSON
}.

Definition StatusOK : Z := 200.
Definition StatusUnauthorized : Z := 401.
Definition StatusNotFound : Z := 404.
Definition StatusInternalServerError : Z := 500.

(** [w.Header().Set] and [w.Header().Add]. *)
Definition rw_Header_Set (w : ResponseWriter) (key value : string) : ResponseWriter :=
  mkResponseWriter
    ((key, [value]) :: filter (λ kv, kv.1 ≠ key) (rw_Header w))
    (rw_Status w) (rw_Body w).

Definition rw_Header_Add (w : ResponseWriter) (key value : string) : ResponseWriter :=
  mkResponseWriter
    (if existsb (λ kv, String.eqb kv.1 key) (rw_Header w)
     then map (λ kv : string * list string,
                 if String.eqb kv.1 key then (kv.1, (kv.2 ++ [value])%list) else kv)
            (rw_Header w)
     else (rw_Header w ++ [(key, [value])])%list)
    (rw_Status w) (rw_Body w).

(** [w.WriteHeader]: the first status written stays. *)
Definition WriteHeader (w : ResponseWriter) (code : Z) : ResponseWriter :=
  match rw_Status w with
  | Some _ => w
  | None => mkResponseWriter (rw_Header w) (Some code) (rw_Body w)
  end.

(** [w.Write]: writes the status 200 first if none was written. *)
Definition rw_Write (w : ResponseWriter) (doc : JSON) : ResponseWriter :=
  let w := WriteHeader w StatusOK in
  mkResponseWriter (rw_Header w) (rw_Status w) (rw_Body w ++ [doc])%list.

Section transport.
Context `{Extern}.

(** The message of a variable of another package. *)
Variable package_message : string → string → string.

(** [err.Error()]. A [ValidationError] answers with its inner error's
    message, else its own text, else ["token is invalid"]. *)
Fixpoint error_Error (err : error) : string :=
  match err with
  | ErrTokenContextMissing => "JWT not present"
  | ErrTokenInvalid => "JWT was invalid"
  | ErrTokenExpired => "JWT is expired"
  | ErrTokenMalformed => "JWT is malformed"
  | ErrTokenNotActive => "token is not valid yet"
  | ErrUnexpectedSigningMethod => "unexpected signing method"
  | package_error pkg name => package_message pkg name
  | errors_New msg => msg
  | ValidationError (Some inner) _ _ => error_Error inner
  | ValidationError None _ text =>
      if decide (text = "") then "token is invalid" else text
  end.

(** [json.NewEncoder(w).Encode(v)]: nothing is written when [v] cannot be
    encoded. *)
Definition json_Encode (w : ResponseWriter) (v : Value) : ResponseWriter * option error :=
  match json_Marshal v with
  | inr err => (w, Some err)
  | inl doc => (rw_Write w doc, None)
  end.

Definition HTTPEncodeResponse (ctx : Ctx) (w : ResponseWriter) (response : Value)
    : ResponseWriter * option error :=
  let w := rw_Header_Set w "Access-Control-Allow-Origin" "*" in
  let w := rw_Header_Add w "Content-Type" "application/json" in
  json_Encode w response.

(** [HTTPErrorResponse{Error: msg}] under [json.Marshal]: the member
    [error] is tagged [omitempty]. *)
Definition marshal_HTTPErrorResponse (msg : string) : JSON :=
  JObj (if decide (msg = "") then [] else [("error", JStr msg)]).

Definition HTTPErrorEncoder (ctx : Ctx) (err : error) (w : ResponseWriter)
    : ResponseWriter :=
  if is_package_error err "recorderrors" "ErrNotFound" then
    WriteHeader w StatusNotFound
  else if is_package_error err "authzerrors" "ErrDeniedByPolicy" then
    WriteHeader w StatusUnauthorized
  else
    let w := WriteHeader w StatusInternalServerError in
    rw_Write w (marshal_HTTPErrorResponse (error_Error err)).

End transport.

(** A response writer on which nothing has been set or written. *)
Definition fresh_writer : ResponseWriter := mkResponseWriter [] None [].

(** The signing of the runs: the token string names the method, the key
    identifier and the key; an empty key cannot sign. *)
Definition run_SignedString (token : Token) (key : string) : string * option error :=
  if decide (key = "") then ("", Some (errors_New "key is invalid"))
  else
    (match Method token with Some m => Alg m | None => "" end +:+ "." +:+
     match Header token !! "kid" with Some (JStr k) => k | _ => "" end +:+ "." +:+ key,
     None).

(** *** Vocabulary of the further properties *)

(** The context keys under which a stage attaches values. *)
Definition stage_keys (s : Stage) : list contextKey :=
  match s with
  | Verification _ =>
      [opentracing_activeSpanKey; JWTDecodedTokenContextKey; JWTClaimsContextKey]
  | AuthorizationInProcess _ _ | AuthorizationSidecar _ _ =>
      [opentracing_activeSpanKey; AuthorizationResultsContextKey]
  end.

(** The operation name of the span of a stage. *)
Definition stage_name (s : Stage) : string :=
  match s with
  | Verification _ => "ParseJWT"
  | AuthorizationInProcess _ _ => "AuthZPolicyInternal"
  | AuthorizationSidecar _ _ => "AuthZPolicyExternal"
  end.

(** The evaluation itself fails with [e]: the embedded evaluation returns
    the error [e]; the remote query returns the error [e]. *)
Definition evaluation_fails `{Extern} (d : DecisionPoint) (queryString : string)
    (ctx : Ctx) (request : Value) (w : World) (e : error) : Prop :=
  match d with
  | Embedded query =>
      ∃ ctx1 span w1 results,
        NewChildSpanAndContext ctx "AuthZPolicyInternal" w = (Done (ctx1, span), w1)
        ∧ rego_Eval query ctx1 (queryInput_Value (inputForRequest ctx1 request))
          = (results, Some e)
  | Remote c =>
      ∃ ctx1 span w1 resp w2,
        NewChildSpanAndContext ctx "AuthZPolicyExternal" w = (Done (ctx1, span), w1)
        ∧ Query c ctx1 queryString (queryInput_Value (inputForRequest ctx1 request))
            (mkAuthorizationResponse false) w1
          = (Done (Some e, resp), w2)
  end.

(** The decision that an authorization stage attaches for [d]. *)
Definition allowed_decision (d : DecisionPoint) (v : Value) : Prop :=
  match d with
  | Embedded _ => ∃ results, v = VResultSet results ∧ Allowed results = true
  | Remote _ => ∃ resp, v = VAuthorizationResponse resp ∧ Result resp = true
  end.

(** The certificate text that the key function builds around [x5c0]. *)
Definition pem_wrap (x5c0 : string) : string :=
  "-----BEGIN CERTIFICATE-----" +:+ LF +:+ x5c0 +:+ LF +:+ "-----END CERTIFICATE-----".

(** The request that a query builds for the body [body]. *)
Definition query_request (c : opaClient) (query : string) (body : JSON) : http_Request :=
  mkRequest (httptrace_WithClientTrace Background VClientTrace) "POST"
    (baseURL c +:+ "/v1/" +:+ strings_ReplaceAll query "." "/")
    [("Content-Type", "application/json")] body.

(** The values of a header of a response writer. *)
Fixpoint header_values (h : list (string * list string)) (key : string) : list string :=
  match h with
  | [] => []
  | (k, vs) :: rest => if String.eqb k key then vs else header_values rest key
  end.

(** [extends keys ctx' ctx]: [ctx'] is [ctx] with values attached under
    keys of [keys]. *)
Inductive extends (keys : list contextKey) (ctx : Ctx) : Ctx → Prop :=
| extends_refl : extends keys ctx ctx
| extends_value ctx' key val :
    key ∈ keys → extends keys ctx ctx' → extends keys ctx (WithValue ctx' key val).

(** A key set after a rotation that kept the key identifier: two
    entries carry ["k1"], the newer one last. *)
Definition key_old : JSONWebKeys := mkJSONWebKeys "RSA" "k1" "sig" "n" "AQAB" ["MIIB"].
Definition key_new : JSONWebKeys := mkJSONWebKeys "RSA" "k1" "sig" "n" "AQAB" ["MIIC"].
Definition authn_rotated : Authenticator :=
  mkAuthenticator (mkJwks [key_old; key_new]) "https://issuer/jwks.json".

(** The message of a package-level error of the runs. *)
Definition run_package_message (pkg name : string) : string := pkg +:+ ": " +:+ name.

(** * Properties *)

(** ** Running the monad *)

Lemma bind_run {A B} (m : M A) (k : A → M B) (w : World) :
  (m ≫= k) w = match m w with
               | (Done a, w') => k a w'
               | (Panicked msg, w') => (Panicked msg, w')
               end.
Proof. reflexivity. Qed.

Lemma handler_calls_emit (e : Event) (w : World) :
  is_handler_event e = false →
  handler_calls (mkWorld (clock w) (next_span w) (trace w ++ [e])) = handler_calls w.
Proof.
  intros He. unfold handler_calls. simpl.
  rewrite List.filter_app. simpl. rewrite He. simpl.
  by rewrite length_app, Nat.add_0_r.
Qed.

Lemma quiet_ret {A} (a : A) : quiet (mret a).
Proof. intros w r w' [= <- <-]. done. Qed.

Lemma quiet_panic {A} msg : quiet (@panic A msg).
Proof. intros w r w' [= <- <-]. done. Qed.

Lemma quiet_lift {A} (r : Res A) : quiet (lift r).
Proof. intros w r' w' [= <- <-]. done. Qed.

Lemma quiet_now : quiet now.
Proof. intros w r w' [= <- <-]. done. Qed.

Lemma quiet_deref {A} (p : option A) : quiet (deref p).
Proof. destruct p; [apply quiet_ret | apply quiet_panic]. Qed.

Lemma quiet_emit (e : Event) : is_handler_event e = false → quiet (emit e).
Proof. intros He w r w' [= <- <-]. by apply handler_calls_emit. Qed.

Lemma quiet_bind {A B} (m : M A) (k : A → M B) :
  quiet m → (∀ a, quiet (k a)) → quiet (m ≫= k).
Proof.
  intros Hm Hk w r w'. rewrite bind_run.
  destruct (m w) as [[a|msg] w1] eqn:E.
  - intros Hr. rewrite (Hk a _ _ _ Hr). eapply Hm, E.
  - intros [= <- <-]. eapply Hm, E.
Qed.

Ltac quiet :=
  repeat first
    [ apply quiet_ret | apply quiet_panic | apply quiet_lift | apply quiet_now
    | apply quiet_deref | apply quiet_emit; reflexivity
    | apply quiet_bind; [|intros ?]
    | case_match ].

Section stage_lemmas.
Context `{Extern}.

Lemma quiet_StartSpan name parent : quiet (tracer_StartSpan name parent).
Proof. intros w r w' [= <- <-]. by apply handler_calls_emit. Qed.

Lemma NewChildSpanAndContext_run ctx name w :
  ∃ span w1,
    NewChildSpanAndContext ctx name w
      = (Done (opentracing_ContextWithSpan ctx span, span), w1)
    ∧ clock w1 = clock w.
Proof.
  unfold NewChildSpanAndContext. rewrite bind_run.
  destruct (opentracing_SpanFromContext ctx); simpl; eauto.
Qed.

Lemma quiet_NewChildSpanAndContext ctx name : quiet (NewChildSpanAndContext ctx name).
Proof.
  unfold NewChildSpanAndContext. apply quiet_bind.
  - destruct (opentracing_SpanFromContext ctx); apply quiet_StartSpan.
  - intros a. apply quiet_ret.
Qed.

Lemma quiet_Do gotConn req :
  (∀ b, quiet (gotConn b)) → quiet (http_DefaultClient_Do gotConn req).
Proof. intros Hg. unfold http_DefaultClient_Do. quiet; apply Hg. Qed.

Lemma quiet_Query c ctx query data response :
  quiet (Query c ctx query data response).
Proof.
  unfold Query. quiet.
Qed.

Lemma quiet_kf a token : quiet (kf a token).
Proof. unfold kf. quiet. Qed.

Lemma quiet_ParseWithClaims tokenString claims (keyFunc : Keyfunc) :
  (∀ token, quiet (keyFunc token)) →
  quiet (jwt_ParseWithClaims tokenString claims keyFunc).
Proof.
  intros Hk. unfold jwt_ParseWithClaims.
  destruct (jwt_ParseUnverified _ _); [quiet|].
  apply quiet_bind; [apply Hk|]. intros [key err].
  destruct err as [[]|]; quiet.
Qed.

Lemma quiet_parseTokenString ctx tokenString method newClaims (keyFunc : Keyfunc) :
  (∀ token, quiet (keyFunc token)) →
  quiet (parseTokenString ctx tokenString method newClaims keyFunc).
Proof.
  intros Hk. apply quiet_ParseWithClaims. intros token.
  case_decide; [quiet | apply Hk].
Qed.

(** ** The three endings *)

Lemma staged_reject P request e :
  staged P (λ _, mret (VNil, Some e)) request.
Proof. intros w. by exists (Rejects e w). Qed.

Lemma staged_next (P : Ctx → Prop) request ctx' :
  P ctx' → staged P (λ next, next ctx' request) request.
Proof. intros HP w. by exists (CallsThrough ctx' w). Qed.

Lemma staged_bind {A} P request (m : M A)
    (k : A → Endpoint → M (Value * option error)) :
  quiet m →
  (∀ a, (∃ w1 w2, m w1 = (Done a, w2)) → staged P (k a) request) →
  staged P (λ next, a ← m; k a next) request.
Proof.
  intros Hq Hk w.
  destruct (m w) as [[a|msg] w1] eqn:Hm.
  - destruct (Hk a (ex_intro _ w (ex_intro _ w1 Hm)) w1) as (o & Ho & Hc & HP).
    exists o. split_and!; [|by rewrite Hc; eapply Hq|done].
    destruct o; simpl in *; intros next; rewrite bind_run, Hm; apply Ho.
  - exists (Panics msg w1). split_and!; [|by eapply Hq|done].
    intros next. by rewrite bind_run, Hm.
Qed.

Lemma staged_seq {A} P request (m : M A) (k : Endpoint → M (Value * option error)) :
  quiet m → staged P k request → staged P (λ next, m;; k next) request.
Proof. intros Hq Hk. apply (staged_bind P request m (λ _, k)); auto. Qed.

Ltac reject := repeat (apply staged_seq; [quiet|]); apply staged_reject.

Lemma newParser_staged (keyFunc : Keyfunc) method newClaims authn ctx request :
  (∀ token, quiet (keyFunc token)) →
  staged (λ _, True)
    (λ next, newParser keyFunc method newClaims authn next ctx request) request.
Proof.
  intros Hk. unfold newParser.
  apply staged_bind; [apply quiet_NewChildSpanAndContext|]. intros [ctx1 span] _.
  destruct (extractTokenFromContext ctx1) as [tokenString [err|]]; [reject|].
  apply staged_bind; [quiet|]. intros ts _.
  apply staged_bind; [by apply quiet_parseTokenString|].
  intros [token [err|]] (w1 & w2 & Hparse).
  - destruct err; try reject.
    repeat case_decide; try reject. destruct Inner; reject.
  - apply staged_bind; [quiet|]. intros tok (w3 & w4 & Htok).
    destruct token as [token|]; [|discriminate]. injection Htok as -> _.
    destruct (Valid tok) eqn:Hv; simpl; [|reject].
    apply staged_seq; [quiet|]. by apply staged_next.
Qed.

Lemma inProcessMiddleware_staged query queryString ctx request :
  staged (λ _, True)
    (λ next, inProcessMiddleware query queryString next ctx request) request.
Proof.
  unfold inProcessMiddleware.
  apply staged_bind; [apply quiet_NewChildSpanAndContext|]. intros [ctx1 span] _.
  destruct (rego_Eval _ _ _) as [results [err|]]; [reject|].
  destruct (negb (Allowed results)); [reject|].
  apply staged_seq; [quiet|]. by apply staged_next.
Qed.

Lemma sidecarMiddleware_staged c queryString ctx request :
  staged (λ _, True)
    (λ next, sidecarMiddleware c queryString next ctx request) request.
Proof.
  unfold sidecarMiddleware.
  apply staged_bind; [apply quiet_NewChildSpanAndContext|]. intros [ctx1 span] _.
  apply staged_bind; [apply quiet_Query|]. intros [[err|] resp] _; [reject|].
  destruct (negb (Result resp)); [reject|].
  apply staged_seq; [quiet|]. by apply staged_next.
Qed.

Lemma stage_staged (s : Stage) ctx request :
  staged (λ _, True) (λ next, stage_middleware s next ctx request) request.
Proof.
  destruct s; simpl.
  - apply newParser_staged, quiet_kf.
  - apply inProcessMiddleware_staged.
  - apply sidecarMiddleware_staged.
Qed.

Lemma countingHandler_run ctx request w :
  ∃ w', countingHandler ctx request w = (Done (VString "ok", None), w').
Proof. by eexists. Qed.

End stage_lemmas.

(** ** C3 *)

(** C3. Whenever a stage (verification, in-process authorization, sidecar
    authorization) returns an error around a handler that itself always
    answers, the handler was not invoked during that call, and the stage
    returns that same error, leaving the same world behind, whatever
    endpoint it wraps: the error is returned without calling through. *)
Theorem C3_error_without_calling_through `{Extern} (s : Stage) (ctx : Ctx)
    (request : Value) (w w' : World) (e : error) :
  stage_middleware s countingHandler ctx request w = (Done (VNil, Some e), w') →
  handler_calls w' = handler_calls w
  ∧ ∀ next : Endpoint, stage_middleware s next ctx request w = (Done (VNil, Some e), w').
Proof.
  intros Hrun.
  destruct (stage_staged s ctx request w) as ([e0 w0|msg w0|ctx' w0] & Ho & Hc & _);
    simpl in *.
  - rewrite Ho in Hrun. injection Hrun as <- <-. split; [done|]. apply Ho.
  - rewrite Ho in Hrun. discriminate.
  - rewrite Ho in Hrun.
    destruct (countingHandler_run ctx' request w0) as [w1 Hw1]. congruence.
Qed.

(** ** Verification failures *)

Section verification.
Context `{Extern}.

Lemma ctx_Value_span ctx span key :
  key ≠ opentracing_activeSpanKey →
  ctx_Value (opentracing_ContextWithSpan ctx span) key = ctx_Value ctx key.
Proof. intros Hk. simpl. by rewrite decide_False. Qed.

(** The parser turns an error of the parse into the error that the
    [switch] selects. *)
Lemma newParser_reports (keyFunc : Keyfunc) method newClaims authn next ctx request w
    tokenString err e :
  ctx_Value ctx JWTContextKey = VString tokenString →
  (∀ ctx1 w1, clock w1 = clock w →
     ∃ token w2, parseTokenString ctx1 tokenString method newClaims keyFunc w1
                 = (Done (token, Some err), w2)) →
  reports err e →
  (newParser keyFunc method newClaims authn next ctx request w).1
  = Done (VNil, Some e).
Proof.
  intros Hctx Hparse Hrep. unfold newParser.
  destruct (NewChildSpanAndContext_run ctx "ParseJWT" w) as (span & w1 & Hspan & Hclk).
  rewrite bind_run, Hspan. unfold extractTokenFromContext.
  rewrite ctx_Value_span, Hctx by done. simpl.
  rewrite bind_run. simpl.
  destruct (Hparse (opentracing_ContextWithSpan ctx span) w1 Hclk) as (token & w2 & Hp).
  rewrite bind_run, Hp.
  destruct Hrep; repeat case_decide; try done.
Qed.

Lemma ParseUnverified_decoded tokenString claims header claims' ss sg alg m :
  jwt_DecodeSegments tokenString claims = Decoded header claims' ss sg →
  header !! "alg" = Some (JStr alg) →
  jwt_GetSigningMethod alg = Some m →
  jwt_ParseUnverified tokenString claims
  = Parsed (mkToken tokenString (Some m) header claims' "" false) ss sg.
Proof. intros Hd Ha Hm. unfold jwt_ParseUnverified. by rewrite Hd, Ha, Hm. Qed.

Lemma parse_other_method (keyFunc : Keyfunc) ctx1 tokenString token ss sg w1 :
  jwt_ParseUnverified tokenString (MapClaimsFactory ()) = Parsed token ss sg →
  Method token ≠ Some SigningMethodRS256 →
  parseTokenString ctx1 tokenString SigningMethodRS256 MapClaimsFactory keyFunc w1
  = (Done (Some token,
           Some (ValidationError (Some ErrUnexpectedSigningMethod)
                   ValidationErrorUnverifiable "")), w1).
Proof.
  intros Hp Hm. unfold parseTokenString, jwt_ParseWithClaims. rewrite Hp.
  rewrite bind_run. by rewrite decide_True.
Qed.

Lemma kf_loop_absent kid keys cert :
  (∀ key, key ∈ keys → kid ≠ Some (JStr (Kid key))) →
  kf_loop kid keys cert = Done cert.
Proof.
  induction keys as [|key keys IH]; intros Habs; simpl; [done|].
  destruct kid as [[| | |s| |]|];
    try (apply IH; intros k Hk; apply Habs; by right).
  destruct (String.eqb_spec s (Kid key)) as [->|_].
  - exfalso. by apply (Habs key); [left|].
  - apply IH. intros k Hk. apply Habs. by right.
Qed.

Lemma parse_unknown_kid a ctx1 tokenString token ss sg w1 :
  jwt_ParseUnverified tokenString (MapClaimsFactory ()) = Parsed token ss sg →
  Method token = Some SigningMethodRS256 →
  kid_absent token (jwks a) →
  parseTokenString ctx1 tokenString SigningMethodRS256 MapClaimsFactory (kf a) w1
  = (Done (Some token,
           Some (ValidationError (Some ErrInvalidKeyID)
                   ValidationErrorUnverifiable "")), w1).
Proof.
  intros Hp Hm Habs. unfold parseTokenString, jwt_ParseWithClaims. rewrite Hp.
  rewrite bind_run, decide_False by (by rewrite Hm; intros []).
  unfold kf. rewrite bind_run. unfold lift.
  by rewrite (kf_loop_absent _ _ _ Habs).
Qed.

(** The parse of a token that passes the algorithm check and whose key
    is found, in both orders of validation and verification: a failing
    signature on valid claims, and failing claims under a good
    signature. *)
Lemma parse_bad_signature a ctx1 tokenString token ss sg cert w1 verr :
  jwt_ParseUnverified tokenString (MapClaimsFactory ()) = Parsed token ss sg →
  Method token = Some SigningMethodRS256 →
  kf_loop (Header token !! "kid") (Keys (jwks a)) "" = Done cert →
  String.length cert ≠ 0%nat →
  MapClaims_Valid (Claims token) (clock w1) = None →
  jwt_Verify SigningMethodRS256 ss sg
    (VRSAPublicKey (jwt_ParseRSAPublicKeyFromPEM cert).1) = Done (Some verr) →
  ∃ token',
    parseTokenString ctx1 tokenString SigningMethodRS256 MapClaimsFactory (kf a) w1
    = (Done (Some token',
             Some (ValidationError (Some verr) ValidationErrorSignatureInvalid "")),
       w1).
Proof.
  intros Hp Hm Hloop Hlen Hcl Hver.
  unfold parseTokenString, jwt_ParseWithClaims. rewrite Hp.
  rewrite bind_run, decide_False by (by rewrite Hm; intros []).
  unfold kf. rewrite bind_run. unfold lift. rewrite Hloop.
  rewrite decide_False by done.
  destruct (jwt_ParseRSAPublicKeyFromPEM cert) as [key perr]. simpl in *.
  rewrite Hm. cbv [mbind M_bind mret M_ret now deref]. simpl.
  destruct jwt_signature_first; simpl; rewrite Hver, ?Hcl; simpl;
    eexists; reflexivity.
Qed.

Lemma parse_bad_claims a ctx1 tokenString token ss sg cert w1 inner errs text :
  jwt_ParseUnverified tokenString (MapClaimsFactory ()) = Parsed token ss sg →
  Method token = Some SigningMethodRS256 →
  kf_loop (Header token !! "kid") (Keys (jwks a)) "" = Done cert →
  String.length cert ≠ 0%nat →
  MapClaims_Valid (Claims token) (clock w1)
    = Some (ValidationError inner errs text) →
  errs ≠ 0%Z →
  jwt_Verify SigningMethodRS256 ss sg
    (VRSAPublicKey (jwt_ParseRSAPublicKeyFromPEM cert).1) = Done None →
  ∃ token',
    parseTokenString ctx1 tokenString SigningMethodRS256 MapClaimsFactory (kf a) w1
    = (Done (Some token', Some (ValidationError inner errs text)), w1).
Proof.
  intros Hp Hm Hloop Hlen Hcl Hz Hver.
  unfold parseTokenString, jwt_ParseWithClaims. rewrite Hp.
  rewrite bind_run, decide_False by (by rewrite Hm; intros []).
  unfold kf. rewrite bind_run. unfold lift. rewrite Hloop.
  rewrite decide_False by done.
  destruct (jwt_ParseRSAPublicKeyFromPEM cert) as [key perr]. simpl in *.
  rewrite Hm. cbv [mbind M_bind mret M_ret now deref]. simpl.
  destruct jwt_signature_first; simpl; rewrite Hver, ?Hcl; simpl.
  - eexists; reflexivity.
  - destruct (Z.eqb_spec errs 0); [done|]. eexists; reflexivity.
Qed.

(** Bits of the claims validation. *)
Lemma MapClaims_Valid_expired m t :
  VerifyExpiresAt m t false = false →
  ∃ inner errs text,
    MapClaims_Valid m t = Some (ValidationError inner errs text)
    ∧ (errs = 16 ∨ errs = 48 ∨ errs = 144 ∨ errs = 176)%Z.
Proof.
  intros He. unfold MapClaims_Valid. rewrite He.
  destruct (VerifyIssuedAt m t false), (VerifyNotBefore m t false);
    simpl; eexists _, _, _; (split; [reflexivity|]); auto.
Qed.

Lemma MapClaims_Valid_not_active m t :
  VerifyExpiresAt m t false = true →
  VerifyNotBefore m t false = false →
  ∃ inner errs text,
    MapClaims_Valid m t = Some (ValidationError inner errs text)
    ∧ (errs = 128 ∨ errs = 160)%Z.
Proof.
  intros He Hn. unfold MapClaims_Valid. rewrite He, Hn.
  destruct (VerifyIssuedAt m t false);
    simpl; eexists _, _, _; (split; [reflexivity|]); auto.
Qed.

End verification.

(** ** C1 *)

(** C1 (amended). A token that decodes and whose header names, under
    [alg], a registered signing method other than RS256 is rejected by the
    authenticator's middleware with [ErrUnexpectedSigningMethod]: the key
    set and the outcome of any signature check play no part. *)
Theorem C1_other_algorithm_is_unexpected `{Extern} (a : Authenticator)
    (next : Endpoint) (ctx : Ctx) (request : Value) (w : World)
    (tokenString : string) (header : gmap string JSON) (claims : MapClaims)
    (signingString signature alg : string) (method : SigningMethod) :
  ctx_Value ctx JWTContextKey = VString tokenString →
  jwt_DecodeSegments tokenString (MapClaimsFactory ())
    = Decoded header claims signingString signature →
  header !! "alg" = Some (JStr alg) →
  jwt_GetSigningMethod alg = Some method →
  method ≠ SigningMethodRS256 →
  (NewMiddleware a next ctx request w).1
  = Done (VNil, Some ErrUnexpectedSigningMethod).
Proof.
  intros Hctx Hd Halg Hreg Hm. unfold NewMiddleware.
  eapply newParser_reports; [done| |].
  - intros ctx1 w1 _. eexists _, _.
    eapply parse_other_method; [by eapply ParseUnverified_decoded|].
    simpl. congruence.
  - by apply reports_inner.
Qed.

(** ** C4 *)

(** C4 (amended). A token that decodes with the configured method RS256
    and whose header key identifier names no entry of the key set is
    rejected with the one error [ErrInvalidKeyID], which is none of the
    kinds that the packages declare. *)
Theorem C4_absent_kid_under_expected_algorithm `{Extern} (a : Authenticator)
    (next : Endpoint) (ctx : Ctx) (request : Value) (w : World)
    (tokenString : string) (token : Token) (signingString signature : string) :
  ctx_Value ctx JWTContextKey = VString tokenString →
  jwt_ParseUnverified tokenString (MapClaimsFactory ())
    = Parsed token signingString signature →
  Method token = Some SigningMethodRS256 →
  kid_absent token (jwks a) →
  (NewMiddleware a next ctx request w).1 = Done (VNil, Some ErrInvalidKeyID)
  ∧ ErrInvalidKeyID ∉ declared_kinds.
Proof.
  intros Hctx Hp Hm Habs. split.
  - unfold NewMiddleware.
    eapply newParser_reports; [done| |].
    + intros ctx1 w1 _. eexists _, _. by eapply parse_unknown_kid.
    + by apply reports_inner.
  - unfold declared_kinds, ErrInvalidKeyID, ErrDeniedByPolicy.
    rewrite !not_elem_of_cons. split_and!; try done. apply not_elem_of_nil.
Qed.

(** ** C5 *)

(** C5 (amended). A token that decodes with RS256, whose key identifier
    resolves to a certificate of the key set and whose time claims are
    valid, but whose signature check fails with [verr], is rejected with
    [verr] itself, the error of the signing method. *)
Theorem C5_bad_signature_returns_the_verification_error `{Extern}
    (a : Authenticator) (next : Endpoint) (ctx : Ctx) (request : Value) (w : World)
    (tokenString : string) (token : Token) (signingString signature cert : string)
    (verr : error) :
  ctx_Value ctx JWTContextKey = VString tokenString →
  jwt_ParseUnverified tokenString (MapClaimsFactory ())
    = Parsed token signingString signature →
  Method token = Some SigningMethodRS256 →
  kf_loop (Header token !! "kid") (Keys (jwks a)) "" = Done cert →
  String.length cert ≠ 0%nat →
  MapClaims_Valid (Claims token) (clock w) = None →
  jwt_Verify SigningMethodRS256 signingString signature
    (VRSAPublicKey (jwt_ParseRSAPublicKeyFromPEM cert).1) = Done (Some verr) →
  (NewMiddleware a next ctx request w).1 = Done (VNil, Some verr).
Proof.
  intros Hctx Hp Hm Hloop Hlen Hclaims Hver. unfold NewMiddleware.
  eapply newParser_reports; [done| |].
  - intros ctx1 w1 Hclk. rewrite <- Hclk in Hclaims.
    destruct (parse_bad_signature a ctx1 _ _ _ _ _ w1 _ Hp Hm Hloop Hlen Hclaims Hver)
      as [token' Ht].
    by eexists _, _.
  - by apply reports_inner.
Qed.

(** ** C6 *)

Lemma time_Unix_small s : unix_time s → time_Unix s = (s + unixToInternal)%Z.
Proof.
  unfold unix_time, time_Unix, wrap_int64, int64_min, int64_max, unixToInternal.
  intros [Hlo Hhi]. rewrite Z.mod_small by lia. lia.
Qed.

Lemma int64_of_float64_small s : unix_time s → int64_of_float64 s = s.
Proof.
  unfold unix_time, int64_of_float64, unixToInternal. intros [Hlo Hhi].
  case_decide; [done|lia].
Qed.

Lemma VerifyExpiresAt_past m exp t :
  m !! "exp" = Some (JNum exp) → exp ≠ 0%Z → unix_time exp → unix_time t →
  (exp < t)%Z →
  VerifyExpiresAt m t false = false.
Proof.
  intros Hm Hz He Ht Hlt. unfold VerifyExpiresAt. rewrite Hm.
  destruct (Z.eqb_spec exp 0); [done|].
  rewrite int64_of_float64_small, !time_Unix_small by done.
  apply Z.ltb_ge. lia.
Qed.

Lemma VerifyNotBefore_future m nbf t :
  m !! "nbf" = Some (JNum nbf) → nbf ≠ 0%Z → unix_time nbf → unix_time t →
  (t < nbf)%Z →
  VerifyNotBefore m t false = false.
Proof.
  intros Hm Hz Hn Ht Hlt. unfold VerifyNotBefore. rewrite Hm.
  destruct (Z.eqb_spec nbf 0); [done|].
  rewrite int64_of_float64_small, !time_Unix_small by done.
  apply Z.leb_gt. lia.
Qed.

(** The three kinds are distinct. *)
Lemma failure_kind_inj f g : failure_kind f = failure_kind g → f = g.
Proof. by destruct f, g. Qed.

(** C6 (amended). At evaluation time [t], a token string that does not
    decode is rejected with [ErrTokenMalformed]; a token that reaches the
    validation of its claims (RS256, key identifier resolved, signature
    verified) with a non-zero [exp] before [t] is rejected with
    [ErrTokenExpired]; one with a non-zero [nbf] after [t], its [exp] not
    passed, with [ErrTokenNotActive]. [exp], [nbf] and [t] are whole
    seconds that [time.Unix] represents without overflow. Every
    verification of that token string at time [t] -- whatever the call, the
    world and the wrapped endpoint -- returns that same kind. *)
Theorem C6_token_failures_are_stable_kinds `{Extern} (f : TokenFailure)
    (a : Authenticator) (tokenString : string) (t : Z)
    (next : Endpoint) (ctx : Ctx) (request : Value) (w : World) :
  exhibits f a tokenString t →
  ctx_Value ctx JWTContextKey = VString tokenString →
  clock w = t →
  (NewMiddleware a next ctx request w).1 = Done (VNil, Some (failure_kind f)).
Proof.
  intros Hex Hctx Ht. unfold NewMiddleware.
  destruct f; simpl in *.
  - destruct Hex as (token & inner & text & Hp).
    eapply (newParser_reports _ _ _ _ _ _ _ _ _
              (ValidationError inner ValidationErrorMalformed text));
      [done| |by apply reports_malformed].
    intros ctx1 w1 _. eexists _, _.
    unfold parseTokenString, jwt_ParseWithClaims, jwt_ParseUnverified.
    by rewrite Hp.
  - destruct Hex as (token & ss & sg & exp & Hp & Hreach & Hexp & Hz & Hr & Hrt & Hlt).
    destruct Hreach as (Hm & cert & Hloop & Hlen & Hver).
    pose proof (VerifyExpiresAt_past _ _ _ Hexp Hz Hr Hrt Hlt) as Hv.
    destruct (MapClaims_Valid_expired _ _ Hv) as (inner & errs & text & Hcl & Herrs).
    eapply (newParser_reports _ _ _ _ _ _ _ _ _ (ValidationError inner errs text));
      [done| |].
    + intros ctx1 w1 Hclk. rewrite <- Ht, <- Hclk in Hcl.
      destruct (parse_bad_claims a ctx1 _ _ _ _ _ w1 _ _ _ Hp Hm Hloop Hlen Hcl)
        as [token' Htok]; [|done|by eexists _, _].
      by destruct Herrs as [-> | [-> | [-> | ->]]].
    + destruct Herrs as [-> | [-> | [-> | ->]]]; by apply reports_expired.
  - destruct Hex as (token & ss & sg & nbf & Hp & Hreach & Hnbf & Hz & Hr & Hrt
                     & Hlt & Hv).
    destruct Hreach as (Hm & cert & Hloop & Hlen & Hver).
    pose proof (VerifyNotBefore_future _ _ _ Hnbf Hz Hr Hrt Hlt) as Hn.
    destruct (MapClaims_Valid_not_active _ _ Hv Hn)
      as (inner & errs & text & Hcl & Herrs).
    eapply (newParser_reports _ _ _ _ _ _ _ _ _ (ValidationError inner errs text));
      [done| |].
    + intros ctx1 w1 Hclk. rewrite <- Ht, <- Hclk in Hcl.
      destruct (parse_bad_claims a ctx1 _ _ _ _ _ w1 _ _ _ Hp Hm Hloop Hlen Hcl)
        as [token' Htok]; [|done|by eexists _, _].
      by destruct Herrs as [-> | ->].
    + destruct Herrs as [-> | ->]; by apply reports_not_active.
Qed.

(** ** The constructors and their middlewares *)

Lemma NewInProcessMiddleware_returns `{Extern} policy queryString w :
  rego_PrepareForEval queryString policy = None →
  NewInProcessMiddleware policy queryString w
  = (Done (inProcessMiddleware (mkPrepared queryString policy) queryString), w).
Proof. intros Hp. unfold NewInProcessMiddleware. by rewrite Hp. Qed.

(** A policy that cannot be prepared: the failure goes to [Fatal], and
    when that returns the middleware is built over the zero query. *)
Lemma NewInProcessMiddleware_fatal `{Extern} policy queryString w err :
  rego_PrepareForEval queryString policy = Some err →
  NewInProcessMiddleware policy queryString w
  = (if logger_Fatal_exits then Panicked "os.Exit(1)"
     else Done (inProcessMiddleware (mkPrepared "" "") queryString),
     mkWorld (clock w) (next_span w)
       (trace w ++ [EvLog FatalLevel
                      "Failed to prepare endpoint authorization policy"])).
Proof.
  intros Hp. unfold NewInProcessMiddleware, log_Fatal. rewrite Hp.
  cbv [mbind mret M_bind M_ret emit panic]. by destruct logger_Fatal_exits.
Qed.

Lemma NewSidecarMiddleware_returns `{Extern} env queryString :
  ∃ c, NewSidecarMiddleware env queryString = sidecarMiddleware c queryString.
Proof. by eexists. Qed.

(** ** C2 *)

(** C2. Whichever decision point is behind the middleware, a policy that
    evaluates to a denial (embedded: the results are not allowed; remote:
    the response has [result = false]) makes the middleware return
    [ErrDeniedByPolicy]. *)
Theorem C2_denial_is_uniform `{Extern} (d : DecisionPoint) (queryString : string)
    (next : Endpoint) (ctx : Ctx) (request : Value) (w : World) :
  denies d queryString ctx request w →
  (authorize d queryString next ctx request w).1
  = Done (VNil, Some ErrDeniedByPolicy).
Proof.
  destruct d as [query|c]; simpl.
  - intros (ctx1 & span & w1 & results & Hspan & Heval & Hdeny).
    unfold inProcessMiddleware. rewrite bind_run, Hspan, Heval, Hdeny. done.
  - intros (ctx1 & span & w1 & resp & w2 & Hspan & Hq & Hdeny).
    unfold sidecarMiddleware. rewrite bind_run, Hspan, bind_run, Hq, Hdeny. done.
Qed.

(** ** The requests of the client *)

Section client.
Context `{Extern}.

Lemma prefix_dot c rest :
  String.prefix "." (String c rest) = Ascii.eqb c "."%char.
Proof.
  cbn [String.prefix].
  destruct (ascii_dec "." c) as [<-|Hne].
  - by destruct rest.
  - symmetry. apply Ascii.eqb_neq. congruence.
Qed.

Lemma ReplaceAll_dots (q : string) :
  strings_ReplaceAll q "." "/" = dots_to_slashes q.
Proof.
  unfold strings_ReplaceAll.
  induction q as [|c rest IH]; [done|].
  cbn [replace_from dots_to_slashes]. rewrite prefix_dot.
  destruct (Ascii.eqb c "."); cbn; by rewrite IH.
Qed.

Lemma requests_of_app tr tr' :
  requests_of (tr ++ tr') = (requests_of tr ++ requests_of tr')%list.
Proof.
  induction tr as [|[] tr IH]; simpl; [done|by rewrite ?IH..].
Qed.

(** What [Query] hands to the HTTP client: nothing when the body cannot be
    encoded or the URL does not parse, and otherwise the one request. *)
Lemma Query_sends c ctx query data response w :
  sent (Query c ctx query data response w).2
  = (sent w ++
    match marshal_QueryRequest data with
    | inr _ => []
    | inl body =>
        let url := baseURL c +:+ "/v1/" +:+ strings_ReplaceAll query "." "/" in
        match url_Parse url with
        | Some _ => []
        | None =>
            [mkRequest (httptrace_WithClientTrace Background VClientTrace)
               "POST" url [("Content-Type", "application/json")] body]
        end
    end)%list.
Proof.
  unfold Query, sent.
  destruct (marshal_QueryRequest data) as [body|err]; simpl.
  { unfold http_NewRequestWithContext.
    destruct (url_Parse _) as [err|]; simpl.
    - by rewrite requests_of_app.
    - cbv [mbind M_bind mret M_ret http_DefaultClient_Do emit log_Info log_Error].
      simpl.
      destruct (http_RoundTrip _) as [[reused|] [resp|err]]; simpl;
        repeat case_match; simpl; by rewrite ?requests_of_app, ?app_nil_r. }
  by rewrite requests_of_app.
Qed.

End client.

(** ** C7 *)

(** Every request that a query hands to the HTTP client carries a
    context derived from [context.Background()]: one without deadline and
    without cancel function, whatever the context of the call is. *)
Lemma Query_requests_detached `{Extern} c ctx query data response w :
  ∃ reqs,
    sent (Query c ctx query data response w).2 = (sent w ++ reqs)%list
    ∧ Forall (λ req, req_ctx req = httptrace_WithClientTrace Background VClientTrace
                     ∧ ctx_Deadline (req_ctx req) = None
                     ∧ ctx_cancellers (req_ctx req) = []) reqs.
Proof.
  eexists. split; [apply Query_sends|].
  destruct (marshal_QueryRequest data) as [body|err]; [|constructor].
  simpl. destruct (url_Parse _); [constructor|].
  by repeat constructor.
Qed.

(** C7, the code at a failing input. The call's context has a deadline
    and a cancel function; the one request of the query has a context
    with neither, which is not derived from the call's context. *)
Theorem C7_outbound_request_ignores_the_call_context :
  let ctx := WithDeadline (WithCancel Background 7) 5 in
  let w' := (Query (NewOPAClient "http://localhost:8181") ctx "authz.allow"
               (VQueryInput (VData (JStr "GET /orders")) VNil)
               (mkAuthorizationResponse false) (world_at 0)).2 in
  ctx_Deadline ctx = Some 5%Z
  ∧ ctx_cancellers ctx = [7]
  ∧ ∃ req, sent w' = [req]
           ∧ ctx_Deadline (req_ctx req) = None
           ∧ ctx_cancellers (req_ctx req) = []
           ∧ ¬ derived_from (req_ctx req) ctx.
Proof.
  simpl. split_and!; [done..|].
  eexists. split_and!; [vm_compute; reflexivity|done..|].
  simpl. intros [?|[?|[]]]; discriminate.
Qed.

(** ** C10 *)

(** The key lookup returns a certificate when some key of the set carries
    the header's key identifier and every such key has a certificate. *)
Lemma kf_loop_resolves kid keys cert :
  (∀ key, key ∈ keys → kid = Some (JStr (Kid key)) → X5c key ≠ []) →
  (String.length cert ≠ 0%nat ∨ ∃ key, key ∈ keys ∧ kid = Some (JStr (Kid key))) →
  ∃ cert', kf_loop kid keys cert = Done cert' ∧ String.length cert' ≠ 0%nat.
Proof.
  revert cert. induction keys as [|key keys IH]; intros cert Hx Hsome; simpl.
  - destruct Hsome as [?|(key & Hin & _)]; [by eexists|]. by apply elem_of_nil in Hin.
  - destruct (match kid with Some (JStr s) => String.eqb s (Kid key) | _ => false end)
      eqn:Hmatch.
    + destruct kid as [[| | |s| |]|]; try discriminate.
      apply String.eqb_eq in Hmatch as ->.
      destruct (X5c key) as [|x5c0 more] eqn:Hx5c.
      { exfalso. eapply Hx; [by left|done..]. }
      simpl. apply IH; [|by left].
      intros k Hk. apply Hx. by right.
    + apply IH.
      * intros k Hk. apply Hx. by right.
      * destruct Hsome as [?|(k & Hin & ->)]; [by left|].
        apply elem_of_cons in Hin as [->|Hin]; [|right; eauto].
        by rewrite String.eqb_refl in Hmatch.
Qed.

(** C10, the code at a failing input. For a key set whose entry ["k1"] has
    no certificate ([x5c] empty) and a token whose header names ["k1"], the
    key function indexes [X5c[0]] out of range and panics. *)
Theorem C10_key_function_panics_without_x5c `{Extern} (w : World) :
  kf authn_no_x5c
     (token_of "rs256.k1.plain" SigningMethodRS256 "RS256" "k1" ∅) w
  = (Panicked "index out of range [0] with length 0", w).
Proof. vm_compute. reflexivity. Qed.

(** ** Runs: witnesses and counterexamples *)

(** The claim C1 as stated fails: the algorithm ["XX999"] of the token
    differs from RS256, and the token is rejected with the validation
    error of the JWT package for an algorithm that is not registered, not
    with [ErrUnexpectedSigningMethod]. *)
Lemma C1_counterexample :
  let result := (NewMiddleware authn_k1 countingHandler
                   (ctx_with_token "xx999.k1.plain") VNil (world_at 0)).1 in
  jwt_DecodeSegments "xx999.k1.plain" (MapClaimsFactory ())
    = Decoded (header_of "XX999" "k1") ∅ "xx999.k1.plain" "signed"
  ∧ header_of "XX999" "k1" !! "alg" = Some (JStr "XX999")
  ∧ "XX999" ≠ "RS256"
  ∧ result = Done (VNil,
                   Some (ValidationError None ValidationErrorUnverifiable
                           "signing method (alg) is unavailable."))
  ∧ result ≠ Done (VNil, Some ErrUnexpectedSigningMethod).
Proof.
  split_and!.
  - vm_compute. reflexivity.
  - vm_compute. reflexivity.
  - discriminate.
  - vm_compute. reflexivity.
  - vm_compute. discriminate.
Qed.

(** C1 (amended) at a token signed with HS256: rejected as an unexpected
    signing method, around any handler. *)
Lemma C1_witness :
  (NewMiddleware authn_k1 countingHandler (ctx_with_token "hs256.k9.plain")
     VNil (world_at 0)).1
  = Done (VNil, Some ErrUnexpectedSigningMethod).
Proof.
  apply (C1_other_algorithm_is_unexpected authn_k1 countingHandler
           (ctx_with_token "hs256.k9.plain") VNil (world_at 0) "hs256.k9.plain"
           (header_of "HS256" "k9") ∅ "hs256.k9.plain" "signed" "HS256"
           SigningMethodHS256).
  - reflexivity.
  - vm_compute. reflexivity.
  - vm_compute. reflexivity.
  - reflexivity.
  - discriminate.
Defined.

(** C2 at the embedded decision point, for a call without identity and a
    policy that denies such calls. *)
Lemma C2_witness :
  (authorize (Embedded (mkPrepared "data.authz.allow" "package authz"))
     "data.authz.allow" countingHandler Background (VData (JStr "GET /orders"))
     (world_at 0)).1
  = Done (VNil, Some ErrDeniedByPolicy).
Proof.
  apply (C2_denial_is_uniform
           (Embedded (mkPrepared "data.authz.allow" "package authz"))
           "data.authz.allow" countingHandler Background
           (VData (JStr "GET /orders")) (world_at 0)).
  simpl. eexists _, _, _, _. split_and!; reflexivity.
Defined.

(** C2 at the remote decision point, whose service answers a denial. *)
Lemma C2_remote_denial :
  (authorize (Remote (NewOPAClient "http://localhost:8181"))
     "authz.allow" countingHandler Background (VData (JStr "GET /orders"))
     (world_at 0)).1
  = Done (VNil, Some ErrDeniedByPolicy).
Proof. vm_compute. reflexivity. Qed.

(** C3 at the in-process authorization stage: the call without identity
    is denied and the handler's counter stays at zero. *)
Lemma C3_witness :
  let s := AuthorizationInProcess (mkPrepared "data.authz.allow" "package authz")
             "data.authz.allow" in
  let w' := (stage_middleware s countingHandler Background VNil (world_at 0)).2 in
  handler_calls w' = 0%nat
  ∧ ∀ next : Endpoint,
      stage_middleware s next Background VNil (world_at 0)
      = (Done (VNil, Some ErrDeniedByPolicy), w').
Proof.
  intros s w'.
  apply (C3_error_without_calling_through s Background VNil (world_at 0) w'
           ErrDeniedByPolicy).
  vm_compute. reflexivity.
Defined.

(** The claim C4 as stated fails: the key identifier ["k9"] is in no entry
    of the key set, yet the token, signed with HS256, is rejected as an
    unexpected signing method and not for its key identifier. *)
Lemma C4_counterexample :
  let token := token_of "hs256.k9.plain" SigningMethodHS256 "HS256" "k9" ∅ in
  let result := (NewMiddleware authn_k1 countingHandler
                   (ctx_with_token "hs256.k9.plain") VNil (world_at 0)).1 in
  jwt_ParseUnverified "hs256.k9.plain" (MapClaimsFactory ())
    = Parsed token "hs256.k9.plain" "signed"
  ∧ kid_absent token (jwks authn_k1)
  ∧ result = Done (VNil, Some ErrUnexpectedSigningMethod)
  ∧ result ≠ Done (VNil, Some ErrInvalidKeyID).
Proof.
  split_and!.
  - vm_compute. reflexivity.
  - intros key Hin. apply list_elem_of_singleton in Hin as ->.
    vm_compute. discriminate.
  - vm_compute. reflexivity.
  - vm_compute. discriminate.
Qed.

(** C4 (amended) at an RS256 token whose key identifier is ["k9"]. *)
Lemma C4_witness :
  (NewMiddleware authn_k1 countingHandler (ctx_with_token "rs256.k9.plain")
     VNil (world_at 0)).1
  = Done (VNil, Some ErrInvalidKeyID)
  ∧ ErrInvalidKeyID ∉ declared_kinds.
Proof.
  apply (C4_absent_kid_under_expected_algorithm authn_k1 countingHandler
           (ctx_with_token "rs256.k9.plain") VNil (world_at 0) "rs256.k9.plain"
           (token_of "rs256.k9.plain" SigningMethodRS256 "RS256" "k9" ∅)
           "rs256.k9.plain" "signed").
  - reflexivity.
  - vm_compute. reflexivity.
  - reflexivity.
  - intros key Hin. apply list_elem_of_singleton in Hin as ->.
    vm_compute. discriminate.
Defined.

(** The claim C5 as stated fails: the token decodes, names RS256 and the
    key ["k1"] of the key set, its signature does not verify, and the
    middleware returns the error of [crypto/rsa], not [ErrTokenInvalid]. *)
Lemma C5_counterexample :
  let token := token_of "rs256.k1.forged" SigningMethodRS256 "RS256" "k1" ∅ in
  let result := (NewMiddleware authn_k1 countingHandler
                   (ctx_with_token "rs256.k1.forged") VNil (world_at 0)).1 in
  jwt_ParseUnverified "rs256.k1.forged" (MapClaimsFactory ())
    = Parsed token "rs256.k1.forged" "forged"
  ∧ Method token = Some SigningMethodRS256
  ∧ Header token !! "kid" = Some (JStr "k1")
  ∧ (∀ key, jwt_Verify SigningMethodRS256 "rs256.k1.forged" "forged" key
            = Done (Some rsa_ErrVerification))
  ∧ result = Done (VNil, Some rsa_ErrVerification)
  ∧ result ≠ Done (VNil, Some ErrTokenInvalid).
Proof.
  split_and!.
  - vm_compute. reflexivity.
  - reflexivity.
  - vm_compute. reflexivity.
  - intros key. reflexivity.
  - vm_compute. reflexivity.
  - vm_compute. discriminate.
Qed.

(** C5 (amended) at the forged token. *)
Lemma C5_witness :
  (NewMiddleware authn_k1 countingHandler (ctx_with_token "rs256.k1.forged")
     VNil (world_at 0)).1
  = Done (VNil, Some rsa_ErrVerification).
Proof.
  apply (C5_bad_signature_returns_the_verification_error authn_k1 countingHandler
           (ctx_with_token "rs256.k1.forged") VNil (world_at 0) "rs256.k1.forged"
           (token_of "rs256.k1.forged" SigningMethodRS256 "RS256" "k1" ∅)
           "rs256.k1.forged" "forged"
           ("-----BEGIN CERTIFICATE-----" +:+ LF +:+ "MIIC" +:+ LF +:+
            "-----END CERTIFICATE-----")).
  - reflexivity.
  - vm_compute. reflexivity.
  - reflexivity.
  - vm_compute. reflexivity.
  - vm_compute. discriminate.
  - vm_compute. reflexivity.
  - reflexivity.
Defined.

(** The claim C6 as stated fails at evaluation time 200: a token with
    [exp = 100] signed with HS256 is rejected as an unexpected signing
    method, and one whose key identifier is unknown for its key
    identifier, not as expired; a token with [nbf = 300] whose [exp = 100]
    has passed is rejected as expired, not as not yet active; a token with
    [exp = 0] is not rejected at all; and neither is a token with
    [nbf = 10^30], which is not an [int64]. *)
Lemma C6_counterexample :
  let run raw := (NewMiddleware authn_k1 countingHandler (ctx_with_token raw)
                    VNil (world_at 200)).1 in
  (Claims (token_of "hs256.k1.exp100" SigningMethodHS256 "HS256" "k1"
             {[ "exp" := JNum 100 ]}) !! "exp" = Some (JNum 100)
   ∧ run "hs256.k1.exp100" = Done (VNil, Some ErrUnexpectedSigningMethod)
   ∧ run "hs256.k1.exp100" ≠ Done (VNil, Some ErrTokenExpired))
  ∧ (run "rs256.k9.exp100" = Done (VNil, Some ErrInvalidKeyID)
     ∧ run "rs256.k9.exp100" ≠ Done (VNil, Some ErrTokenExpired))
  ∧ (run "rs256.k1.exp100nbf300" = Done (VNil, Some ErrTokenExpired)
     ∧ run "rs256.k1.exp100nbf300" ≠ Done (VNil, Some ErrTokenNotActive))
  ∧ run "rs256.k1.exp0" = Done (VString "ok", None)
  ∧ (Claims (token_of "rs256.k1.nbf1e30" SigningMethodRS256 "RS256" "k1"
               {[ "nbf" := JNum (10 ^ 30) ]}) !! "nbf" = Some (JNum (10 ^ 30))
     ∧ (200 < 10 ^ 30)%Z
     ∧ run "rs256.k1.nbf1e30" = Done (VString "ok", None)).
Proof.
  split_and!; try (vm_compute; reflexivity); vm_compute; discriminate.
Qed.

(** C6 (amended) at the RS256 token with [exp = 100], verified at 200. *)
Lemma C6_witness :
  (NewMiddleware authn_k1 countingHandler (ctx_with_token "rs256.k1.exp100")
     VNil (world_at 200)).1
  = Done (VNil, Some ErrTokenExpired).
Proof.
  apply (C6_token_failures_are_stable_kinds Expired authn_k1 "rs256.k1.exp100" 200
           countingHandler (ctx_with_token "rs256.k1.exp100") VNil (world_at 200)).
  - exists (token_of "rs256.k1.exp100" SigningMethodRS256 "RS256" "k1"
              {[ "exp" := JNum 100 ]}), "rs256.k1.exp100", "signed", 100%Z.
    split_and!.
    + vm_compute. reflexivity.
    + split; [reflexivity|].
      exists ("-----BEGIN CERTIFICATE-----" +:+ LF +:+ "MIIC" +:+ LF +:+
              "-----END CERTIFICATE-----").
      split_and!; [vm_compute; reflexivity|vm_compute; discriminate|reflexivity].
    + vm_compute. reflexivity.
    + discriminate.
    + vm_compute. split; discriminate.
    + vm_compute. split; discriminate.
    + reflexivity.
  - reflexivity.
  - reflexivity.
Defined.

(** A verified call reaches the handler once, and the pipeline "verify,
    then authorize" lets it through: the policy of the runs sees the
    claims that verification attached. *)
Lemma verified_call_reaches_handler :
  let r := NewMiddleware authn_k1 countingHandler (ctx_with_token "rs256.k1.plain")
             VNil (world_at 200) in
  r.1 = Done (VString "ok", None) ∧ handler_calls r.2 = 1%nat.
Proof. split; vm_compute; reflexivity. Qed.

Lemma pipeline_allows_verified_call :
  let authorize := inProcessMiddleware (mkPrepared "data.authz.allow" "package authz")
                     "data.authz.allow" in
  let r := NewMiddleware authn_k1 (authorize countingHandler)
             (ctx_with_token "rs256.k1.plain") VNil (world_at 200) in
  r.1 = Done (VString "ok", None) ∧ handler_calls r.2 = 1%nat.
Proof. split; vm_compute; reflexivity. Qed.

Lemma pipeline_rejects_malformed_token :
  let authorize := inProcessMiddleware (mkPrepared "data.authz.allow" "package authz")
                     "data.authz.allow" in
  let r := NewMiddleware authn_k1 (authorize countingHandler)
             (ctx_with_token "not-a-token") VNil (world_at 200) in
  r.1 = Done (VNil, Some ErrTokenMalformed) ∧ handler_calls r.2 = 0%nat.
Proof. split; vm_compute; reflexivity. Qed.

(** The panic of the key function is the outcome of the whole call: the
    middleware neither returns an error nor reaches the handler. *)
Lemma middleware_panics_without_x5c :
  let r := NewMiddleware authn_no_x5c countingHandler
             (ctx_with_token "rs256.k1.plain") VNil (world_at 200) in
  r.1 = Panicked "index out of range [0] with length 0" ∧ handler_calls r.2 = 0%nat.
Proof. split; vm_compute; reflexivity. Qed.

(** * The rest of the pipeline *)

(** ** Worlds *)

Lemma add_events_add w n evs m evs' :
  add_events (add_events w n evs) m evs' = add_events w (m + n) (evs ++ evs')%list.
Proof.
  unfold add_events. simpl. f_equal; [apply Nat.add_assoc|by rewrite app_assoc].
Qed.

Lemma add_events_nil w : add_events w 0 [] = w.
Proof. destruct w. unfold add_events. simpl. by rewrite app_nil_r. Qed.

Lemma emit_run e w : emit e w = (Done (), add_events w 0 [e]).
Proof. reflexivity. Qed.

Lemma still_ret {A} (a : A) : still (mret a).
Proof. by intros w r w' [= <- <-]. Qed.

Lemma still_panic {A} msg : still (@panic A msg).
Proof. by intros w r w' [= <- <-]. Qed.

Lemma still_lift {A} (r : Res A) : still (lift r).
Proof. by intros w r' w' [= <- <-]. Qed.

Lemma still_now : still now.
Proof. by intros w r w' [= <- <-]. Qed.

Lemma still_deref {A} (p : option A) : still (deref p).
Proof. destruct p; [apply still_ret | apply still_panic]. Qed.

Lemma still_bind {A B} (m : M A) (k : A → M B) :
  still m → (∀ a, still (k a)) → still (m ≫= k).
Proof.
  intros Hm Hk w r w'. rewrite bind_run.
  destruct (m w) as [[a|msg] w1] eqn:E.
  - intros Hr. rewrite (Hk a _ _ _ Hr). eapply Hm, E.
  - intros [= <- <-]. eapply Hm, E.
Qed.

Ltac still :=
  repeat first
    [ apply still_ret | apply still_panic | apply still_lift | apply still_now
    | apply still_deref
    | apply still_bind; [|intros ?]
    | case_match ].

Lemma clocked_ret {A} (a : A) : clocked (mret a).
Proof. by intros w w' _. Qed.

Lemma clocked_panic {A} msg : clocked (@panic A msg).
Proof. by intros w w' _. Qed.

Lemma clocked_lift {A} (r : Res A) : clocked (lift r).
Proof. by intros w w' _. Qed.

Lemma clocked_now : clocked now.
Proof. intros w w' Hc. unfold now. simpl. by rewrite Hc. Qed.

Lemma clocked_deref {A} (p : option A) : clocked (deref p).
Proof. destruct p; [apply clocked_ret | apply clocked_panic]. Qed.

Lemma clocked_bind {A B} (m : M A) (k : A → M B) :
  still m → clocked m → (∀ a, clocked (k a)) → clocked (m ≫= k).
Proof.
  intros Hs Hm Hk w w' Hc. rewrite !bind_run.
  pose proof (Hm w w' Hc) as Hr.
  destruct (m w) as [r w1] eqn:E, (m w') as [r' w1'] eqn:E'. simpl in Hr. subst r'.
  apply Hs in E as ->. apply Hs in E' as ->.
  destruct r as [a|msg]; [by apply Hk|done].
Qed.

Ltac clocked :=
  repeat first
    [ apply clocked_ret | apply clocked_panic | apply clocked_lift
    | apply clocked_now | apply clocked_deref
    | apply clocked_bind; [solve [still]| |intros ?]
    | case_match ].

Section parser_worlds.
Context `{Extern}.

Lemma still_kf a token : still (kf a token).
Proof. unfold kf. still. Qed.

Lemma still_ParseWithClaims tokenString claims (keyFunc : Keyfunc) :
  (∀ token, still (keyFunc token)) →
  still (jwt_ParseWithClaims tokenString claims keyFunc).
Proof.
  intros Hk. unfold jwt_ParseWithClaims.
  destruct (jwt_ParseUnverified _ _); [still|].
  apply still_bind; [apply Hk|]. intros [key err].
  destruct err as [[]|]; still.
Qed.

(** Parsing with the authenticator's key function records nothing. *)
Lemma still_parseTokenString a ctx tokenString :
  still (parseTokenString ctx tokenString SigningMethodRS256 MapClaimsFactory (kf a)).
Proof.
  apply still_ParseWithClaims. intros token.
  case_decide; [still | apply still_kf].
Qed.

Lemma NewChildSpanAndContext_eq ctx name w :
  NewChildSpanAndContext ctx name w
  = (Done (opentracing_ContextWithSpan ctx (stage_span name ctx w),
           stage_span name ctx w),
     add_events w 1 [EvSpanStart (stage_span name ctx w)]).
Proof.
  unfold NewChildSpanAndContext, stage_span. rewrite bind_run.
  by destruct (opentracing_SpanFromContext ctx).
Qed.

Lemma reject_run msg s (r : Value * option error) w1 :
  (log_Error msg;; span_Finish s;; mret r) w1
  = (Done r, add_events w1 0 [EvLog ErrorLevel msg; EvSpanFinish s]).
Proof.
  cbv [mbind mret M_bind M_ret log_Error span_Finish emit add_events]. simpl.
  by rewrite <- app_assoc.
Qed.

Lemma clocked_kf a token : clocked (kf a token).
Proof. unfold kf. clocked. Qed.

Lemma clocked_ParseWithClaims tokenString claims (keyFunc : Keyfunc) :
  (∀ token, still (keyFunc token)) →
  (∀ token, clocked (keyFunc token)) →
  clocked (jwt_ParseWithClaims tokenString claims keyFunc).
Proof.
  intros Hs Hk. unfold jwt_ParseWithClaims.
  destruct (jwt_ParseUnverified _ _); [clocked|].
  apply clocked_bind; [apply Hs|apply Hk|]. intros [key err].
  destruct err as [[]|]; clocked.
Qed.

(** What parsing with the authenticator's key function returns depends on
    the token string and the clock only. *)
Lemma clocked_parseTokenString a ctx ctx' tokenString w w' :
  clock w = clock w' →
  (parseTokenString ctx tokenString SigningMethodRS256 MapClaimsFactory (kf a) w).1
  = (parseTokenString ctx' tokenString SigningMethodRS256 MapClaimsFactory (kf a) w').1.
Proof.
  intros Hc. unfold parseTokenString.
  apply clocked_ParseWithClaims; [| |done]; intros token;
    (case_decide; [|apply still_kf || apply clocked_kf]); [still|clocked].
Qed.

(** Verification of the call, seen from the context and the world in
    which the middleware parses: under its span, after the span's start. *)
Lemma verified_under_span a ctx w span w1 token :
  clock w1 = clock w →
  verified (kf a) SigningMethodRS256 MapClaimsFactory ctx w token
  ↔ ∃ tokenString,
      extractTokenFromContext (opentracing_ContextWithSpan ctx span)
        = (Some tokenString, None)
      ∧ (parseTokenString (opentracing_ContextWithSpan ctx span) tokenString
           SigningMethodRS256 MapClaimsFactory (kf a) w1).1
        = Done (Some token, None)
      ∧ Valid token = true.
Proof.
  intros Hc. unfold verified, extractTokenFromContext.
  rewrite ctx_Value_span by done.
  split; intros (ts & Hex & Hp & Hv); exists ts; (split_and!; [done| |done]);
    rewrite <- Hp; by apply clocked_parseTokenString.
Qed.

(** Verification succeeds with one token at most. *)
Lemma verified_unique (keyFunc : Keyfunc) method newClaims ctx w token token' :
  verified keyFunc method newClaims ctx w token →
  verified keyFunc method newClaims ctx w token' →
  token = token'.
Proof.
  intros (ts & Hex & Hp & _) (ts' & Hex' & Hp' & _).
  rewrite Hex in Hex'. injection Hex' as <-. rewrite Hp in Hp'. by injection Hp'.
Qed.

(** How a call of the authenticator's middleware ends, with the world it
    leaves: it calls through exactly when verification succeeds. *)
Lemma NewMiddleware_outcome a ctx request w :
  let s := stage_span "ParseJWT" ctx w in
  ∃ o, ends_with (λ next, NewMiddleware a next ctx request) request w o
       ∧ match o with
         | Rejects e w' =>
             (∃ msg, w' = add_events w 1
                            [EvSpanStart s; EvLog ErrorLevel msg; EvSpanFinish s])
             ∧ ∀ token, ¬ verified (kf a) SigningMethodRS256 MapClaimsFactory
                            ctx w token
         | Panics _ w' =>
             w' = add_events w 1 [EvSpanStart s]
             ∧ ∀ token, ¬ verified (kf a) SigningMethodRS256 MapClaimsFactory
                            ctx w token
         | CallsThrough ctx' w' =>
             w' = add_events w 1 [EvSpanStart s; EvSpanFinish s]
             ∧ ∃ token,
                 ctx' = WithValue
                          (WithValue (opentracing_ContextWithSpan ctx s)
                             JWTDecodedTokenContextKey (VToken token))
                          JWTClaimsContextKey (VClaims (Claims token))
                 ∧ verified (kf a) SigningMethodRS256 MapClaimsFactory ctx w token
         end.
Proof.
  intros s.
  set (ctx1 := opentracing_ContextWithSpan ctx s).
  set (w1 := add_events w 1 [EvSpanStart s]).
  pose proof (verified_under_span a ctx w s w1) as Hvs. fold ctx1 in Hvs.
  destruct (extractTokenFromContext ctx1) as [ots [err|]] eqn:Hex.
  { eexists (Rejects err _). split.
    - intros next. unfold NewMiddleware, newParser.
      rewrite bind_run, NewChildSpanAndContext_eq. fold s ctx1 w1. rewrite Hex.
      rewrite reject_run. unfold w1. by rewrite add_events_add.
    - split; [by eexists|].
      intros token Hv. apply Hvs in Hv as (ts & Hex' & _); [|done].
      rewrite ?Hex in Hex'. discriminate. }
  destruct ots as [ts|].
  2:{ eexists (Panics _ _). split; [|split; [reflexivity|]].
      - intros next. unfold NewMiddleware, newParser.
        rewrite bind_run, NewChildSpanAndContext_eq. fold s ctx1 w1. by rewrite Hex.
      - intros token Hv. apply Hvs in Hv as (ts & Hex' & _); [|done].
        rewrite ?Hex in Hex'. discriminate. }
  destruct (parseTokenString ctx1 ts SigningMethodRS256 MapClaimsFactory (kf a) w1)
    as [r w2] eqn:Hp.
  assert (w2 = w1) as -> by (eapply still_parseTokenString, Hp).
  assert (Hnv : ∀ token,
    verified (kf a) SigningMethodRS256 MapClaimsFactory ctx w token →
    r = Done (Some token, None) ∧ Valid token = true).
  { intros token Hv. apply Hvs in Hv as (ts' & Hex' & Hp' & Hvalid); [|done].
    rewrite ?Hex in Hex'. injection Hex' as <-. rewrite Hp in Hp'. done. }
  assert (Hyes : ∀ token,
    r = Done (Some token, None) → Valid token = true →
    verified (kf a) SigningMethodRS256 MapClaimsFactory ctx w token).
  { intros token -> Hvalid. apply Hvs; [done|]. exists ts. by rewrite Hp. }
  assert (Hrej : ∀ msg e,
    (∀ token, ¬ verified (kf a) SigningMethodRS256 MapClaimsFactory ctx w token) →
    (∀ next, NewMiddleware a next ctx request w
             = (log_Error msg;; span_Finish s;; mret (VNil, Some e)) w1) →
    ∃ o, ends_with (λ next, NewMiddleware a next ctx request) request w o
         ∧ match o with
           | Rejects e w' =>
               (∃ msg, w' = add_events w 1
                              [EvSpanStart s; EvLog ErrorLevel msg; EvSpanFinish s])
               ∧ ∀ token, ¬ verified (kf a) SigningMethodRS256 MapClaimsFactory
                              ctx w token
           | Panics _ w' =>
               w' = add_events w 1 [EvSpanStart s]
               ∧ ∀ token, ¬ verified (kf a) SigningMethodRS256 MapClaimsFactory
                              ctx w token
           | CallsThrough ctx' w' =>
               w' = add_events w 1 [EvSpanStart s; EvSpanFinish s]
               ∧ ∃ token,
                   ctx' = WithValue
                            (WithValue ctx1 JWTDecodedTokenContextKey (VToken token))
                            JWTClaimsContextKey (VClaims (Claims token))
                   ∧ verified (kf a) SigningMethodRS256 MapClaimsFactory ctx w token
           end).
  { intros msg e Hno He. eexists (Rejects e _). split; [|split; [by eexists|done]].
    intros next. rewrite He, reject_run. unfold w1. by rewrite add_events_add. }
  clear Hvs.
  destruct r as [[tok err]|msg].
  2:{ eexists (Panics _ _). split; [|split; [reflexivity|]].
      - intros next. unfold NewMiddleware, newParser.
        rewrite bind_run, NewChildSpanAndContext_eq. fold s ctx1 w1. rewrite Hex.
        rewrite bind_run. simpl. by rewrite !bind_run, Hp.
      - intros token Hv. by destruct (Hnv token Hv). }
  assert (Hgo : ∀ next,
    NewMiddleware a next ctx request w
    = match err with
      | Some (ValidationError e_Inner e_Errors _ as err) =>
          if decide (Z.land e_Errors ValidationErrorMalformed ≠ 0%Z) then
            log_Error "Malformed JWT";; span_Finish s;;
            mret (VNil, Some ErrTokenMalformed)
          else if decide (Z.land e_Errors ValidationErrorExpired ≠ 0%Z) then
            log_Error "Expired JWT";; span_Finish s;;
            mret (VNil, Some ErrTokenExpired)
          else if decide (Z.land e_Errors ValidationErrorNotValidYet ≠ 0%Z) then
            log_Error "JWT Not Yet Valid";; span_Finish s;;
            mret (VNil, Some ErrTokenNotActive)
          else
            match e_Inner with
            | Some inner =>
                log_Error "JWT Inner Error";; span_Finish s;;
                mret (VNil, Some inner)
            | None =>
                log_Error "Other JWT Validation Error";; span_Finish s;;
                mret (VNil, Some err)
            end
      | Some err =>
          log_Error "Unknown JWT Error";; span_Finish s;; mret (VNil, Some err)
      | None =>
          token ← deref tok;
          if negb (Valid token) then
            log_Error "Invalid JWT";; span_Finish s;;
            mret (VNil, Some ErrTokenInvalid)
          else
            let ctx := WithValue ctx1 JWTDecodedTokenContextKey (VToken token) in
            let ctx := WithValue ctx JWTClaimsContextKey (VClaims (Claims token)) in
            span_Finish s;; next ctx request
      end w1).
  { intros next. unfold NewMiddleware, newParser.
    rewrite bind_run, NewChildSpanAndContext_eq. fold s ctx1 w1. rewrite Hex.
    rewrite bind_run. simpl. by rewrite !bind_run, Hp. }
  destruct err as [err|].
  - assert (Hno : ∀ token,
      ¬ verified (kf a) SigningMethodRS256 MapClaimsFactory ctx w token).
    { intros token Hv. by destruct (Hnv token Hv). }
    destruct err as [| | | | | | | |inner errs text];
      try (eapply Hrej; [done|]; intros next; rewrite Hgo; reflexivity).
    destruct (decide (Z.land errs ValidationErrorMalformed ≠ 0%Z)) as [Hm|Hm].
    { apply (Hrej "Malformed JWT" ErrTokenMalformed); [done|]. intros next.
      rewrite Hgo. by repeat case_decide. }
    destruct (decide (Z.land errs ValidationErrorExpired ≠ 0%Z)) as [He|He].
    { apply (Hrej "Expired JWT" ErrTokenExpired); [done|]. intros next.
      rewrite Hgo. by repeat case_decide. }
    destruct (decide (Z.land errs ValidationErrorNotValidYet ≠ 0%Z)) as [Hn|Hn].
    { apply (Hrej "JWT Not Yet Valid" ErrTokenNotActive); [done|]. intros next.
      rewrite Hgo. by repeat case_decide. }
    destruct inner as [inner|].
    + apply (Hrej "JWT Inner Error" inner); [done|]. intros next.
      rewrite Hgo. by repeat case_decide.
    + apply (Hrej "Other JWT Validation Error" (ValidationError None errs text));
        [done|].
      intros next. rewrite Hgo. by repeat case_decide.
  - destruct tok as [tok|].
    2:{ eexists (Panics _ _). split; [|split; [reflexivity|]].
        - intros next. by rewrite Hgo.
        - intros token Hv. by destruct (Hnv token Hv). }
    destruct (Valid tok) eqn:Hv.
    + eexists (CallsThrough _ _). split.
      * intros next. rewrite Hgo, bind_run. simpl. rewrite Hv. reflexivity.
      * split; [unfold w1, add_events; simpl; by rewrite <- app_assoc|].
        exists tok. split; [done|]. by apply Hyes.
    + eapply Hrej.
      * intros token Hv'. destruct (Hnv token Hv') as [[= <-] Hvalid]. congruence.
      * intros next. rewrite Hgo, bind_run. simpl. by rewrite Hv.
Qed.

Lemma NewMiddleware_ending a ctx request w :
  let s := stage_span "ParseJWT" ctx w in
  ∃ o, ends_with (λ next, NewMiddleware a next ctx request) request w o
       ∧ match o with
         | Rejects e w' =>
             ∃ msg, w' = add_events w 1
                           [EvSpanStart s; EvLog ErrorLevel msg; EvSpanFinish s]
         | Panics _ w' => w' = add_events w 1 [EvSpanStart s]
         | CallsThrough ctx' w' =>
             w' = add_events w 1 [EvSpanStart s; EvSpanFinish s]
             ∧ ∃ token,
                 ctx' = WithValue
                          (WithValue (opentracing_ContextWithSpan ctx s)
                             JWTDecodedTokenContextKey (VToken token))
                          JWTClaimsContextKey (VClaims (Claims token))
                 ∧ verified (kf a) SigningMethodRS256 MapClaimsFactory ctx w token
         end.
Proof.
  intros s. destruct (NewMiddleware_outcome a ctx request w) as (o & Ho & Hw).
  exists o. split; [done|]. destruct o; [apply Hw..|exact Hw].
Qed.

End parser_worlds.

(** ** C9 *)

(** C9. The decoded token and its claims are attached exactly when
    verification of the call fully succeeds. When it succeeds with [token],
    the wrapped endpoint -- whichever it is -- receives a context in which
    [JWTDecodedTokenContextKey] holds [token] and [JWTClaimsContextKey]
    holds its claims, both together. When it does not succeed, the
    middleware returns an error (or panics) without calling the wrapped
    endpoint, whichever it is: no context is seen downstream. *)
Theorem C9_identity_attached_on_success_only `{Extern} (a : Authenticator)
    (ctx : Ctx) (request : Value) (w : World) :
  (∀ token,
     verified (kf a) SigningMethodRS256 MapClaimsFactory ctx w token →
     ∃ ctx' w',
       (∀ next, NewMiddleware a next ctx request w = next ctx' request w')
       ∧ ctx_Value ctx' JWTDecodedTokenContextKey = VToken token
       ∧ ctx_Value ctx' JWTClaimsContextKey = VClaims (Claims token))
  ∧ ((∀ token, ¬ verified (kf a) SigningMethodRS256 MapClaimsFactory ctx w token) →
     (∃ e w', ∀ next, NewMiddleware a next ctx request w
                      = (Done (VNil, Some e), w'))
     ∨ (∃ msg w', ∀ next, NewMiddleware a next ctx request w = (Panicked msg, w'))).
Proof.
  destruct (NewMiddleware_outcome a ctx request w)
    as ([e w'|msg w'|ctx' w'] & Ho & Hw); simpl in *.
  - destruct Hw as [_ Hno]. split.
    + intros token Hv. by destruct (Hno token).
    + intros _. left. by exists e, w'.
  - destruct Hw as [_ Hno]. split.
    + intros token Hv. by destruct (Hno token).
    + intros _. right. by exists msg, w'.
  - destruct Hw as (_ & token & -> & Hv). split.
    + intros token' Hv'. rewrite (verified_unique _ _ _ _ _ _ _ Hv' Hv).
      eexists _, w'. split_and!; [exact Ho|done..].
    + intros Hno. by destruct (Hno token).
Qed.

(** C9 at a call whose token verifies: the handler receives the token,
    marked valid, and its claims. *)
Lemma C9_witness :
  let token := mkToken "rs256.k1.plain" (Some SigningMethodRS256)
                 (header_of "RS256" "k1") ∅ "signed" true in
  ∃ ctx' w',
    (∀ next, NewMiddleware authn_k1 next (ctx_with_token "rs256.k1.plain") VNil
               (world_at 200) = next ctx' VNil w')
    ∧ ctx_Value ctx' JWTDecodedTokenContextKey = VToken token
    ∧ ctx_Value ctx' JWTClaimsContextKey = VClaims (Claims token).
Proof.
  intros token.
  apply (proj1 (C9_identity_attached_on_success_only authn_k1
                  (ctx_with_token "rs256.k1.plain") VNil (world_at 200)) token).
  exists "rs256.k1.plain". split_and!; vm_compute; reflexivity.
Defined.

(** C9 at a call whose token is signed with HS256: verification does not
    succeed, and the call is rejected around every endpoint. *)
Lemma C9_rejected_call :
  (∀ token, ¬ verified (kf authn_k1) SigningMethodRS256 MapClaimsFactory
                (ctx_with_token "hs256.k9.plain") (world_at 200) token)
  ∧ ∀ next, (NewMiddleware authn_k1 next (ctx_with_token "hs256.k9.plain") VNil
               (world_at 200)).1
            = Done (VNil, Some ErrUnexpectedSigningMethod).
Proof.
  split.
  - intros token (ts & Hex & Hp & _). injection Hex as <-.
    vm_compute in Hp. discriminate.
  - intros next. vm_compute. reflexivity.
Qed.

(** ** The authorization stages *)

Lemma records_ret {A} (a : A) : records_only (mret a).
Proof. intros w. exists a, []. by rewrite add_events_nil. Qed.

Lemma records_emit e : plain_event e = true → records_only (emit e).
Proof. intros He w. exists (), [e]. simpl. by rewrite He. Qed.

Lemma records_bind {A B} (m : M A) (k : A → M B) :
  records_only m → (∀ a, records_only (k a)) → records_only (m ≫= k).
Proof.
  intros Hm Hk w. destruct (Hm w) as (a & evs & Ha & Hevs).
  destruct (Hk a (add_events w 0 evs)) as (b & evs' & Hb & Hevs').
  exists b, (evs ++ evs')%list. rewrite bind_run, Ha, Hb, add_events_add.
  split; [done|]. rewrite forallb_app. by rewrite Hevs, Hevs'.
Qed.

Ltac records :=
  repeat first
    [ apply records_ret | apply records_emit; reflexivity
    | apply records_bind; [|intros ?]
    | case_match ].

Section authorization_worlds.
Context `{Extern}.

(** A query returns, and leaves only records and requests. *)
Lemma records_Query c ctx query data response :
  records_only (Query c ctx query data response).
Proof. unfold Query. records. Qed.

(** How a call of the in-process authorization middleware ends. *)
Lemma inProcessMiddleware_ending query queryString ctx request w :
  let s := stage_span "AuthZPolicyInternal" ctx w in
  let ctx1 := opentracing_ContextWithSpan ctx s in
  let eval := rego_Eval query ctx1 (queryInput_Value (inputForRequest ctx1 request)) in
  ∃ o, ends_with (λ next, inProcessMiddleware query queryString next ctx request)
         request w o
       ∧ match o with
         | Rejects e w' =>
             (eval.2 = Some e ∧ w' = add_events w 1 [EvSpanStart s])
             ∨ (eval.2 = None ∧ Allowed eval.1 = false ∧ e = ErrDeniedByPolicy
                ∧ w' = add_events w 1
                         [EvSpanStart s; EvLog InfoLevel "Denied by policy"])
         | Panics _ _ => False
         | CallsThrough ctx' w' =>
             eval.2 = None ∧ Allowed eval.1 = true
             ∧ ctx' = WithValue ctx1 AuthorizationResultsContextKey (VResultSet eval.1)
             ∧ w' = add_events w 1 [EvSpanStart s; EvSpanFinish s]
         end.
Proof.
  intros s ctx1 eval.
  assert (Hgo : ∀ next,
    inProcessMiddleware query queryString next ctx request w
    = match eval with
      | (_, Some err) => mret (VNil, Some err)
      | (results, None) =>
          if negb (Allowed results) then
            log_Info "Denied by policy";; mret (VNil, Some ErrDeniedByPolicy)
          else
            let ctx := WithValue ctx1 AuthorizationResultsContextKey
                         (VResultSet results) in
            span_Finish s;; next ctx request
      end (add_events w 1 [EvSpanStart s])).
  { intros next. unfold inProcessMiddleware.
    by rewrite bind_run, NewChildSpanAndContext_eq. }
  destruct eval as [results [err|]] eqn:Heval; simpl.
  - eexists (Rejects err _). split; [intros next; by rewrite Hgo|]. by left.
  - destruct (Allowed results) eqn:Hallow.
    + eexists (CallsThrough _ _). split.
      * intros next. rewrite Hgo. simpl. reflexivity.
      * split_and!; [done..|]. unfold add_events. simpl. by rewrite <- app_assoc.
    + eexists (Rejects ErrDeniedByPolicy _). split.
      * intros next. rewrite Hgo. simpl. reflexivity.
      * right. split_and!; [done..|]. unfold add_events. simpl.
        by rewrite <- app_assoc.
Qed.

(** How a call of the sidecar authorization middleware ends: [evs] are
    the records and requests of the query. *)
Lemma sidecarMiddleware_ending c queryString ctx request w :
  let s := stage_span "AuthZPolicyExternal" ctx w in
  let ctx1 := opentracing_ContextWithSpan ctx s in
  ∃ err resp evs,
    Query c ctx1 queryString (queryInput_Value (inputForRequest ctx1 request))
      (mkAuthorizationResponse false) (add_events w 1 [EvSpanStart s])
    = (Done (err, resp), add_events w 1 (EvSpanStart s :: evs))
    ∧ forallb plain_event evs = true
    ∧ ∃ o, ends_with (λ next, sidecarMiddleware c queryString next ctx request)
             request w o
           ∧ match o with
             | Rejects e w' =>
                 (err = Some e ∧ w' = add_events w 1 (EvSpanStart s :: evs))
                 ∨ (err = None ∧ Result resp = false ∧ e = ErrDeniedByPolicy
                    ∧ w' = add_events w 1
                             (EvSpanStart s :: evs ++
                              [EvLog InfoLevel "Denied by policy"]))
             | Panics _ _ => False
             | CallsThrough ctx' w' =>
                 err = None ∧ Result resp = true
                 ∧ ctx' = WithValue ctx1 AuthorizationResultsContextKey
                            (VAuthorizationResponse resp)
                 ∧ w' = add_events w 1 (EvSpanStart s :: evs ++ [EvSpanFinish s])
             end.
Proof.
  intros s ctx1.
  destruct (records_Query c ctx1 queryString
              (queryInput_Value (inputForRequest ctx1 request))
              (mkAuthorizationResponse false) (add_events w 1 [EvSpanStart s]))
    as ([err resp] & evs & Hq & Hevs).
  rewrite add_events_add in Hq. simpl in Hq.
  exists err, resp, evs. split; [done|]. split; [done|].
  assert (Hgo : ∀ next,
    sidecarMiddleware c queryString next ctx request w
    = match err with
      | Some err => mret (VNil, Some err)
      | None =>
          if negb (Result resp) then
            log_Info "Denied by policy";; mret (VNil, Some ErrDeniedByPolicy)
          else
            let ctx := WithValue ctx1 AuthorizationResultsContextKey
                         (VAuthorizationResponse resp) in
            span_Finish s;; next ctx request
      end (add_events w 1 (EvSpanStart s :: evs))).
  { intros next. unfold sidecarMiddleware.
    rewrite bind_run, NewChildSpanAndContext_eq. fold s ctx1.
    by rewrite bind_run, Hq. }
  destruct err as [err|].
  - eexists (Rejects err _). split; [intros next; by rewrite Hgo|]. by left.
  - destruct (Result resp) eqn:Hres.
    + eexists (CallsThrough _ _). split.
      * intros next. rewrite Hgo. simpl. reflexivity.
      * split_and!; [done..|]. unfold add_events. simpl. by rewrite <- app_assoc.
    + eexists (Rejects ErrDeniedByPolicy _). split.
      * intros next. rewrite Hgo. simpl. reflexivity.
      * right. split_and!; [done..|]. unfold add_events. simpl.
        by rewrite <- app_assoc.
Qed.

End authorization_worlds.

(** ** Observing an ending with the counting handler *)

Lemma observe_reject c request w o e w' :
  ends_with c request w o →
  c countingHandler w = (Done (VNil, Some e), w') →
  o = Rejects e w'.
Proof.
  destruct o as [e0 w0|msg w0|ctx' w0]; simpl; intros Ho Hrun;
    rewrite Ho in Hrun; [|discriminate..].
  by injection Hrun as -> ->.
Qed.

Lemma observe_through c request w o w' :
  ends_with c request w o →
  c countingHandler w = (Done (VString "ok", None), w') →
  ∃ ctx' w0, o = CallsThrough ctx' w0 ∧ w' = add_events w0 0 [EvHandler].
Proof.
  destruct o as [e0 w0|msg w0|ctx' w0]; simpl; intros Ho Hrun;
    rewrite Ho in Hrun; [discriminate..|].
  exists ctx', w0. split; [done|]. by injection Hrun as <-.
Qed.

Lemma observe_panic c request w o msg :
  ends_with c request w o →
  (c countingHandler w).1 = Panicked msg →
  o = Panics msg (c countingHandler w).2.
Proof.
  destruct o as [e0 w0|msg0 w0|ctx' w0]; simpl; intros Ho Hrun;
    rewrite Ho in Hrun |- *; simpl in *; [discriminate| |discriminate].
  by injection Hrun as ->.
Qed.

Lemma extends_derived keys ctx ctx' :
  extends keys ctx ctx' →
  derived_from ctx' ctx
  ∧ ctx_Deadline ctx' = ctx_Deadline ctx
  ∧ ctx_cancellers ctx' = ctx_cancellers ctx
  ∧ ∀ key, key ∉ keys → ctx_Value ctx' key = ctx_Value ctx key.
Proof.
  induction 1 as [|ctx' key val Hin Hext (Hd & Hdl & Hc & Hv)].
  - split_and!; [|done..]. destruct ctx; by left.
  - split_and!; simpl; [by right|done..|].
    intros k Hk. rewrite decide_False; [by apply Hv|]. by intros ->.
Qed.

(** ** The parser middleware and its world *)

Lemma missing_token_run `{Extern} (a : Authenticator) (next : Endpoint)
    (ctx : Ctx) (request : Value) (w : World) :
  (∀ tokenString, ctx_Value ctx JWTContextKey ≠ VString tokenString) →
  NewMiddleware a next ctx request w
  = (Done (VNil, Some ErrTokenContextMissing),
     add_events w 1
       [EvSpanStart (stage_span "ParseJWT" ctx w);
        EvLog ErrorLevel "Failed to extract JWT token from context";
        EvSpanFinish (stage_span "ParseJWT" ctx w)]).
Proof.
  intros Hno. unfold NewMiddleware, newParser.
  rewrite bind_run, NewChildSpanAndContext_eq. unfold extractTokenFromContext.
  rewrite ctx_Value_span by done.
  destruct (ctx_Value ctx JWTContextKey) eqn:Hv;
    try (by rewrite reject_run, add_events_add).
  by destruct (Hno s).
Qed.

(** X1. A call whose context holds no token string under [JWTContextKey]
    is rejected with [ErrTokenContextMissing] around any endpoint, whatever
    the decoder and the key set are, leaving one error record between the
    start and the end of the span. *)
Theorem X1_missing_token `{Extern} (a : Authenticator) (next : Endpoint)
    (ctx : Ctx) (request : Value) (w : World) :
  (∀ tokenString, ctx_Value ctx JWTContextKey ≠ VString tokenString) →
  NewMiddleware a next ctx request w
  = (Done (VNil, Some ErrTokenContextMissing),
     add_events w 1
       [EvSpanStart (stage_span "ParseJWT" ctx w);
        EvLog ErrorLevel "Failed to extract JWT token from context";
        EvSpanFinish (stage_span "ParseJWT" ctx w)]).
Proof. apply missing_token_run. Qed.

(** X2. Whenever the authenticator's middleware rejects a call, it has
    written exactly one record, at error level, and finished the span it
    started; nothing else happened in the world. *)
Theorem X2_rejection_leaves_one_record `{Extern} (a : Authenticator)
    (ctx : Ctx) (request : Value) (w w' : World) (e : error) :
  NewMiddleware a countingHandler ctx request w = (Done (VNil, Some e), w') →
  ∃ msg,
    w' = add_events w 1
           [EvSpanStart (stage_span "ParseJWT" ctx w);
            EvLog ErrorLevel msg;
            EvSpanFinish (stage_span "ParseJWT" ctx w)].
Proof.
  intros Hrun.
  destruct (NewMiddleware_ending a ctx request w) as (o & Ho & Hw).
  pose proof (observe_reject _ _ _ _ _ _ Ho Hrun) as ->. exact Hw.
Qed.

(** X3. When the key function panics, the panic is the outcome of the
    call: the span that the middleware started is never finished and no
    record is written. *)
Theorem X3_panic_leaves_the_span_open `{Extern} (a : Authenticator)
    (ctx : Ctx) (request : Value) (w : World) (msg : string) :
  (NewMiddleware a countingHandler ctx request w).1 = Panicked msg →
  (NewMiddleware a countingHandler ctx request w).2
  = add_events w 1 [EvSpanStart (stage_span "ParseJWT" ctx w)]
  ∧ ∀ next, NewMiddleware a next ctx request w
            = (Panicked msg, add_events w 1 [EvSpanStart (stage_span "ParseJWT" ctx w)]).
Proof.
  intros Hrun.
  destruct (NewMiddleware_ending a ctx request w) as (o & Ho & Hw).
  pose proof (observe_panic _ _ _ _ _ Ho Hrun) as ->. simpl in *.
  split; [done|]. intros next. by rewrite Ho, Hw.
Qed.

(** ** What a stage hands over *)

Lemma spans_finished_add w n evs :
  spans_finished (add_events w n evs)
  = spans_finished w + length (List.filter is_finish_event evs).
Proof. unfold spans_finished. simpl. by rewrite List.filter_app, length_app. Qed.

Lemma plain_no_finish evs :
  forallb plain_event evs = true → List.filter is_finish_event evs = [].
Proof.
  induction evs as [|e evs IH]; [done|]. simpl.
  intros [He Hevs]%andb_prop. rewrite (IH Hevs).
  by destruct e.
Qed.

Lemma sent_add_plain w n evs :
  requests_of evs = [] → sent (add_events w n evs) = sent w.
Proof.
  intros Hevs. unfold sent. simpl. by rewrite requests_of_app, Hevs, app_nil_r.
Qed.

(** X4. When a stage lets a call through, the context that the wrapped
    endpoint receives is derived from the inbound context: it has the same
    deadline and the same cancel functions, reads every value of the
    inbound context except under the keys the stage sets, and carries the
    span of the stage as its active span. *)
Theorem X4_handed_context_is_derived `{Extern} (s : Stage) (ctx : Ctx)
    (request : Value) (w w' : World) :
  stage_middleware s countingHandler ctx request w = (Done (VString "ok", None), w') →
  ∃ ctx' w0,
    (∀ next, stage_middleware s next ctx request w = next ctx' request w0)
    ∧ derived_from ctx' ctx
    ∧ ctx_Deadline ctx' = ctx_Deadline ctx
    ∧ ctx_cancellers ctx' = ctx_cancellers ctx
    ∧ (∀ key, key ∉ stage_keys s → ctx_Value ctx' key = ctx_Value ctx key)
    ∧ opentracing_SpanFromContext ctx' = Some (stage_span (stage_name s) ctx w).
Proof.
  intros Hrun.
  assert (∃ ctx' w0,
    (∀ next, stage_middleware s next ctx request w = next ctx' request w0)
    ∧ extends (stage_keys s) ctx ctx'
    ∧ opentracing_SpanFromContext ctx' = Some (stage_span (stage_name s) ctx w))
    as (ctx' & w0 & Hnext & Hext & Hspan).
  { destruct s as [a|query queryString|c queryString]; simpl in *.
    - destruct (NewMiddleware_ending a ctx request w) as (o & Ho & Hw).
      destruct (observe_through _ _ _ _ _ Ho Hrun) as (ctx' & w0 & -> & _).
      destruct Hw as (_ & token & -> & _). eexists _, w0. split; [exact Ho|].
      split; [|done].
      repeat (apply extends_value; [set_solver|]). apply extends_refl.
    - destruct (inProcessMiddleware_ending query queryString ctx request w)
        as (o & Ho & Hw).
      destruct (observe_through _ _ _ _ _ Ho Hrun) as (ctx' & w0 & -> & _).
      destruct Hw as (_ & _ & -> & _). eexists _, w0. split; [exact Ho|].
      split; [|done].
      repeat (apply extends_value; [set_solver|]). apply extends_refl.
    - destruct (sidecarMiddleware_ending c queryString ctx request w)
        as (err & resp & evs & _ & _ & o & Ho & Hw).
      destruct (observe_through _ _ _ _ _ Ho Hrun) as (ctx' & w0 & -> & _).
      destruct Hw as (_ & _ & -> & _). eexists _, w0. split; [exact Ho|].
      split; [|done].
      repeat (apply extends_value; [set_solver|]). apply extends_refl. }
  exists ctx', w0. destruct (extends_derived _ _ _ Hext) as (? & ? & ? & ?).
  by split_and!.
Qed.

(** X5. The wrapped endpoint of an authorization stage runs only with an
    allowing decision attached to its context under
    [AuthorizationResultsContextKey] (results that are allowed; a response
    with [result = true]), and after the span of the stage was finished. *)
Theorem X5_handler_sees_the_allowing_decision `{Extern} (d : DecisionPoint)
    (queryString : string) (ctx : Ctx) (request : Value) (w w' : World) :
  authorize d queryString countingHandler ctx request w
    = (Done (VString "ok", None), w') →
  ∃ ctx' w0,
    (∀ next, authorize d queryString next ctx request w = next ctx' request w0)
    ∧ allowed_decision d (ctx_Value ctx' AuthorizationResultsContextKey)
    ∧ spans_finished w0 = S (spans_finished w).
Proof.
  intros Hrun. destruct d as [query|c]; simpl in *.
  - destruct (inProcessMiddleware_ending query queryString ctx request w)
      as (o & Ho & Hw).
    destruct (observe_through _ _ _ _ _ Ho Hrun) as (ctx' & w0 & -> & _).
    destruct Hw as (_ & Hallow & -> & ->). eexists _, _. split; [exact Ho|].
    split; [by eexists|]. rewrite spans_finished_add. simpl. lia.
  - destruct (sidecarMiddleware_ending c queryString ctx request w)
      as (err & resp & evs & _ & Hevs & o & Ho & Hw).
    destruct (observe_through _ _ _ _ _ Ho Hrun) as (ctx' & w0 & -> & _).
    destruct Hw as (_ & Hallow & -> & ->). eexists _, _. split; [exact Ho|].
    split; [by eexists|]. rewrite spans_finished_add. simpl.
    rewrite List.filter_app, (plain_no_finish _ Hevs). simpl. lia.
Qed.

(** X6. An authorization stage that rejects a call -- by denial or because
    the evaluation failed -- has started its span and returns without
    finishing it. *)
Theorem X6_rejection_leaves_the_span_open `{Extern} (d : DecisionPoint)
    (queryString : string) (ctx : Ctx) (request : Value) (w w' : World) (e : error) :
  authorize d queryString countingHandler ctx request w = (Done (VNil, Some e), w') →
  next_span w' = S (next_span w) ∧ spans_finished w' = spans_finished w.
Proof.
  intros Hrun. destruct d as [query|c]; simpl in *.
  - destruct (inProcessMiddleware_ending query queryString ctx request w)
      as (o & Ho & Hw).
    pose proof (observe_reject _ _ _ _ _ _ Ho Hrun) as ->.
    destruct Hw as [(_ & ->)|(_ & _ & _ & ->)];
      (split; [done|]); rewrite spans_finished_add; simpl; lia.
  - destruct (sidecarMiddleware_ending c queryString ctx request w)
      as (err & resp & evs & _ & Hevs & o & Ho & Hw).
    pose proof (observe_reject _ _ _ _ _ _ Ho Hrun) as ->.
    destruct Hw as [(_ & ->)|(_ & _ & _ & ->)];
      (split; [done|]); rewrite spans_finished_add; simpl;
      rewrite ?List.filter_app, (plain_no_finish _ Hevs); simpl; lia.
Qed.

(** X7. An authorization stage rejects a call for one of two reasons only:
    the policy evaluated to a denial, and the error is [ErrDeniedByPolicy];
    or the evaluation itself failed, and the error is the one of the
    evaluation, returned as it is. *)
Theorem X7_rejection_is_denial_or_failed_evaluation `{Extern} (d : DecisionPoint)
    (queryString : string) (ctx : Ctx) (request : Value) (w w' : World) (e : error) :
  authorize d queryString countingHandler ctx request w = (Done (VNil, Some e), w') →
  (denies d queryString ctx request w ∧ e = ErrDeniedByPolicy)
  ∨ evaluation_fails d queryString ctx request w e.
Proof.
  intros Hrun. destruct d as [query|c]; simpl in *.
  - destruct (inProcessMiddleware_ending query queryString ctx request w)
      as (o & Ho & Hw).
    pose proof (observe_reject _ _ _ _ _ _ Ho Hrun) as ->.
    destruct (rego_Eval _ _ _) as [results err] eqn:Heval. simpl in Hw.
    destruct Hw as [(-> & _)|(-> & Hdeny & -> & _)].
    + right. eexists _, _, _, _. split; [apply NewChildSpanAndContext_eq|done].
    + left. split; [|done].
      eexists _, _, _, _. split; [apply NewChildSpanAndContext_eq|done].
  - destruct (sidecarMiddleware_ending c queryString ctx request w)
      as (err & resp & evs & Hq & _ & o & Ho & Hw).
    pose proof (observe_reject _ _ _ _ _ _ Ho Hrun) as ->.
    destruct Hw as [(-> & _)|(-> & Hdeny & -> & _)].
    + right. eexists _, _, _, _, _. split; [apply NewChildSpanAndContext_eq|done].
    + left. split; [|done].
      eexists _, _, _, _, _. split; [apply NewChildSpanAndContext_eq|done].
Qed.

(** X8. When verification lets a call through, the policy input that an
    authorization stage builds from the handed context -- under whatever
    span it starts -- carries the claims of the token with which the
    verification of that call, on its context and at its clock,
    succeeded. *)
Theorem X8_policy_input_carries_the_verified_claims `{Extern} (a : Authenticator)
    (ctx : Ctx) (request : Value) (w w' : World) :
  NewMiddleware a countingHandler ctx request w = (Done (VString "ok", None), w') →
  ∃ token ctx' w0,
    (∀ next, NewMiddleware a next ctx request w = next ctx' request w0)
    ∧ verified (kf a) SigningMethodRS256 MapClaimsFactory ctx w token
    ∧ ∀ span request',
        inputForRequest (opentracing_ContextWithSpan ctx' span) request'
        = {| Request := request'; Claims_ := VClaims (Claims token) |}.
Proof.
  intros Hrun.
  destruct (NewMiddleware_ending a ctx request w) as (o & Ho & Hw).
  destruct (observe_through _ _ _ _ _ Ho Hrun) as (ctx' & w0 & -> & _).
  destruct Hw as (_ & token & -> & Hv). by eexists token, _, w0.
Qed.

(** X9. A call that verification rejects never reaches a stage
    configured after it: around either authorization middleware the
    pipeline returns the error of verification, no request has gone out
    to the decision service, and the only span started is the parser's. *)
Theorem X9_rejected_verification_stops_the_pipeline `{Extern} (a : Authenticator)
    (d : DecisionPoint) (queryString : string) (next : Endpoint)
    (ctx : Ctx) (request : Value) (w w' : World) (e : error) :
  NewMiddleware a countingHandler ctx request w = (Done (VNil, Some e), w') →
  NewMiddleware a (authorize d queryString next) ctx request w
    = (Done (VNil, Some e), w')
  ∧ sent w' = sent w
  ∧ next_span w' = S (next_span w).
Proof.
  intros Hrun.
  destruct (NewMiddleware_ending a ctx request w) as (o & Ho & Hw).
  pose proof (observe_reject _ _ _ _ _ _ Ho Hrun) as ->.
  destruct Hw as (msg & ->). simpl in Ho. split; [apply Ho|].
  split; [by apply sent_add_plain|done].
Qed.

(** ** The key function *)

Lemma kf_loop_app kid l1 l2 cert :
  kf_loop kid (l1 ++ l2) cert
  = match kf_loop kid l1 cert with
    | Done cert' => kf_loop kid l2 cert'
    | Panicked msg => Panicked msg
    end.
Proof.
  revert cert. induction l1 as [|key l1 IH]; intros cert; simpl; [done|].
  destruct (match kid with Some (JStr s) => String.eqb s (Kid key) | _ => false end);
    [|apply IH].
  destruct (X5c key !! 0%nat); [apply IH|done].
Qed.

Lemma kf_loop_returns kid keys cert :
  (∀ key, key ∈ keys → kid = Some (JStr (Kid key)) → X5c key ≠ []) →
  ∃ cert', kf_loop kid keys cert = Done cert'.
Proof.
  revert cert. induction keys as [|key keys IH]; intros cert Hx; simpl; [by eexists|].
  destruct (match kid with Some (JStr s) => String.eqb s (Kid key) | _ => false end)
    eqn:Hmatch.
  - destruct kid as [[| | |s| |]|]; try discriminate.
    apply String.eqb_eq in Hmatch as ->.
    destruct (X5c key) as [|x5c0 more] eqn:Hx5c.
    { exfalso. eapply Hx; [by left|done..]. }
    simpl. apply IH. intros k Hk. apply Hx. by right.
  - apply IH. intros k Hk. apply Hx. by right.
Qed.

Lemma pem_wrap_length x5c0 : String.length (pem_wrap x5c0) ≠ 0%nat.
Proof. done. Qed.

(** X10. When several entries of the key set carry the key identifier of
    the token, the key function uses the certificate of the last of them;
    what parsing that certificate gives is returned as the key with no
    error -- also when parsing failed and the key is nil. *)
Theorem X10_last_entry_with_the_kid_is_used `{Extern} (a : Authenticator)
    (token : Token) (w : World) (before after : list JSONWebKeys)
    (key : JSONWebKeys) (x5c0 : string) (more : list string) :
  Keys (jwks a) = (before ++ key :: after)%list →
  Header token !! "kid" = Some (JStr (Kid key)) →
  X5c key = x5c0 :: more →
  (∀ k, k ∈ before → Kid k = Kid key → X5c k ≠ []) →
  (∀ k, k ∈ after → Kid k ≠ Kid key) →
  kf a token w
  = (Done (VRSAPublicKey (jwt_ParseRSAPublicKeyFromPEM (pem_wrap x5c0)).1, None), w).
Proof.
  intros Hkeys Hkid Hx5c Hbefore Hafter.
  unfold kf. rewrite bind_run. unfold lift. rewrite Hkeys, Hkid, kf_loop_app.
  destruct (kf_loop_returns (Some (JStr (Kid key))) before "") as [cert0 ->].
  { intros k Hk [= Heq]. by apply Hbefore. }
  simpl. rewrite String.eqb_refl, Hx5c. simpl.
  rewrite kf_loop_absent.
  2:{ intros k Hk [= Heq]. by apply (Hafter k). }
  fold (pem_wrap x5c0). rewrite decide_False by apply pem_wrap_length.
  by destruct (jwt_ParseRSAPublicKeyFromPEM (pem_wrap x5c0)).
Qed.

(** X11. Over a key set whose entries all carry a certificate, the key
    function answers "invalid key id" exactly for the tokens whose key
    identifier names no entry; the value it returns beside the error is the
    token itself. *)
Theorem X11_key_function_fails_exactly_for_an_absent_kid `{Extern}
    (a : Authenticator) (token : Token) (w : World) :
  (∀ key, key ∈ Keys (jwks a) → X5c key ≠ []) →
  ((kf a token w).1 = Done (VToken token, Some ErrInvalidKeyID)
   ↔ kid_absent token (jwks a)).
Proof.
  intros Hcerts. split.
  - intros Hfail key Hin Heq.
    destruct (kf_loop_resolves (Header token !! "kid") (Keys (jwks a)) "")
      as (cert & Hloop & Hlen).
    { intros k Hk _. by apply Hcerts. }
    { right. by exists key. }
    revert Hfail. unfold kf. rewrite bind_run. unfold lift. rewrite Hloop.
    rewrite decide_False by done.
    by destruct (jwt_ParseRSAPublicKeyFromPEM cert).
  - intros Habs. unfold kf. rewrite bind_run. unfold lift.
    by rewrite (kf_loop_absent _ _ _ Habs).
Qed.

(** ** The signer *)

(** X12. When signing succeeds, the signer hands the wrapped endpoint a
    context derived from the inbound one in which the token string read
    by [extractTokenFromContext] is the signed token -- whatever the inbound
    context held under [JWTContextKey] -- and every other value is as
    before. When signing fails, the error is returned and the wrapped
    endpoint is not called. *)
Theorem X12_signer_stores_the_token_for_the_parser
    (sign : Token → string → string * option error) (kid key : string)
    (method : SigningMethod) (claims : MapClaims)
    (ctx : Ctx) (request : Value) (w : World) :
  (∀ tokenString,
     sign (signer_token kid method claims) key = (tokenString, None) →
     ∃ ctx',
       (∀ next, NewSigner sign kid key method claims next ctx request w
                = next ctx' request w)
       ∧ extractTokenFromContext ctx' = (Some tokenString, None)
       ∧ derived_from ctx' ctx
       ∧ ∀ k, k ≠ JWTContextKey → ctx_Value ctx' k = ctx_Value ctx k)
  ∧ (∀ tokenString err,
       sign (signer_token kid method claims) key = (tokenString, Some err) →
       ∀ next, NewSigner sign kid key method claims next ctx request w
               = (Done (VNil, Some err), w)).
Proof.
  split.
  - intros tokenString Hs.
    exists (WithValue ctx JWTContextKey (VString tokenString)). split_and!.
    + intros next. unfold NewSigner. by rewrite Hs.
    + done.
    + simpl. right. destruct ctx; by left.
    + intros k Hk. simpl. by rewrite decide_False.
  - intros tokenString err Hs next. unfold NewSigner. by rewrite Hs.
Qed.

(** X13. The key identifier that the signer puts in the header is the one
    the authenticator's key function looks up: over a key set whose
    entries all carry a certificate, a token built by the signer with
    [kid] is answered "invalid key id" exactly when no entry has that
    [Kid]. *)
Theorem X13_signer_kid_is_the_key_looked_up `{Extern} (a : Authenticator)
    (kid : string) (method : SigningMethod) (claims : MapClaims) (w : World) :
  (∀ key, key ∈ Keys (jwks a) → X5c key ≠ []) →
  ((kf a (signer_token kid method claims) w).1
     = Done (VToken (signer_token kid method claims), Some ErrInvalidKeyID)
   ↔ ∀ key, key ∈ Keys (jwks a) → Kid key ≠ kid).
Proof.
  intros Hcerts.
  assert (Hkid : Header (signer_token kid method claims) !! "kid" = Some (JStr kid)).
  { unfold signer_token. simpl. apply lookup_insert_eq. }
  split.
  - intros Hfail key Hin Heq.
    destruct (kf_loop_resolves (Some (JStr kid)) (Keys (jwks a)) "")
      as (cert & Hloop & Hlen).
    { intros k Hk _. by apply Hcerts. }
    { right. exists key. by rewrite Heq. }
    revert Hfail. unfold kf. rewrite bind_run. unfold lift. rewrite Hkid, Hloop.
    rewrite decide_False by done.
    by destruct (jwt_ParseRSAPublicKeyFromPEM cert).
  - intros Habs. unfold kf. rewrite bind_run. unfold lift. rewrite Hkid.
    rewrite kf_loop_absent; [done|].
    intros key Hin [= Heq]. by apply (Habs key).
Qed.

(** ** The client and the sidecar *)

Section client_runs.
Context `{Extern}.

Lemma inputForRequest_span ctx span request :
  inputForRequest (opentracing_ContextWithSpan ctx span) request
  = inputForRequest ctx request.
Proof. unfold inputForRequest. by rewrite ctx_Value_span. Qed.

(** A query whose body encodes, whose URL parses and whose round trip
    answers: the outcome is that of decoding the body. *)
Lemma Query_answered c ctx query data response w input got status body :
  json_Marshal data = inl input →
  url_Parse (baseURL c +:+ "/v1/" +:+ strings_ReplaceAll query "." "/") = None →
  http_RoundTrip (query_request c query (JObj [("input", input)]))
    = mkRoundTrip got (inl (mkResponse status body None)) →
  ∃ evs,
    Query c ctx query data response w
    = (Done (match json_Unmarshal body response with
             | (resp, Some err) => (Some err, resp)
             | (resp, None) => (None, resp)
             end), add_events w 0 evs)
    ∧ forallb plain_event evs = true.
Proof.
  intros Hm Hu Hrt.
  destruct (records_Query c ctx query data response w) as (r & evs & Hq & Hevs).
  exists evs. split; [|done]. rewrite Hq. f_equal. f_equal.
  revert Hq. unfold Query, marshal_QueryRequest. rewrite Hm.
  unfold http_NewRequestWithContext. rewrite Hu.
  change (Header_Set _ "Content-Type" "application/json")
    with (query_request c query (JObj [("input", input)])).
  cbv [mbind mret M_bind M_ret http_DefaultClient_Do emit log_Info log_Error].
  rewrite Hrt. simpl.
  destruct got; simpl; destruct (json_Unmarshal body response) as [resp [err|]];
    simpl; by intros [= <- _].
Qed.

(** A query whose body cannot be encoded sends nothing. *)
Lemma Query_unencodable c ctx query data response w err :
  json_Marshal data = inr err →
  Query c ctx query data response w
  = (Done (Some err, response),
     add_events w 0 [EvLog ErrorLevel "Failed to marshall request body"]).
Proof.
  intros Hm. unfold Query, marshal_QueryRequest. by rewrite Hm.
Qed.

(** The requests in a world after further events. *)
Lemma sent_add_events w n evs :
  sent (add_events w n evs) = (sent w ++ requests_of evs)%list.
Proof. unfold sent. simpl. apply requests_of_app. Qed.

(** The sidecar middleware itself posts the policy input. *)
Lemma sidecarMiddleware_posts c queryString ctx request w input :
  json_Marshal (queryInput_Value (inputForRequest ctx request)) = inl input →
  url_Parse (baseURL c +:+ "/v1/" +:+ dots_to_slashes queryString) = None →
  posts (sidecarMiddleware c queryString) ctx request w
    (baseURL c +:+ "/v1/" +:+ dots_to_slashes queryString)
    (JObj [("input", input)]).
Proof.
  intros Hm Hu.
  destruct (sidecarMiddleware_ending c queryString ctx request w)
    as (err & resp & evs & Hq & _ & o & Ho & Hw).
  set (s := stage_span "AuthZPolicyExternal" ctx w) in *.
  set (ctx1 := opentracing_ContextWithSpan ctx s) in *.
  set (req := mkRequest (httptrace_WithClientTrace Background VClientTrace) "POST"
                (baseURL c +:+ "/v1/" +:+ dots_to_slashes queryString)
                [("Content-Type", "application/json")] (JObj [("input", input)])).
  assert (Hreq : requests_of evs = [req]).
  { pose proof (Query_sends c ctx1 queryString
                  (queryInput_Value (inputForRequest ctx1 request))
                  (mkAuthorizationResponse false)
                  (add_events w 1 [EvSpanStart s])) as Hs.
    rewrite Hq in Hs. unfold marshal_QueryRequest in Hs.
    unfold ctx1 in Hs. rewrite inputForRequest_span, Hm, ReplaceAll_dots in Hs.
    simpl in Hs. rewrite Hu in Hs. rewrite !sent_add_events in Hs. simpl in Hs.
    rewrite app_nil_r in Hs. by apply app_inv_head in Hs. }
  exists o, req. split; [exact Ho|]. split; [|done].
  destruct o as [e w'|msg w'|ctx' w']; simpl in *.
  - destruct Hw as [(_ & ->)|(_ & _ & _ & ->)]; rewrite sent_add_events; simpl;
      by rewrite ?requests_of_app, Hreq.
  - done.
  - destruct Hw as (_ & _ & _ & ->). rewrite sent_add_events. simpl.
    by rewrite requests_of_app, Hreq.
Qed.

End client_runs.

(** ** C8 *)

(** C8 (amended). For every query string and policy input such that the
    input encodes as JSON and the URL parses, the sidecar middleware hands
    exactly one request to the HTTP client: a POST to the base URL followed
    by [/v1/] and the query with every ['.'] replaced by ['/'], whose body
    is the JSON object with the one member ["input"], the encoded policy
    input. A middleware built while [OPA_HOST] and [OPA_PORT] are unset
    posts to the base URL [http://localhost:8181]. *)
Theorem C8_remote_request_shape `{Extern} (queryString : string) (ctx : Ctx)
    (request : Value) (w : World) (input : JSON) :
  json_Marshal (queryInput_Value (inputForRequest ctx request)) = inl input →
  (∀ c : opaClient,
     url_Parse (baseURL c +:+ "/v1/" +:+ dots_to_slashes queryString) = None →
     posts (sidecarMiddleware c queryString) ctx request w
       (baseURL c +:+ "/v1/" +:+ dots_to_slashes queryString)
       (JObj [("input", input)]))
  ∧ (∀ env : gmap string string,
       env !! "OPA_HOST" = None →
       env !! "OPA_PORT" = None →
       url_Parse ("http://localhost:8181/v1/" +:+ dots_to_slashes queryString)
         = None →
       posts (NewSidecarMiddleware env queryString) ctx request w
         ("http://localhost:8181/v1/" +:+ dots_to_slashes queryString)
         (JObj [("input", input)])).
Proof.
  intros Hm. split.
  - intros c Hu. by apply sidecarMiddleware_posts.
  - intros env Hh Hp Hu. unfold NewSidecarMiddleware, os_Getenv.
    rewrite Hh, Hp. simpl.
    by apply (sidecarMiddleware_posts (NewOPAClient "http://localhost:8181")).
Qed.

(** The claim C8 as stated fails: for a request that holds a channel the
    policy input does not encode, and the sidecar middleware returns the
    error of the encoder without handing any request to the HTTP
    client. *)
Lemma C8_counterexample :
  let mw := sidecarMiddleware (NewOPAClient "http://localhost:8181") "authz.allow" in
  let run := mw countingHandler Background (VOpaque "chan int") (world_at 0) in
  json_Marshal (queryInput_Value (inputForRequest Background (VOpaque "chan int")))
    = inr (errors_New "json: unsupported type")
  ∧ run.1 = Done (VNil, Some (errors_New "json: unsupported type"))
  ∧ sent run.2 = []
  ∧ ∀ url body, ¬ posts mw Background (VOpaque "chan int") (world_at 0) url body.
Proof.
  split_and!; [reflexivity..|].
  intros url body (o & req & Ho & Hsent & _).
  assert (o = Rejects (errors_New "json: unsupported type")
                (sidecarMiddleware (NewOPAClient "http://localhost:8181")
                   "authz.allow" countingHandler Background (VOpaque "chan int")
                   (world_at 0)).2) as ->.
  { eapply observe_reject; [exact Ho|]. reflexivity. }
  vm_compute in Hsent. discriminate.
Qed.

(** C8 (amended) at the query [authz.allow] of a middleware built in an
    empty environment. *)
Lemma C8_witness :
  posts (NewSidecarMiddleware ∅ "authz.allow") Background
    (VData (JStr "GET /orders")) (world_at 0)
    "http://localhost:8181/v1/authz/allow"
    (JObj [("input", JObj [("request", JStr "GET /orders")])]).
Proof.
  refine (proj2 (C8_remote_request_shape "authz.allow" Background
                   (VData (JStr "GET /orders")) (world_at 0)
                   (JObj [("request", JStr "GET /orders")]) _) ∅ _ _ _);
    reflexivity.
Defined.

(** X14. A query never looks at the status code of the response: whatever
    the status, when the round trip answers with a readable body the query
    returns what decoding that body gives. *)
Theorem X14_status_code_is_not_inspected `{Extern} (c : opaClient) (ctx : Ctx)
    (query : string) (data : Value) (response resp : AuthorizationResponse)
    (w : World) (input : JSON) (got : option bool) (status : Z) (body : string) :
  json_Marshal data = inl input →
  url_Parse (baseURL c +:+ "/v1/" +:+ strings_ReplaceAll query "." "/") = None →
  http_RoundTrip (query_request c query (JObj [("input", input)]))
    = mkRoundTrip got (inl (mkResponse status body None)) →
  json_Unmarshal body response = (resp, None) →
  (Query c ctx query data response w).1 = Done (None, resp).
Proof.
  intros Hm Hu Hrt Hdec.
  destruct (Query_answered c ctx query data response w _ _ _ _ Hm Hu Hrt)
    as (evs & -> & _).
  by rewrite Hdec.
Qed.

(** X15. When the policy input cannot be encoded, the sidecar middleware
    returns the encoder's error -- not a denial --, writes one error record
    and sends no request to the decision service. *)
Theorem X15_unencodable_input_is_an_error_without_request `{Extern}
    (c : opaClient) (queryString : string) (next : Endpoint) (ctx : Ctx)
    (request : Value) (w : World) (err : error) :
  json_Marshal (queryInput_Value (inputForRequest ctx request)) = inr err →
  sidecarMiddleware c queryString next ctx request w
  = (Done (VNil, Some err),
     add_events w 1
       [EvSpanStart (stage_span "AuthZPolicyExternal" ctx w);
        EvLog ErrorLevel "Failed to marshall request body"])
  ∧ sent (sidecarMiddleware c queryString next ctx request w).2 = sent w.
Proof.
  intros Hm.
  assert (Hrun : sidecarMiddleware c queryString next ctx request w
    = (Done (VNil, Some err),
       add_events w 1
         [EvSpanStart (stage_span "AuthZPolicyExternal" ctx w);
          EvLog ErrorLevel "Failed to marshall request body"])).
  { unfold sidecarMiddleware. rewrite bind_run, NewChildSpanAndContext_eq.
    rewrite bind_run, Query_unencodable with (err := err)
      by (by rewrite inputForRequest_span).
    by rewrite add_events_add. }
  split; [done|]. rewrite Hrun. by apply sent_add_plain.
Qed.

(** X16. The response of the sidecar middleware starts with [result =
    false]: whatever the status code of the answer, a body whose decoding
    leaves or sets the result false makes the call denied. *)
Theorem X16_sidecar_denies_unless_result_is_true `{Extern} (c : opaClient)
    (queryString : string) (next : Endpoint) (ctx : Ctx) (request : Value)
    (w : World) (input : JSON) (got : option bool) (status : Z) (body : string)
    (resp : AuthorizationResponse) :
  json_Marshal (queryInput_Value (inputForRequest ctx request)) = inl input →
  url_Parse (baseURL c +:+ "/v1/" +:+ strings_ReplaceAll queryString "." "/") = None →
  http_RoundTrip (query_request c queryString (JObj [("input", input)]))
    = mkRoundTrip got (inl (mkResponse status body None)) →
  json_Unmarshal body (mkAuthorizationResponse false) = (resp, None) →
  Result resp = false →
  (sidecarMiddleware c queryString next ctx request w).1
  = Done (VNil, Some ErrDeniedByPolicy).
Proof.
  intros Hm Hu Hrt Hdec Hres.
  unfold sidecarMiddleware. rewrite bind_run, NewChildSpanAndContext_eq.
  rewrite <- (inputForRequest_span ctx (stage_span "AuthZPolicyExternal" ctx w))
    in Hm.
  destruct (Query_answered c
              (opentracing_ContextWithSpan ctx (stage_span "AuthZPolicyExternal" ctx w))
              queryString _ (mkAuthorizationResponse false)
              (add_events w 1 [EvSpanStart (stage_span "AuthZPolicyExternal" ctx w)])
              _ _ _ _ Hm Hu Hrt) as (evs & Hq & _).
  rewrite bind_run, Hq, Hdec. simpl. by rewrite Hres.
Qed.

(** X17. The path that a query sends has the length of the query and no
    ['.']: byte for byte it is the query with ['/'] in the place of every
    ['.'] and every other byte kept. *)
Theorem X17_query_path_has_no_dot `{Extern} (query : string) (n : nat) :
  String.length (strings_ReplaceAll query "." "/") = String.length query
  ∧ String.get n (strings_ReplaceAll query "." "/")
    = (λ c, if Ascii.eqb c "."%char then "/"%char else c) <$> String.get n query.
Proof.
  rewrite ReplaceAll_dots. revert n.
  induction query as [|c rest IH]; intros n; [by destruct n|].
  destruct (IH (pred n)) as (Hlen & _).
  simpl. split; [by rewrite Hlen|].
  destruct n as [|n]; [done|apply (IH n)].
Qed.

(** X18. Whatever the environment holds, the base URL of the sidecar
    middleware has a host and a port that are not empty: a variable that
    is unset or set to the empty string gives way to [localhost] and
    [8181]; any other value is used as it is. *)
Theorem X18_sidecar_host_and_port_are_never_empty `{Extern}
    (env : gmap string string) (queryString : string) :
  ∃ h p,
    NewSidecarMiddleware env queryString
    = sidecarMiddleware (NewOPAClient ("http://" +:+ h +:+ ":" +:+ p)) queryString
    ∧ h ≠ "" ∧ p ≠ ""
    ∧ (h = "localhost" ∧ (env !! "OPA_HOST" = None ∨ env !! "OPA_HOST" = Some "")
       ∨ env !! "OPA_HOST" = Some h)
    ∧ (p = "8181" ∧ (env !! "OPA_PORT" = None ∨ env !! "OPA_PORT" = Some "")
       ∨ env !! "OPA_PORT" = Some p).
Proof.
  unfold NewSidecarMiddleware, os_Getenv.
  destruct (env !! "OPA_HOST") as [[|a h]|], (env !! "OPA_PORT") as [[|b p]|];
    simpl; eexists _, _; (split; [reflexivity|]); split_and!; eauto.
Qed.

(** ** Spans *)

(** X19. [NewChildSpanAndContext] makes the new span the active span of
    the context it returns, as a child of the span that was active in the
    context it was given (without parent if none was); a span started
    from the returned context is a child of the new span, and the
    returned context is derived from the given one. *)
Theorem X19_spans_are_chained_through_the_context `{Extern} (ctx : Ctx)
    (name : string) (w : World) :
  ∃ ctx1 s1 w1,
    NewChildSpanAndContext ctx name w = (Done (ctx1, s1), w1)
    ∧ opentracing_SpanFromContext ctx1 = Some s1
    ∧ parent_span s1 = span_id <$> opentracing_SpanFromContext ctx
    ∧ derived_from ctx1 ctx
    ∧ ∀ name' w2,
        ∃ ctx2 s2 w3,
          NewChildSpanAndContext ctx1 name' w2 = (Done (ctx2, s2), w3)
          ∧ parent_span s2 = Some (span_id s1).
Proof.
  eexists _, _, _. split; [apply NewChildSpanAndContext_eq|].
  split_and!; [done..| |].
  - simpl. right. destruct ctx; by left.
  - intros name' w2. eexists _, _, _. split; [apply NewChildSpanAndContext_eq|done].
Qed.

(** ** The transport boundary *)

Section transport_runs.
Context `{Extern}.
Variable package_message : string → string → string.

Lemma header_values_filter_ne h key key' :
  key' ≠ key →
  header_values (filter (λ kv : string * list string, kv.1 ≠ key) h) key'
  = header_values h key'.
Proof.
  intros Hne. induction h as [|[k vs] h IH]; [done|].
  rewrite filter_cons. simpl. case_decide as Hk; simpl in *.
  - by rewrite IH.
  - destruct (String.eqb_spec k key'); [|done]. exfalso. congruence.
Qed.

Lemma header_values_Set rw key value key' :
  header_values (rw_Header (rw_Header_Set rw key value)) key'
  = if String.eqb key key' then [value] else header_values (rw_Header rw) key'.
Proof.
  simpl. destruct (String.eqb_spec key key') as [->|Hne]; [done|].
  apply header_values_filter_ne. congruence.
Qed.

Lemma header_values_map_other (h : list (string * list string)) key value key' :
  key ≠ key' →
  header_values
    (map (λ kv : string * list string,
            if String.eqb kv.1 key then (kv.1, (kv.2 ++ [value])%list) else kv) h)
    key'
  = header_values h key'.
Proof.
  intros Hne. induction h as [|[k vs] h IH]; [done|]. simpl.
  destruct (String.eqb_spec k key) as [->|Hk]; simpl.
  - destruct (String.eqb_spec key key'); [done|apply IH].
  - destruct (String.eqb_spec k key'); [done|apply IH].
Qed.

Lemma header_values_map_same (h : list (string * list string)) key value :
  existsb (λ kv : string * list string, String.eqb kv.1 key) h = true →
  header_values
    (map (λ kv : string * list string,
            if String.eqb kv.1 key then (kv.1, (kv.2 ++ [value])%list) else kv) h)
    key
  = (header_values h key ++ [value])%list.
Proof.
  induction h as [|[k vs] h IH]; [done|]. simpl.
  destruct (String.eqb_spec k key) as [->|Hk]; simpl.
  - intros _. by rewrite String.eqb_refl.
  - intros Hex. destruct (String.eqb_spec k key); [done|by apply IH].
Qed.

Lemma header_values_absent (h : list (string * list string)) key :
  existsb (λ kv : string * list string, String.eqb kv.1 key) h = false →
  header_values h key = [].
Proof.
  induction h as [|[k vs] h IH]; [done|]. simpl.
  destruct (String.eqb_spec k key); [done|apply IH].
Qed.

Lemma header_values_app (h h' : list (string * list string)) key :
  header_values (h ++ h') key
  = if existsb (λ kv : string * list string, String.eqb kv.1 key) h
    then header_values h key else header_values h' key.
Proof.
  induction h as [|[k vs] h IH]; [done|]. simpl.
  destruct (String.eqb_spec k key); [done|apply IH].
Qed.

Lemma header_values_Add rw key value key' :
  header_values (rw_Header (rw_Header_Add rw key value)) key'
  = if String.eqb key key'
    then (header_values (rw_Header rw) key' ++ [value])%list
    else header_values (rw_Header rw) key'.
Proof.
  unfold rw_Header_Add. simpl.
  destruct (String.eqb_spec key key') as [<-|Hne].
  - destruct (existsb _ (rw_Header rw)) eqn:Hex.
    + by apply header_values_map_same.
    + rewrite header_values_app, Hex, (header_values_absent _ _ Hex). simpl.
      by rewrite String.eqb_refl.
  - destruct (existsb _ (rw_Header rw)) eqn:Hex.
    + by apply header_values_map_other.
    + rewrite header_values_app. simpl.
      rewrite (proj2 (String.eqb_neq _ _) Hne).
      destruct (existsb (λ kv : string * list string, String.eqb kv.1 key')
                  (rw_Header rw)) eqn:Hex'; [done|].
      by rewrite (header_values_absent _ _ Hex').
Qed.

Lemma rw_Write_Header rw doc : rw_Header (rw_Write rw doc) = rw_Header rw.
Proof. by destruct rw as [h [st|] b]. Qed.

Lemma rw_Write_Body rw doc : rw_Body (rw_Write rw doc) = (rw_Body rw ++ [doc])%list.
Proof. by destruct rw as [h [st|] b]. Qed.

Lemma rw_Write_Status rw doc :
  rw_Status (rw_Write rw doc) = Some (default StatusOK (rw_Status rw)).
Proof. by destruct rw as [h [st|] b]. Qed.

End transport_runs.

(** X20. A call denied by policy, at either decision point, is answered
    with status 401 and nothing else: the error encoder writes no body and
    leaves the header alone. *)
Theorem X20_denial_is_answered_unauthorized `{Extern}
    (package_message : string → string → string) (d : DecisionPoint)
    (queryString : string) (next : Endpoint) (ctx : Ctx) (request : Value)
    (w : World) (e : error) (rw : ResponseWriter) :
  denies d queryString ctx request w →
  (authorize d queryString next ctx request w).1 = Done (VNil, Some e) →
  rw_Status rw = None →
  HTTPErrorEncoder package_message ctx e rw
  = mkResponseWriter (rw_Header rw) (Some StatusUnauthorized) (rw_Body rw).
Proof.
  intros Hdeny Hrun Hfresh.
  assert (e = ErrDeniedByPolicy) as ->.
  { destruct d as [query|c]; simpl in *.
    - destruct Hdeny as (ctx1 & span & w1 & results & Hspan & Heval & Hd).
      revert Hrun. unfold inProcessMiddleware.
      rewrite bind_run, Hspan, Heval, Hd. simpl. by intros [= <-].
    - destruct Hdeny as (ctx1 & span & w1 & resp & w2 & Hspan & Hq & Hd).
      revert Hrun. unfold sidecarMiddleware.
      rewrite bind_run, Hspan, bind_run, Hq, Hd. simpl. by intros [= <-]. }
  unfold HTTPErrorEncoder, WriteHeader. simpl. by rewrite Hfresh.
Qed.

(** X21. A call without token is answered with status 500, not 401, and
    the body [{"error": "JWT not present"}]: the error encoder knows no
    error of the verification stage. *)
Theorem X21_missing_token_is_answered_with_a_server_error `{Extern}
    (package_message : string → string → string) (a : Authenticator)
    (next : Endpoint) (ctx : Ctx) (request : Value) (w : World) (e : error)
    (rw : ResponseWriter) :
  (∀ tokenString, ctx_Value ctx JWTContextKey ≠ VString tokenString) →
  (NewMiddleware a next ctx request w).1 = Done (VNil, Some e) →
  rw_Status rw = None →
  HTTPErrorEncoder package_message ctx e rw
  = mkResponseWriter (rw_Header rw) (Some StatusInternalServerError)
      (rw_Body rw ++ [JObj [("error", JStr "JWT not present")]])%list.
Proof.
  intros Hno Hrun Hfresh. rewrite missing_token_run in Hrun by done.
  injection Hrun as <-.
  unfold HTTPErrorEncoder, WriteHeader, rw_Write, WriteHeader. simpl.
  by rewrite Hfresh.
Qed.

(** X22. After [HTTPEncodeResponse] the header [Access-Control-Allow-Origin]
    is exactly ["*"], whatever it was, and [application/json] is added
    after the content types already there. A response that encodes is
    written to the body, with status 200 if no status was written before;
    for one that does not encode the error is returned and neither status
    nor body is written. *)
Theorem X22_response_encoder_headers_and_body `{Extern} (ctx : Ctx)
    (rw : ResponseWriter) (response : Value) :
  let rw' := (HTTPEncodeResponse ctx rw response).1 in
  let err := (HTTPEncodeResponse ctx rw response).2 in
  header_values (rw_Header rw') "Access-Control-Allow-Origin" = ["*"]
  ∧ header_values (rw_Header rw') "Content-Type"
    = (header_values (rw_Header rw) "Content-Type" ++ ["application/json"])%list
  ∧ match json_Marshal response with
    | inl doc =>
        err = None
        ∧ rw_Body rw' = (rw_Body rw ++ [doc])%list
        ∧ rw_Status rw' = Some (default StatusOK (rw_Status rw))
    | inr e =>
        err = Some e ∧ rw_Body rw' = rw_Body rw ∧ rw_Status rw' = rw_Status rw
    end.
Proof.
  unfold HTTPEncodeResponse, json_Encode.
  set (rw1 := rw_Header_Set rw "Access-Control-Allow-Origin" "*").
  set (rw2 := rw_Header_Add rw1 "Content-Type" "application/json").
  assert (H1 : header_values (rw_Header rw2) "Access-Control-Allow-Origin" = ["*"]).
  { unfold rw2. rewrite header_values_Add. unfold rw1.
    by rewrite header_values_Set. }
  assert (H2 : header_values (rw_Header rw2) "Content-Type"
               = (header_values (rw_Header rw) "Content-Type"
                  ++ ["application/json"])%list).
  { unfold rw2. rewrite header_values_Add. unfold rw1.
    by rewrite header_values_Set. }
  destruct (json_Marshal response) as [doc|e]; cbn [fst snd].
  - rewrite rw_Write_Header, rw_Write_Body, rw_Write_Status. by split_and!.
  - by split_and!.
Qed.

(** ** Runs of the further properties *)

(** X1 at a call with an empty context. *)
Lemma X1_witness :
  NewMiddleware authn_k1 countingHandler Background VNil (world_at 0)
  = (Done (VNil, Some ErrTokenContextMissing),
     add_events (world_at 0) 1
       [EvSpanStart (stage_span "ParseJWT" Background (world_at 0));
        EvLog ErrorLevel "Failed to extract JWT token from context";
        EvSpanFinish (stage_span "ParseJWT" Background (world_at 0))]).
Proof.
  apply (X1_missing_token authn_k1 countingHandler Background VNil (world_at 0)).
  intros tokenString. simpl. discriminate.
Defined.

(** X2 at the token signed with HS256. *)
Lemma X2_witness :
  let run := NewMiddleware authn_k1 countingHandler (ctx_with_token "hs256.k9.plain")
               VNil (world_at 0) in
  ∃ msg,
    run.2 = add_events (world_at 0) 1
              [EvSpanStart (stage_span "ParseJWT" (ctx_with_token "hs256.k9.plain")
                              (world_at 0));
               EvLog ErrorLevel msg;
               EvSpanFinish (stage_span "ParseJWT" (ctx_with_token "hs256.k9.plain")
                               (world_at 0))].
Proof.
  intros run.
  apply (X2_rejection_leaves_one_record authn_k1 (ctx_with_token "hs256.k9.plain")
           VNil (world_at 0) run.2 ErrUnexpectedSigningMethod).
  vm_compute. reflexivity.
Defined.

(** X3 at the key set whose entry has no certificate. *)
Lemma X3_witness :
  let ctx := ctx_with_token "rs256.k1.plain" in
  (NewMiddleware authn_no_x5c countingHandler ctx VNil (world_at 0)).2
  = add_events (world_at 0) 1 [EvSpanStart (stage_span "ParseJWT" ctx (world_at 0))]
  ∧ ∀ next, NewMiddleware authn_no_x5c next ctx VNil (world_at 0)
            = (Panicked "index out of range [0] with length 0",
               add_events (world_at 0) 1
                 [EvSpanStart (stage_span "ParseJWT" ctx (world_at 0))]).
Proof.
  intros ctx.
  apply (X3_panic_leaves_the_span_open authn_no_x5c ctx VNil (world_at 0)
           "index out of range [0] with length 0").
  vm_compute. reflexivity.
Defined.

(** X4 at a verified call whose context has a deadline and a cancel
    function. *)
Lemma X4_witness :
  let ctx := WithValue (WithDeadline (WithCancel Background 7) 900) JWTContextKey
               (VString "rs256.k1.plain") in
  ∃ ctx' w0,
    (∀ next, NewMiddleware authn_k1 next ctx VNil (world_at 200) = next ctx' VNil w0)
    ∧ derived_from ctx' ctx
    ∧ ctx_Deadline ctx' = Some 900%Z
    ∧ ctx_cancellers ctx' = [7]
    ∧ (∀ key, key ∉ stage_keys (Verification authn_k1) →
              ctx_Value ctx' key = ctx_Value ctx key)
    ∧ opentracing_SpanFromContext ctx'
      = Some (stage_span "ParseJWT" ctx (world_at 200)).
Proof.
  intros ctx.
  apply (X4_handed_context_is_derived (Verification authn_k1) ctx VNil (world_at 200)
           (stage_middleware (Verification authn_k1) countingHandler ctx VNil
              (world_at 200)).2).
  vm_compute. reflexivity.
Defined.

(** X5 at the embedded decision point, for a call that carries claims. *)
Lemma X5_witness :
  let d := Embedded (mkPrepared "data.authz.allow" "package authz") in
  let ctx := WithValue Background JWTClaimsContextKey (VClaims ∅) in
  ∃ ctx' w0,
    (∀ next, authorize d "data.authz.allow" next ctx VNil (world_at 0)
             = next ctx' VNil w0)
    ∧ allowed_decision d (ctx_Value ctx' AuthorizationResultsContextKey)
    ∧ spans_finished w0 = 1%nat.
Proof.
  intros d ctx.
  apply (X5_handler_sees_the_allowing_decision d "data.authz.allow" ctx VNil
           (world_at 0)
           (authorize d "data.authz.allow" countingHandler ctx VNil (world_at 0)).2).
  vm_compute. reflexivity.
Defined.

(** X6 at the embedded decision point, for a call without identity. *)
Lemma X6_witness :
  let d := Embedded (mkPrepared "data.authz.allow" "package authz") in
  let w' := (authorize d "data.authz.allow" countingHandler Background VNil
               (world_at 0)).2 in
  next_span w' = 1%nat ∧ spans_finished w' = 0%nat.
Proof.
  intros d w'.
  apply (X6_rejection_leaves_the_span_open d "data.authz.allow" Background VNil
           (world_at 0) w' ErrDeniedByPolicy).
  vm_compute. reflexivity.
Defined.

(** X8 at a verified call. *)
Lemma X8_witness :
  ∃ token ctx' w0,
    (∀ next, NewMiddleware authn_k1 next (ctx_with_token "rs256.k1.exp0") VNil
               (world_at 200) = next ctx' VNil w0)
    ∧ verified (kf authn_k1) SigningMethodRS256 MapClaimsFactory
        (ctx_with_token "rs256.k1.exp0") (world_at 200) token
    ∧ ∀ span request',
        inputForRequest (opentracing_ContextWithSpan ctx' span) request'
        = {| Request := request'; Claims_ := VClaims (Claims token) |}.
Proof.
  apply (X8_policy_input_carries_the_verified_claims authn_k1
           (ctx_with_token "rs256.k1.exp0") VNil (world_at 200)
           (NewMiddleware authn_k1 countingHandler (ctx_with_token "rs256.k1.exp0")
              VNil (world_at 200)).2).
  vm_compute. reflexivity.
Defined.

(** X7 at the remote decision point, whose service answers a denial. *)
Lemma X7_witness :
  let d := Remote (NewOPAClient "http://localhost:8181") in
  (denies d "authz.allow" Background VNil (world_at 0)
   ∧ ErrDeniedByPolicy = ErrDeniedByPolicy)
  ∨ evaluation_fails d "authz.allow" Background VNil (world_at 0) ErrDeniedByPolicy.
Proof.
  intros d.
  apply (X7_rejection_is_denial_or_failed_evaluation d "authz.allow" Background VNil
           (world_at 0)
           (authorize d "authz.allow" countingHandler Background VNil (world_at 0)).2).
  vm_compute. reflexivity.
Defined.

(** X10 at the rotated key set: the newer certificate is the one used. *)
Lemma X10_witness :
  kf authn_rotated (token_of "rs256.k1.plain" SigningMethodRS256 "RS256" "k1" ∅)
    (world_at 0)
  = (Done (VRSAPublicKey (jwt_ParseRSAPublicKeyFromPEM (pem_wrap "MIIC")).1, None),
     world_at 0).
Proof.
  apply (X10_last_entry_with_the_kid_is_used authn_rotated
           (token_of "rs256.k1.plain" SigningMethodRS256 "RS256" "k1" ∅)
           (world_at 0) [key_old] [] key_new "MIIC" []).
  - reflexivity.
  - vm_compute. reflexivity.
  - reflexivity.
  - intros k Hk _. apply list_elem_of_singleton in Hk as ->. discriminate.
  - intros k Hk. by apply elem_of_nil in Hk.
Defined.

(** X11 at a token whose key identifier is ["k9"]. *)
Lemma X11_witness :
  (kf authn_k1 (token_of "rs256.k9.plain" SigningMethodRS256 "RS256" "k9" ∅)
     (world_at 0)).1
  = Done (VToken (token_of "rs256.k9.plain" SigningMethodRS256 "RS256" "k9" ∅),
          Some ErrInvalidKeyID).
Proof.
  apply (X11_key_function_fails_exactly_for_an_absent_kid authn_k1
           (token_of "rs256.k9.plain" SigningMethodRS256 "RS256" "k9" ∅) (world_at 0)).
  - intros key Hin. apply list_elem_of_singleton in Hin as ->. discriminate.
  - intros key Hin. apply list_elem_of_singleton in Hin as ->.
    vm_compute. discriminate.
Defined.

(** X14 at the decision service of the runs. *)
Lemma X14_witness :
  (Query (NewOPAClient "http://localhost:8181") Background "authz.allow"
     (VQueryInput (VData (JStr "GET /orders")) VNil)
     (mkAuthorizationResponse false) (world_at 0)).1
  = Done (None, mkAuthorizationResponse false).
Proof.
  apply (X14_status_code_is_not_inspected (NewOPAClient "http://localhost:8181")
           Background "authz.allow" (VQueryInput (VData (JStr "GET /orders")) VNil)
           (mkAuthorizationResponse false) (mkAuthorizationResponse false)
           (world_at 0) (JObj [("request", JStr "GET /orders")]) (Some false) 200
           "deny"); reflexivity.
Defined.

(** X15 at a request that holds a channel. *)
Lemma X15_witness :
  let run := sidecarMiddleware (NewOPAClient "http://localhost:8181") "authz.allow"
               countingHandler Background (VOpaque "chan int") (world_at 0) in
  run = (Done (VNil, Some (errors_New "json: unsupported type")),
         add_events (world_at 0) 1
           [EvSpanStart (stage_span "AuthZPolicyExternal" Background (world_at 0));
            EvLog ErrorLevel "Failed to marshall request body"])
  ∧ sent run.2 = sent (world_at 0).
Proof.
  apply (X15_unencodable_input_is_an_error_without_request
           (NewOPAClient "http://localhost:8181") "authz.allow" countingHandler
           Background (VOpaque "chan int") (world_at 0)
           (errors_New "json: unsupported type")).
  reflexivity.
Defined.

(** X16 at the decision service of the runs. *)
Lemma X16_witness :
  (sidecarMiddleware (NewOPAClient "http://localhost:8181") "authz.allow"
     countingHandler Background (VData (JStr "GET /orders")) (world_at 0)).1
  = Done (VNil, Some ErrDeniedByPolicy).
Proof.
  apply (X16_sidecar_denies_unless_result_is_true
           (NewOPAClient "http://localhost:8181") "authz.allow" countingHandler
           Background (VData (JStr "GET /orders")) (world_at 0)
           (JObj [("request", JStr "GET /orders")]) (Some false) 200 "deny"
           (mkAuthorizationResponse false)); reflexivity.
Defined.

(** X9 at the token signed with HS256, in front of the sidecar. *)
Lemma X9_witness :
  let ctx := ctx_with_token "hs256.k9.plain" in
  let w' := (NewMiddleware authn_k1 countingHandler ctx VNil (world_at 0)).2 in
  NewMiddleware authn_k1
    (authorize (Remote (NewOPAClient "http://localhost:8181")) "authz.allow"
       countingHandler) ctx VNil (world_at 0)
  = (Done (VNil, Some ErrUnexpectedSigningMethod), w')
  ∧ sent w' = sent (world_at 0)
  ∧ next_span w' = 1%nat.
Proof.
  intros ctx w'.
  apply (X9_rejected_verification_stops_the_pipeline authn_k1
           (Remote (NewOPAClient "http://localhost:8181")) "authz.allow"
           countingHandler ctx VNil (world_at 0) w' ErrUnexpectedSigningMethod).
  vm_compute. reflexivity.
Defined.

(** X12 at a signer whose key signs, in front of a context that already
    holds a token. *)
Lemma X12_witness :
  ∃ ctx',
    (∀ next, NewSigner run_SignedString "k1" "secret" SigningMethodHS256 ∅ next
               (ctx_with_token "rs256.k1.plain") VNil (world_at 0)
             = next ctx' VNil (world_at 0))
    ∧ extractTokenFromContext ctx' = (Some "HS256.k1.secret", None)
    ∧ derived_from ctx' (ctx_with_token "rs256.k1.plain")
    ∧ ∀ k, k ≠ JWTContextKey →
           ctx_Value ctx' k = ctx_Value (ctx_with_token "rs256.k1.plain") k.
Proof.
  apply (proj1 (X12_signer_stores_the_token_for_the_parser run_SignedString "k1"
                  "secret" SigningMethodHS256 ∅ (ctx_with_token "rs256.k1.plain")
                  VNil (world_at 0)) "HS256.k1.secret").
  vm_compute. reflexivity.
Defined.

(** X13 at a signer whose key identifier is in no entry. *)
Lemma X13_witness :
  (kf authn_k1 (signer_token "k9" SigningMethodRS256 ∅) (world_at 0)).1
  = Done (VToken (signer_token "k9" SigningMethodRS256 ∅), Some ErrInvalidKeyID).
Proof.
  apply (X13_signer_kid_is_the_key_looked_up authn_k1 "k9" SigningMethodRS256 ∅
           (world_at 0)).
  - intros key Hin. apply list_elem_of_singleton in Hin as ->. discriminate.
  - intros key Hin. apply list_elem_of_singleton in Hin as ->. discriminate.
Defined.

(** X20 at a denied call and a writer on which nothing was written. *)
Lemma X20_witness :
  HTTPErrorEncoder run_package_message Background ErrDeniedByPolicy fresh_writer
  = mkResponseWriter [] (Some StatusUnauthorized) [].
Proof.
  apply (X20_denial_is_answered_unauthorized run_package_message
           (Embedded (mkPrepared "data.authz.allow" "package authz"))
           "data.authz.allow" countingHandler Background VNil (world_at 0)
           ErrDeniedByPolicy fresh_writer).
  - simpl. eexists _, _, _, _. split_and!; reflexivity.
  - vm_compute. reflexivity.
  - reflexivity.
Defined.

(** X21 at a call with an empty context. *)
Lemma X21_witness :
  HTTPErrorEncoder run_package_message Background ErrTokenContextMissing fresh_writer
  = mkResponseWriter [] (Some StatusInternalServerError)
      [JObj [("error", JStr "JWT not present")]].
Proof.
  apply (X21_missing_token_is_answered_with_a_server_error run_package_message
           authn_k1 countingHandler Background VNil (world_at 0)
           ErrTokenContextMissing fresh_writer).
  - intros tokenString. simpl. discriminate.
  - vm_compute. reflexivity.
  - reflexivity.
Defined.
